(* ===== verification/_CoqProject ===== *)
-Q . S2P
Prelude.v
Jwt.v
Auth.v
Api.v
Unet.v
Training.v
Plateau.v
Volume.v
Display.v
Session.v
Checkpoint.v
Config.v
