(* ===== verification/Prelude.v ===== *)
(** * A verification development of aurette2/mlopsprojectgroup3

    The repository holds two Python applications.

    - [src/project1/backend/app/controller.py]: a FastAPI web service.
      It checks credentials against a fixed in-memory table
      ([users_db], passwords hashed with bcrypt through passlib). The
      [/token] endpoint issues HS256 JSON Web Tokens carrying the claims
      [sub], [role] and [exp]. The protected endpoints
      ([/generate_report/], [/show_drift], [/vqa]) read the token from
      the [Authorization: Bearer] header through FastAPI's
      [OAuth2PasswordBearer]. [/generate_report/] passes the uploaded
      image to a vision-language model ([BlipMed]).
    - [src/project2/backend/app/model.py]: a Keras U-Net for brain-tumour
      segmentation. [Unet.__init__] builds the encoder/decoder graph
      ([build_model]). The other methods compile, train and evaluate it,
      and load MRI volumes slice by slice.

    The development has one file per component. Each file is a Module
    whose names are those of the source.

    - [Prelude] (this file): the result (error) monad used by every
      component, with its notation in [result_scope]; a state-and-error
      monad for code that threads a store; the tactics and the hint
      databases [s2p] and [s2p_rw]; and the tactic [div_lia] for
      arithmetic with division by constants, which the pooling and
      upsampling of the U-Net need.
    - [Jwt]: the claims of a token payload ([claim], [payload] as a
      [gmap string claim], in the way a Python dict is used here). It
      also holds the interface the service relies on from PyJWT: the
      [Class JwtCodec] with its encode/verify round-trip law, and the
      claim validation of [jwt.decode] (expiry [exp], not-before
      [nbf]) written out. [jwt_header_ok] is the part of [jwt.decode]
      that needs no key (the token parses and names an allowed
      algorithm). A concrete codec instance, [bits_codec],
      satisfies the law and makes every witness executable. PyJWT is a
      library, so this file maps no source lines.
    - [Auth]: controller.py's credential and token layer.
      [CryptContext] is the passlib interface. [users_db],
      [verify_password], [authenticate_user], [create_access_token]
      (with Python's falsy [timedelta(0)] written out) and
      [decode_token] are translated, the last with its two 401 paths.
    - [Api]: the endpoints [get_hello], [login], [generate_report],
      [show_drift] and [question_image]. It also has FastAPI's
      [OAuth2PasswordBearer] header parsing, which is library code
      written out, and the [ImageBackend] interface that stands for PIL
      and the BlipMed model. The service is a deterministic [serve]
      function of a world made of a clock and a ghost log of issued
      tokens. [reachable] is the step relation of request/clock traces,
      and the invariant on issued tokens is proved by rule induction
      over it.
    - [Unet]: model.py's [Unet.__init__]/[build_model]. The Keras layer
      constructors used by the code ([Input], [Conv2D], [MaxPooling2D],
      [Dropout], [UpSampling2D], [concatenate]) get their argument
      checks ([layer_init]: the [kernel_initializer] lookup, [filters],
      the dropout rate), their shape inference and their
      construction-time errors. They are composed in a
      state-and-error monad over the layer graph, in the order the
      source builds them. Each node records its inbound nodes, and
      [hoare] is a Hoare triple for the builder monad that tracks the
      tensors in scope.
    - [Training]: model.py's [compile_model], [compile_and_load_weights],
      [evaluate] and [train]. [train] runs on the compile configuration
      of [self.model]: [fit] raises on an uncompiled model and trains
      from the optimizer's current rate. The Keras callbacks [train] configures are
      written out as state machines: ReduceLROnPlateau
      ([rl_on_epoch_end]), ModelCheckpoint with [save_best_only]
      ([ck_on_epoch_end]) and the CSV log. They run in list order at the
      end of each epoch ([fit_epoch]), and the fit loop [fit_from] runs
      them over an arbitrary validation-loss oracle.
    - [Plateau]: the documented contract of ReduceLROnPlateau as an
      abstract machine ([spec_step]: after [patience] epochs without
      improvement, [lr := max(lr * factor, min_lr)]), and
      [contract_step], the same contract with the arguments of line
      114 written in. The simulation
      relation [sim] connects it to [Training.rl_on_epoch_end], and
      [sim_step] is the simulation diagram. The relation allows the two
      wait counters to differ only once the rate is on its floor.
      [reductions lr], defined with Equations by well-founded recursion
      on the measure [ceil(lr / min_lr)], is the length of the chain of
      reductions from [lr] down to [min_lr].
    - [Volume]: model.py's [imageLoader], [loadDataFromDir],
      [predictByPath] and [predict_segmentation]. A NIfTI volume is its
      list of axial slices, and [nib.load] reads a map from paths to
      volumes. [image[:, :, k]] ([axis2]) raises numpy's [IndexError].
      [cv2.resize] is the [Resize] interface, with a crop/pad instance
      for the witnesses. [X / np.max(X)] is written out with IEEE
      division by zero ([fdiv]) and numpy's [ValueError] on an empty
      array. [model.predict] is an arbitrary function of its input.
    - [Display]: model.py's [showPredictsById] and
      [show_predicted_segmentations]. numpy arrays have an explicit
      shape ([ndarray]); integer indexing ([nd_index], [nd_index2],
      [py_index]) has Python's negative indices and [IndexError];
      [nd_slice] is a clipped slice. The figure is the list of
      [imshow]/[set_title]/[print] calls. [predictByPath] and
      [predict_segmentation] from [Volume] compute the prediction, whose
      per-sample shape contract ([per_sample]) is a hypothesis. The
      attribute [self.volume_start_at], which [__init__] never sets, is
      an [option Z] argument.
    - [Session]: the U-Net object as a state: its attributes and
      [self.model], the compile configuration Keras keeps in it, and a
      store of saved models. [save_model] and [load_model]
      ([compile=False]) dispatch on the file extension as Keras 3 does, [compile_model], [compile_and_load_weights],
      [evaluate] and [train] are transitions; [call] and [reachable]
      give the states an object goes through. [default_model_path] is
      the import-time default argument built from [MODELS_DIR].
    - [Checkpoint]: [train] and [compile_and_load_weights] with their
      effects on a disk of directories and files ([disk]), in program
      order: [os.makedirs(MODELS_DIR)] before [len(train_ids)], then the
      fit loop [fit_io], in which [ModelCheckpoint] formats its path
      with [str.format] (written out as CPython scans a format string,
      [format_go], with the [FormatSpec] interface for one value) and
      saves the weights, and [CSVLogger] writes its rows. [plot_model]
      writes the drawing of the graph.
      [parse_checkpoint_epoch] reads the epoch back from a name.
    - [Config]: [load_dotenv] and [os.getenv] as both modules use them
      at import; [model.py]'s import, which raises when [MODELS_DIR] is
      unset; and the route table [app_opt] with [SECRET_KEY] as an
      [option string], with PyJWT's [TypeError] on a [None] key. With a
      key set, [app_opt] is [Api.app].

    Theorems, by group:
    - Auth: [authenticate_user] returns the stored user exactly when the
      password verifies, and an error otherwise. The token created at
      login carries [sub], [role] and [exp = now + 3600]. A zero
      [expires_delta] falls back to 45 minutes. [decode_token] returns
      the payload of a token created with the same key exactly while
      [now < exp], and raises 401 afterwards or when [sub] is missing.
    - Api: [show_drift] answers 200 only for a token whose payload has
      [role = "admin"]. The server's invariant is that every token it
      issued is a signed payload whose [sub]/[role] come from
      [users_db]. Hence a 200 from [/show_drift] on an issued token
      means the admin account logged in less than an hour earlier, and
      the non-admin account never gets one. From every state the
      admin gets a 200 from [/show_drift] within two requests, so no
      state locks the admin out. [/vqa] answers without
      decoding the token (a finding). [generate_report] returns the
      whole user record, password hash included (a finding).
    - Unet: the graph builds exactly when the [kernel_initializer] is
      a name Keras knows, the dropout rate is in [[0, 1]],
      [num_classes] is positive and [img_size] is a multiple of 16. It then maps [(n, n, 2)] to [(n, n, num_classes)]
      with 37 layers and [7 759 776 + 33 * num_classes] parameters,
      independently of [n]. Sizes that are not multiples of 16 raise the
      Concatenate shape error at construction, after an unknown
      initializer and a bad rate and before [num_classes = 0]. Every
      model built is a well-typed U-Net: each layer has the inferred
      output shape, each edge comes from an earlier layer with the
      shape it claims, and the four concatenations take the tensors
      that entered the four poolings, in mirrored order.
    - Training: for every sequence of validation losses, the learning
      rate never rises and stays within [1e-6] and the rate the
      optimizer held when [train] was called. From
      0.001 it takes only six values, so at most five reductions take
      effect. The checkpoints written have strictly decreasing losses,
      and the last one is an epoch of least loss. The CSV log has one
      row per epoch. [train] raises [TypeError] on [train_ids=None],
      and otherwise [ValueError] on a model never compiled (as after
      [__init__]).
      [evaluate] prints every metric beside its description. The
      compile and evaluate metric lists agree only for 4 classes.
    - Plateau: the rates [train] runs with are, for every loss
      sequence, those of the contract with line 114's arguments (a
      refinement), from the optimizer's current rate. Proved
      on the contract and carried over: epochs 0 and 1 never lower the
      rate, and no two epochs in a row do. The reductions terminate:
      whatever the number of epochs, [train] lowers the rate at most
      [reductions lr] times ([lr] the optimizer's rate), after which it sits on
      [min_lr].
    - Volume: [predict_segmentation] succeeds exactly when the slice
      window lies inside both volumes, and otherwise raises the
      [IndexError] of the first flair index out of range. On
      non-negative volumes the network input has [volume_slices]
      slices, all in [[0, 1]] or NaN, and on all-zero volumes it is NaN
      everywhere. [imageLoader] leaves its second channel zero (a
      finding). [loadDataFromDir] raises on its first file, so it never
      loads anything (a finding). [predictByPath] is
      [predict_segmentation] with the default window.
    - Display: [showPredictsById] draws its six panels when the files
      exist, the volumes are deep enough and the network has at least
      four classes. Its flair panel and its prediction panels show the
      same slice exactly when [start_slice >= 0] (a finding). With
      fewer classes it raises [IndexError] after predicting.
      [show_predicted_segmentations] never returns on an object built
      by [__init__]: it always ends in the [AttributeError] on
      [self.volume_start_at]. When a client sets the attribute to [v],
      it draws its panels, and the ground truth and the prediction show
      the same slice only for [v = 22] (a finding).
    - Session: saving then loading gives the same object, uncompiled,
      exactly on [.keras], [.h5] and [.hdf5] paths (the default path is
      one); other paths make [model.save] raise. A loaded model is not
      compiled, so [train] raises until [compile_model] is called. Right after a
      compile, [train] is [Training.train]. In every reachable state
      the optimizer rate is at most [learning_rate]. A second [train]
      starts from the rate the first one ended with (a finding).
    - Checkpoint: a checkpoint name reads back as its epoch (a round
      trip through [str.format] and the decimal parser), so when [train]
      returns every saved epoch has its own file, the log has every
      row, and [compile_and_load_weights] on a name loads that epoch.
      [train] with [train_ids=None] has already created the directory
      when it raises; [train] on disk returns what the object-level
      [train] returns.
    - Config: with [SECRET_KEY] unset, [/token] answers 500 for valid
      credentials and the protected routes answer only 401 or 500 (a
      finding). [model.py] imports exactly when [MODELS_DIR] is set.

    Bounds and fuel: no definition needs fuel. The one recursion that
    is not structural, [Plateau.reductions], is well-founded on a
    measure that the proof obligation shows decreasing. The server is a function
    of its inputs; traces are finite lists of steps; the U-Net builder
    is straight-line code. Time is in whole seconds ([Z]), which is how
    PyJWT stores [exp] (it truncates the datetime to an integer
    timestamp). Floating-point values (dropout rate, learning rates) are
    exact rationals ([Q]), and so are voxel intensities; the
    witnesses of [Volume] use input size 16 and volumes of 155 slices,
    the depth of a BraTS 2020 volume, so the window [22..121] fits.

    Not modelled: the bcrypt algorithm, HMAC-SHA256 and the JSON/base64
    encoding of tokens, which are replaced by the interfaces above; the
    vision-language model and the PIL decoder, which are opaque
    functions that may fail; the tensor arithmetic of Keras (convolution
    values, training), of which only shapes and parameter counts are
    modelled; the interpolation of [cv2.resize], of which only the
    shape and the two laws are used; cv2's own error on an image size
    of 0, which the theorems exclude by [0 < img_size]; the pixels of
    the figures (only which array goes to which panel is modelled);
    the weights themselves and the file format of saved models (a
    weights file records only the epoch it comes from, and a drawing
    of the graph only the model it draws); the parents [os.makedirs]
    creates, and whether a write's parent directory exists;
    [K.clear_session], which resets Keras' global state that nothing
    here depends on; the rounding and float formatting of printed
    numbers; the attribute and item fields, conversions and nested
    fields of [str.format]; the [aud]/[iat]/[iss] checks of PyJWT,
    which the service never requests; the module imports and
    [BlipMed()] at import time. *)

From stdpp Require Export base gmap strings list countable.
From Stdlib Require Export ZArith Lia ZifyNat.

(** ** The result monad: Python exceptions as values *)

Inductive result (E A : Type) : Type :=
| Ok (a : A)
| Err (e : E).
Arguments Ok {E A} a.
Arguments Err {E A} e.

Definition res_bind {E A B} (c : result E A) (k : A -> result E B) : result E B :=
  match c with
  | Ok a => k a
  | Err e => Err e
  end.

Definition res_map {E A B} (f : A -> B) (c : result E A) : result E B :=
  res_bind c (fun a => Ok (f a)).

Definition is_ok {E A} (c : result E A) : bool :=
  match c with Ok _ => true | Err _ => false end.

Declare Scope result_scope.
Delimit Scope result_scope with result.
Notation "'let*' x ':=' c 'in' k" := (res_bind c (fun x => k))
  (at level 100, x name, c at next level, right associativity) : result_scope.
Open Scope result_scope.

#[export] Instance result_eq_dec {E A} `{EqDecision E, EqDecision A} :
  EqDecision (result E A).
Proof. solve_decision. Defined.

Lemma res_bind_Ok {E A B} (a : A) (k : A -> result E B) :
  res_bind (Ok a) k = k a.
Proof. reflexivity. Qed.

Lemma res_bind_Err {E A B} (e : E) (k : A -> result E B) :
  res_bind (Err e) k = Err e.
Proof. reflexivity. Qed.

Lemma res_bind_Ok_inv {E A B} (c : result E A) (k : A -> result E B) b :
  res_bind c k = Ok b -> exists a, c = Ok a /\ k a = Ok b.
Proof. destruct c; simpl; [eauto | discriminate]. Qed.

Lemma res_bind_Err_inv {E A B} (c : result E A) (k : A -> result E B) e :
  res_bind c k = Err e -> c = Err e \/ exists a, c = Ok a /\ k a = Err e.
Proof. destruct c; simpl; intros H; [eauto | injection H as ->; auto]. Qed.

(** ** A state-and-error monad, for code that threads a store *)

Definition stres (S E A : Type) : Type := S -> result E (A * S).

Definition st_ret {S E A} (a : A) : stres S E A := fun s => Ok (a, s).
Definition st_bind {S E A B} (m : stres S E A) (k : A -> stres S E B) : stres S E B :=
  fun s => res_bind (m s) (fun '(a, s') => k a s').
Definition st_fail {S E A} (e : E) : stres S E A := fun _ => Err e.

Notation "'let#' x ':=' m 'in' k" := (st_bind m (fun x => k))
  (at level 100, x name, m at next level, right associativity) : result_scope.

Lemma st_bind_run {S E A B} (m : stres S E A) (k : A -> stres S E B) s :
  st_bind m k s = res_bind (m s) (fun '(a, s') => k a s').
Proof. reflexivity. Qed.

(** ** Automation shared by the components *)

Create HintDb s2p.
Create Rewrite HintDb s2p_rw.
#[export] Hint Rewrite @res_bind_Ok @res_bind_Err : s2p_rw.

(** Split every [res_bind c k = Ok b] hypothesis into its two halves. *)
Ltac res_inv :=
  repeat match goal with
  | H : res_bind ?c _ = Ok _ |- _ =>
      let a := fresh "a" in let Ha := fresh "Hc" in
      apply res_bind_Ok_inv in H as (a & Ha & H)
  | H : Ok _ = Ok _ |- _ => injection H as H
  | H : Ok _ = Err _ |- _ => discriminate H
  | H : Err _ = Ok _ |- _ => discriminate H
  end.

(** ** Arithmetic with division by constants

    [lia] treats [x / 2] as an opaque atom; [div_lia] first turns every
    division and modulo by a constant into its Euclidean equations. *)

Ltac div_lia := zify; Z.div_mod_to_equations; lia.

(** Pooling by 2 then upsampling by 2 gives back the size exactly when
    the size is even. *)
Lemma double_half_even (x : nat) : 2 * (x / 2) = x <-> x mod 2 = 0.
Proof. split; intros; div_lia. Qed.

(** ** Lists *)

(** [map] and the list lookup [!!] commute. *)
Lemma list_lookup_map {A B} (f : A -> B) (l : list A) (i : nat) :
  map f l !! i = option_map f (l !! i).
Proof. revert i. induction l as [|x l IH]; intros [|i]; simpl; auto. Qed.

#[export] Hint Rewrite @list_lookup_map : s2p_rw.

(** A computation that raises whatever [c] returns raises. *)
Lemma res_bind_not_ok {E A B} (c : result E A) (k : A -> result E B) :
  (forall a, is_ok (k a) = false) -> is_ok (res_bind c k) = false.
Proof. destruct c; simpl; auto. Qed.

(** ** Strings *)

Lemma string_length_app (a b : string) : String.length (a +:+ b) = (String.length a + String.length b)%nat.
Proof. induction a as [|c a IH]; simpl; [done | by rewrite IH]. Qed.
