(* ===== verification/Jwt.v ===== *)
(** Token payloads and what the service relies on from PyJWT.

    [controller.py] builds the payload as a Python dict. Its values are
    strings ([sub], [role]) and the expiry, which PyJWT turns into an
    integer timestamp when it encodes. The dict is modelled as a
    [gmap string claim]. [jwt.encode]/[jwt.decode] are library calls:
    the signature scheme is the [JwtCodec] interface, whose law is that
    a token verifies under the key that signed it. The registered-claim
    checks that [jwt.decode] performs after the signature check
    ([nbf], then [exp]) are written out as PyJWT performs them
    ([exp <= now] means expired). [jwt_header_ok] is the check that
    needs no key: the token parses and names an allowed algorithm.
    [bits_codec] is a concrete instance of the interface, used by the
    executable witnesses. *)

From Stdlib Require Import Ascii.
From S2P Require Import Prelude.

Module Jwt.

Local Open Scope Z_scope.

(** A payload value: a JSON string, a JSON integer or [null]. *)
Inductive claim : Type :=
| ClStr (s : string)
| ClInt (z : Z)
| ClNull.

#[export] Instance claim_eq_dec : EqDecision claim.
Proof. solve_decision. Defined.

#[export] Program Instance claim_countable : Countable claim :=
  inj_countable'
    (fun c => match c with ClStr s => inl (inl s) | ClInt z => inl (inr z) | ClNull => inr tt end)
    (fun x => match x with inl (inl s) => ClStr s | inl (inr z) => ClInt z | inr _ => ClNull end)
    _.
Next Obligation. intros []; reflexivity. Qed.

Abbreviation payload := (gmap string claim).

(** PyJWT's exceptions, all subclasses of [PyJWTError]. *)
Inductive jwt_error : Type :=
| InvalidTokenError        (* malformed token or bad signature *)
| DecodeError              (* a registered claim is not an integer *)
| ExpiredSignatureError
| ImmatureSignatureError.

(** The signature scheme (HS256 over the JSON encoding of the payload).
    [jwt_header_ok] is the part of [jwt.decode] that does not need the
    key: the token splits into its segments and its header names an
    algorithm of [algorithms=["HS256"]]. A token that verifies under
    some key passes it. *)
Class JwtCodec := {
  jwt_encode : string -> payload -> string;
  jwt_verify : string -> string -> option payload;
  jwt_header_ok : string -> bool;
  jwt_verify_encode : forall key p, jwt_verify key (jwt_encode key p) = Some p;
  jwt_verify_header : forall key tok p, jwt_verify key tok = Some p -> jwt_header_ok tok = true
}.

Section Decode.
Context `{JwtCodec}.

(** [_validate_nbf]: raise when [nbf > now]. *)
Definition validate_nbf (now : Z) (p : payload) : result jwt_error unit :=
  match p !! "nbf" with
  | None => Ok tt
  | Some (ClInt nbf) => if bool_decide (now < nbf) then Err ImmatureSignatureError else Ok tt
  | Some _ => Err DecodeError
  end.

(** [_validate_exp]: raise when [exp <= now]. *)
Definition validate_exp (now : Z) (p : payload) : result jwt_error unit :=
  match p !! "exp" with
  | None => Ok tt
  | Some (ClInt exp) => if bool_decide (exp <= now) then Err ExpiredSignatureError else Ok tt
  | Some _ => Err DecodeError
  end.

(** [jwt.decode(token, key, algorithms=["HS256"])] at time [now]. *)
Definition jwt_decode (key : string) (now : Z) (token : string) : result jwt_error payload :=
  match jwt_verify key token with
  | None => Err InvalidTokenError
  | Some p =>
      let* _ := validate_nbf now p in
      let* _ := validate_exp now p in
      Ok p
  end.

Lemma jwt_decode_encode key now p :
  jwt_decode key now (jwt_encode key p) =
    res_bind (validate_nbf now p) (fun _ => res_bind (validate_exp now p) (fun _ => Ok p)).
Proof. unfold jwt_decode. by rewrite jwt_verify_encode. Qed.

Lemma validate_exp_int now p e :
  p !! "exp" = Some (ClInt e) ->
  validate_exp now p = if bool_decide (e <= now) then Err ExpiredSignatureError else Ok tt.
Proof. intros Hp. unfold validate_exp. by rewrite Hp. Qed.

Lemma validate_nbf_none now p : p !! "nbf" = None -> validate_nbf now p = Ok tt.
Proof. intros Hp. unfold validate_nbf. by rewrite Hp. Qed.

(** A decoded payload is the one the signature carries. *)
Lemma jwt_decode_Ok key now tok p :
  jwt_decode key now tok = Ok p -> jwt_verify key tok = Some p.
Proof.
  unfold jwt_decode. destruct (jwt_verify key tok) as [p'|]; [|discriminate].
  intros Hd. res_inv. by subst.
Qed.

(** A decoded payload with an integer expiry has not expired. *)
Lemma jwt_decode_Ok_exp key now tok p e :
  jwt_decode key now tok = Ok p -> p !! "exp" = Some (ClInt e) -> now < e.
Proof.
  unfold jwt_decode. destruct (jwt_verify key tok) as [p'|]; [|discriminate].
  intros Hd He. res_inv. subst.
  rewrite (validate_exp_int _ _ e He) in Hc0. case_bool_decide; [discriminate | lia].
Qed.
End Decode.

(** ** A concrete codec: the payload and key serialised as a bit string *)

Fixpoint pos_bits (p : positive) : string :=
  match p with
  | xH => EmptyString
  | xO q => String "0"%char (pos_bits q)
  | xI q => String "1"%char (pos_bits q)
  end.

Fixpoint bits_pos (s : string) : option positive :=
  match s with
  | EmptyString => Some xH
  | String c r =>
      if Ascii.eqb c "0"%char then xO <$> bits_pos r
      else if Ascii.eqb c "1"%char then xI <$> bits_pos r
      else None
  end.

Lemma bits_pos_bits p : bits_pos (pos_bits p) = Some p.
Proof. induction p; simpl; rewrite ?IHp; reflexivity. Qed.

Definition bits_encode (key : string) (p : payload) : string :=
  pos_bits (encode (key, p)).

Definition bits_verify (key tok : string) : option payload :=
  match bits_pos tok ≫= decode with
  | Some (k, p) => if bool_decide (k = key) then Some p else None
  | None => None
  end.

Definition bits_header_ok (tok : string) : bool :=
  match bits_pos tok ≫= decode (A := string * payload) with Some _ => true | None => false end.

#[export] Program Instance bits_codec : JwtCodec := {|
  jwt_encode := bits_encode;
  jwt_verify := bits_verify;
  jwt_header_ok := bits_header_ok
|}.
Next Obligation.
  intros key p. unfold bits_verify, bits_encode.
  rewrite bits_pos_bits. simpl. rewrite decode_encode.
  by rewrite bool_decide_eq_true_2.
Qed.
Next Obligation.
  intros key tok p. unfold bits_verify, bits_header_ok.
  destruct (bits_pos tok ≫= decode) as [[k p']|]; [done | discriminate].
Qed.

End Jwt.
