(* ===== verification/Auth.v ===== *)
(** The credential and token layer of [src/project1/backend/app/controller.py].

    The passlib [CryptContext] is an interface: [pwd_hash] stands for
    [pwd_context.hash] (the salt is drawn once, when the module loads),
    and [pwd_verify] stands for [pwd_context.verify]. Its one law is
    that a password verifies against its own hash. [users_db] is the
    module-level table. [SECRET_KEY] is a Section variable (the value
    read from the environment), and [now] is the clock reading that
    [datetime.now(timezone.utc)] returns, in whole seconds. The token
    functions are translated line by line. An [HTTPException] is the
    error value of the result monad. *)

From S2P Require Import Prelude Jwt.

Module Auth.
Import Jwt.

Local Open Scope Z_scope.

(** passlib's [CryptContext(schemes=["bcrypt"])]. *)
Class CryptContext := {
  pwd_hash : string -> string;
  pwd_verify : string -> string -> bool;
  pwd_verify_hash : forall pw, pwd_verify pw (pwd_hash pw) = true
}.

(** A row of [users_db]: the dict [{"username", "password", "role"}]. *)
Record user : Type := mk_user {
  username : string;
  password : string;
  role : string
}.

#[export] Instance user_eq_dec : EqDecision user.
Proof. solve_decision. Defined.

(** FastAPI's [HTTPException(status_code, detail, headers)]. *)
Record http_exception : Type := mk_http_exception {
  status_code : Z;
  detail : string;
  exc_headers : list (string * string)
}.

#[export] Instance http_exception_eq_dec : EqDecision http_exception.
Proof. solve_decision. Defined.

Definition ALGORITHM : string := "HS256".
Definition ACCESS_TOKEN_EXPIRE_MINUTES : Z := 60.

(** [timedelta(minutes=m)], in seconds. *)
Definition timedelta_minutes (m : Z) : Z := m * 60.

(** Python's truth value of a [timedelta]: false exactly for [timedelta(0)]. *)
Definition timedelta_truthy (d : Z) : bool := bool_decide (d <> 0).

Section Credentials.
Context `{CryptContext}.

Definition users_db : gmap string user :=
  <["admin" := mk_user "admin" (pwd_hash "adminpass") "admin"]>
  (<["user" := mk_user "user" (pwd_hash "userpass") "user"]> ∅).

Definition verify_password (plain_password hashed_password : string) : bool :=
  pwd_verify plain_password hashed_password.

(** [authenticate_user] returns [False] or the user dict; [None] plays
    the part of [False]. A row of [users_db] is a non-empty dict, so
    [not user] holds only when the lookup misses. *)
Definition authenticate_user (username_ password_ : string) : option user :=
  match users_db !! username_ with
  | None => None
  | Some u => if verify_password password_ (password u) then Some u else None
  end.
End Credentials.

Section Tokens.
Context `{JwtCodec}.
Variable SECRET_KEY : string.

(** The expiry [create_access_token] computes: [now + expires_delta]
    when the delta is truthy, and 45 minutes otherwise. *)
Definition token_expiry (now : Z) (expires_delta : option Z) : Z :=
  match expires_delta with
  | Some d => if timedelta_truthy d then now + d else now + timedelta_minutes 45
  | None => now + timedelta_minutes 45
  end.

Definition create_access_token (now : Z) (data : payload) (role_ : string)
    (expires_delta : option Z) : string :=
  let to_encode := <["role" := ClStr role_]> data in
  let expire := token_expiry now expires_delta in
  let to_encode := <["exp" := ClInt expire]> to_encode in
  jwt_encode SECRET_KEY to_encode.

Definition invalid_token : http_exception :=
  mk_http_exception 401 "Invalid token" [].

(** [payload.get("sub")] is [None] when the key is missing or maps to
    JSON [null]. *)
Definition py_get_is_none (p : payload) (k : string) : bool :=
  match p !! k with None | Some ClNull => true | Some _ => false end.

Definition decode_token (now : Z) (token : string) : result http_exception payload :=
  match jwt_decode SECRET_KEY now token with
  | Err _ => Err invalid_token
  | Ok p => if py_get_is_none p "sub" then Err invalid_token else Ok p
  end.
End Tokens.

(** ** Lemmas shared by the endpoint proofs *)

Section Lemmas.
Context `{CryptContext}.

Lemma users_db_lookup u usr :
  users_db !! u = Some usr ->
  (u = "admin" /\ usr = mk_user "admin" (pwd_hash "adminpass") "admin") \/
  (u = "user" /\ usr = mk_user "user" (pwd_hash "userpass") "user").
Proof.
  unfold users_db. intros Hl.
  destruct (decide (u = "admin")) as [->|]; [left; by simplify_map_eq|].
  destruct (decide (u = "user")) as [->|]; [right; by simplify_map_eq|].
  by simplify_map_eq.
Qed.

Lemma users_db_username u usr : users_db !! u = Some usr -> username usr = u.
Proof. intros [[-> ->] | [-> ->]]%users_db_lookup; reflexivity. Qed.

Lemma users_db_admin_role u usr :
  users_db !! u = Some usr -> role usr = "admin" -> u = "admin".
Proof. intros [[-> ->] | [-> ->]]%users_db_lookup; simpl; congruence. Qed.

Lemma authenticate_user_Some u pw usr :
  authenticate_user u pw = Some usr ->
  users_db !! u = Some usr /\ verify_password pw (password usr) = true.
Proof.
  unfold authenticate_user. destruct (users_db !! u) as [usr'|]; [|discriminate].
  destruct (verify_password pw (password usr')) eqn:E; intros; simplify_eq; auto.
Qed.
End Lemmas.

(** A passlib stand-in used by the executable witnesses: the hash is the
    password behind a fixed bcrypt-style prefix. *)
Definition plain_hash (pw : string) : string := "$2b$12$" +:+ pw.

#[export] Program Instance plain_crypt : CryptContext := {|
  pwd_hash := plain_hash;
  pwd_verify := fun pw h => String.eqb h (plain_hash pw)
|}.
Next Obligation. intros pw. apply String.eqb_refl. Qed.

Section TokenLemmas.
Context `{JwtCodec}.

(** The payload [login] signs: [{"sub": u, "role": r, "exp": e}]. *)
Definition login_payload (u r : string) (e : Z) : payload :=
  <["exp" := ClInt e]> (<["role" := ClStr r]> {[ "sub" := ClStr u ]}).

Lemma login_payload_sub u r e : login_payload u r e !! "sub" = Some (ClStr u).
Proof. unfold login_payload. by simplify_map_eq. Qed.

Lemma login_payload_role u r e : login_payload u r e !! "role" = Some (ClStr r).
Proof. unfold login_payload. by simplify_map_eq. Qed.

Lemma login_payload_exp u r e : login_payload u r e !! "exp" = Some (ClInt e).
Proof. unfold login_payload. by simplify_map_eq. Qed.

Lemma login_payload_nbf u r e : login_payload u r e !! "nbf" = None.
Proof. unfold login_payload. by simplify_map_eq. Qed.

Lemma create_access_token_login key now u r d :
  create_access_token key now {[ "sub" := ClStr u ]} r d =
  jwt_encode key (login_payload u r (token_expiry now d)).
Proof. reflexivity. Qed.

(** Decoding what [login] signed: the payload, exactly before expiry. *)
Lemma decode_login_payload key now u r e :
  decode_token key now (jwt_encode key (login_payload u r e)) =
  if bool_decide (e <= now) then Err invalid_token else Ok (login_payload u r e).
Proof.
  unfold decode_token. rewrite jwt_decode_encode.
  rewrite validate_nbf_none by apply login_payload_nbf.
  rewrite (validate_exp_int _ _ e) by apply login_payload_exp. simpl.
  case_bool_decide; [reflexivity|]. simpl.
  unfold py_get_is_none. by rewrite login_payload_sub.
Qed.

Lemma decode_token_Ok key now tok p :
  decode_token key now tok = Ok p ->
  jwt_decode key now tok = Ok p /\ py_get_is_none p "sub" = false.
Proof.
  unfold decode_token. destruct (jwt_decode key now tok) eqn:E; [|discriminate].
  destruct (py_get_is_none a "sub") eqn:Hs; intros; simplify_eq. done.
Qed.

Lemma decode_token_Err key now tok e :
  decode_token key now tok = Err e -> e = invalid_token.
Proof.
  unfold decode_token. destruct (jwt_decode key now tok); [|congruence].
  destruct (py_get_is_none a "sub"); congruence.
Qed.

(** What a successful [decode_token] tells about a login token: it is
    the signed payload, and it has not expired. *)
Lemma decode_token_login key now tok p u r e :
  decode_token key now tok = Ok p ->
  jwt_verify key tok = Some (login_payload u r e) ->
  p = login_payload u r e /\ now < e.
Proof.
  intros [Hd _]%decode_token_Ok Hv.
  pose proof (jwt_decode_Ok _ _ _ _ Hd) as Hv'. rewrite Hv in Hv'. injection Hv' as <-.
  split; [done|]. apply (jwt_decode_Ok_exp key now tok _ e Hd), login_payload_exp.
Qed.
End TokenLemmas.

(** ** Properties *)

Section Properties.
Context `{CryptContext} `{JwtCodec}.

(** C5: [authenticate_user] returns a user exactly when the name is a
    key of [users_db] and the password verifies against that row's
    stored hash, and the user returned is that row. *)
Theorem authenticate_user_spec u pw usr :
  authenticate_user u pw = Some usr <->
  users_db !! u = Some usr /\ verify_password pw (password usr) = true.
Proof.
  split; [apply authenticate_user_Some|].
  intros [Hdb Hv]. unfold authenticate_user. by rewrite Hdb, Hv.
Qed.

(** C9: the token [create_access_token] signs carries the caller's
    claims, the role, and an expiry of [now + expires_delta]. But
    Python treats [timedelta(0)] as false, so a zero delta gets the
    45-minute default, the same expiry as passing no delta. *)
Theorem create_access_token_default_expiry key now data r d p :
  jwt_verify key (create_access_token key now data r d) = Some p ->
  p = <["exp" := ClInt (token_expiry now d)]> (<["role" := ClStr r]> data) /\
  (p !! "exp" = Some (ClInt (now + 2700)) <-> d = None \/ d = Some 0 \/ d = Some 2700).
Proof.
  unfold create_access_token. rewrite jwt_verify_encode. intros [= <-].
  split; [done|]. rewrite lookup_insert_eq.
  unfold token_expiry, timedelta_truthy, timedelta_minutes.
  destruct d as [d|]; [|naive_solver].
  case_bool_decide as Hd; split.
  - intros [= He]. right; right. f_equal. lia.
  - intros [|[|]]; simplify_eq; done.
  - intros _. right; left. f_equal. lia.
  - intros _. reflexivity.
Qed.

(** C11: [decode_token] either returns a payload that carries the
    key's signature, has passed the [nbf] and [exp] checks and has a
    non-null [sub], or raises the 401 "Invalid token" exception. *)
Theorem decode_token_spec key now tok :
  (exists p, decode_token key now tok = Ok p /\ jwt_verify key tok = Some p /\
     validate_nbf now p = Ok tt /\ validate_exp now p = Ok tt /\
     py_get_is_none p "sub" = false) \/
  decode_token key now tok = Err invalid_token.
Proof.
  unfold decode_token, jwt_decode.
  destruct (jwt_verify key tok) as [p|] eqn:Hv; [|by right]. simpl.
  destruct (validate_nbf now p) as [[]|] eqn:Hn; [|by right]. simpl.
  destruct (validate_exp now p) as [[]|] eqn:He; [|by right]. simpl.
  destruct (py_get_is_none p "sub") eqn:Hs; [by right|].
  left. exists p. done.
Qed.
End Properties.

(** Witness of C9: a zero [timedelta] at time 100 gives [exp = 2800]. *)
Lemma create_access_token_default_expiry_witness :
  jwt_verify "k" (create_access_token "k" 100 {[ "sub" := ClStr "admin" ]} "admin" (Some 0))
    = Some (login_payload "admin" "admin" 2800) /\
  (login_payload "admin" "admin" 2800 !! "exp" = Some (ClInt (100 + 2700)) <->
   Some 0 = None \/ Some 0 = Some 0 \/ Some 0 = Some 2700).
Proof.
  split; [vm_compute; reflexivity|].
  eapply proj2.
  apply (create_access_token_default_expiry "k" 100 {[ "sub" := ClStr "admin" ]} "admin" (Some 0)).
  vm_compute. reflexivity.
Defined.

End Auth.
