(* ===== verification/Api.v ===== *)
(** The endpoints of [src/project1/backend/app/controller.py] and the
    server that runs them.

    A handler returns [result http_exception jval]. [to_response] plays
    FastAPI's part: a raised [HTTPException] becomes its status code,
    with [{"detail": ...}] and the exception's headers, and a returned
    dict becomes a 200 response. The token dependency [oauth2_scheme]
    is FastAPI's [OAuth2PasswordBearer.__call__] with
    [get_authorization_scheme_param], written out (library code). PIL's
    [Image.open] and [BlipMed.generate_report] are the [ImageBackend]
    interface: opaque functions that may raise, with [str(e)] as the
    error value.

    The server keeps no mutable state of its own: [users_db], the key
    and the model are fixed when the module loads. A [world] pairs the
    clock with a ghost log of the tokens that [/token] returned.
    [serve] answers one request; [reachable] closes the initial worlds
    under requests and clock ticks. *)

From Stdlib Require Import Ascii.
From S2P Require Import Prelude Jwt Auth.

Module Api.
Import Jwt Auth.

Local Open Scope Z_scope.

(** The JSON values the endpoints return. *)
Inductive jval : Type :=
| JStr (s : string)
| JInt (z : Z)
| JNull
| JObj (fields : list (string * jval)).

Record response : Type := mk_response {
  status : Z;
  body : jval;
  headers : list (string * string)
}.

Definition to_response (r : result http_exception jval) : response :=
  match r with
  | Ok b => mk_response 200 b []
  | Err e => mk_response (status_code e) (JObj [("detail", JStr (detail e))]) (exc_headers e)
  end.

(** ** FastAPI's [OAuth2PasswordBearer(tokenUrl="token")] *)

Fixpoint partition_space (s : string) : string * string :=
  match s with
  | EmptyString => (EmptyString, EmptyString)
  | String c r =>
      if Ascii.eqb c " "%char then (EmptyString, r)
      else let '(a, b) := partition_space r in (String c a, b)
  end.

Definition ascii_lower (c : ascii) : ascii :=
  let n := nat_of_ascii c in
  if (65 <=? n)%nat && (n <=? 90)%nat then ascii_of_nat (n + 32) else c.

Fixpoint str_lower (s : string) : string :=
  match s with
  | EmptyString => EmptyString
  | String c r => String (ascii_lower c) (str_lower r)
  end.

Definition str_truthy (s : option string) : bool :=
  match s with None | Some EmptyString => false | Some _ => true end.

Definition get_authorization_scheme_param (h : option string) : string * string :=
  match h with
  | Some s => if str_truthy h then partition_space s else ("", "")
  | None => ("", "")
  end.

Definition not_authenticated : http_exception :=
  mk_http_exception 401 "Not authenticated" [("WWW-Authenticate", "Bearer")].

Definition oauth2_scheme (authorization : option string) : result http_exception string :=
  let '(scheme, param) := get_authorization_scheme_param authorization in
  if negb (str_truthy authorization) || negb (String.eqb (str_lower scheme) "bearer")
  then Err not_authenticated
  else Ok param.

(** ** PIL and the report-generation model *)

Class ImageBackend := {
  image : Type;
  image_open : list Byte.byte -> result string image;
  blip_generate_report : image -> option string -> result string string
}.

(** ** The requests the app routes *)

Inductive request : Type :=
| GetRoot
| PostToken (form_username form_password : string)
| PostGenerateReport (authorization : option string) (file : list Byte.byte)
    (indication : option string)
| GetShowDrift (authorization : option string)
| PostVqa (authorization : option string) (question : string) (file : list Byte.byte).

Section Endpoints.
Context `{CryptContext} `{JwtCodec} `{ImageBackend}.
Variable SECRET_KEY : string.

Definition user_json (u : user) : jval :=
  JObj [("username", JStr (username u)); ("password", JStr (password u));
        ("role", JStr (role u))].

(** [users_db.get(username)] for the claim [payload.get("sub")]. *)
Definition users_db_get_json (sub : option claim) : jval :=
  match sub with
  | Some (ClStr s) => match users_db !! s with Some u => user_json u | None => JNull end
  | _ => JNull
  end.

Definition get_hello : jval := JObj [("User", JStr "Welcome to MLOPS")].

Definition incorrect_credentials : http_exception :=
  mk_http_exception 401 "Incorrect username or password" [("WWW-Authenticate", "Bearer")].

Definition login (now : Z) (form_username form_password : string) : result http_exception jval :=
  match authenticate_user form_username form_password with
  | None => Err incorrect_credentials
  | Some user =>
      let access_token_expires := timedelta_minutes ACCESS_TOKEN_EXPIRE_MINUTES in
      let access_token := create_access_token SECRET_KEY now
          {[ "sub" := ClStr (username user) ]} (role user) (Some access_token_expires) in
      Ok (JObj [("access_token", JStr access_token); ("token_type", JStr "bearer")])
  end.

Definition generate_report (now : Z) (file : list Byte.byte) (indication : option string)
    (token : string) : result http_exception jval :=
  let* payload := decode_token SECRET_KEY now token in
  let username := payload !! "sub" in
  Ok (match res_bind (image_open file) (fun image => blip_generate_report image indication) with
      | Ok report => JObj [("report", JStr report); ("radiologist_name", users_db_get_json username)]
      | Err e => JObj [("error", JStr e)]
      end).

Definition not_enough_permissions : http_exception :=
  mk_http_exception 403 "Not enough permissions" [].

Definition show_drift (now : Z) (token : string) : result http_exception jval :=
  let* payload := decode_token SECRET_KEY now token in
  let role := payload !! "role" in
  if bool_decide (role <> Some (ClStr "admin")) then Err not_enough_permissions
  else Ok (JObj [("Only Admin", JStr "Welcome to MLOPS DATA drift")]).

Definition question_image (question : string) (file : list Byte.byte) (token : string)
    : result http_exception jval :=
  Ok (match image_open file with
      | Ok _ => JObj [("question", JStr question)]
      | Err e => JObj [("error", JStr e)]
      end).

(** The route table: each route's dependencies, then its body. *)
Definition app (now : Z) (req : request) : result http_exception jval :=
  match req with
  | GetRoot => Ok get_hello
  | PostToken u pw => login now u pw
  | PostGenerateReport a f ind =>
      let* token := oauth2_scheme a in generate_report now f ind token
  | GetShowDrift a => let* token := oauth2_scheme a in show_drift now token
  | PostVqa a q f => let* token := oauth2_scheme a in question_image q f token
  end.

(** ** The running server, with a ghost log of issued tokens *)

Record world : Type := mk_world {
  clock : Z;
  issued : list (Z * string)
}.

Definition token_of_body (b : jval) : option string :=
  match b with
  | JObj (("access_token", JStr t) :: _) => Some t
  | _ => None
  end.

Definition serve (w : world) (req : request) : response * world :=
  let r := app (clock w) req in
  let w' :=
    match req, r with
    | PostToken _ _, Ok b =>
        match token_of_body b with
        | Some t => mk_world (clock w) ((clock w, t) :: issued w)
        | None => w
        end
    | _, _ => w
    end in
  (to_response r, w').

Definition tick (w : world) (d : Z) : world := mk_world (clock w + d) (issued w).

Inductive reachable : world -> Prop :=
| reachable_init t0 : reachable (mk_world t0 [])
| reachable_tick w d : reachable w -> 0 <= d -> reachable (tick w d)
| reachable_serve w req : reachable w -> reachable (serve w req).2.

(** Every logged token is a login payload of a [users_db] row, signed
    with [SECRET_KEY], issued no later than the clock. *)
Definition issued_ok (w : world) : Prop :=
  Forall (fun '(t, tok) => t <= clock w /\
    exists u usr, users_db !! u = Some usr /\
      jwt_verify SECRET_KEY tok = Some (login_payload u (role usr) (t + 3600)))
    (issued w).
End Endpoints.

(** ** Lemmas *)

Lemma oauth2_scheme_bearer tok : oauth2_scheme (Some ("Bearer " +:+ tok)) = Ok tok.
Proof. reflexivity. Qed.

Lemma oauth2_scheme_None : oauth2_scheme None = Err not_authenticated.
Proof. reflexivity. Qed.

Section EndpointLemmas.
Context `{CryptContext} `{JwtCodec} `{ImageBackend}.
Variable K : string.

Definition token_body (tok : string) : jval :=
  JObj [("access_token", JStr tok); ("token_type", JStr "bearer")].

(** What [/token] answers: the signed login payload of the row, which
    expires one hour after [now], or the 401 of bad credentials. *)
Lemma login_result now u pw :
  login K now u pw =
  match authenticate_user u pw with
  | Some usr => Ok (token_body (jwt_encode K (login_payload u (role usr) (now + 3600))))
  | None => Err incorrect_credentials
  end.
Proof.
  unfold login. destruct (authenticate_user u pw) as [usr|] eqn:Ha; [|done].
  apply authenticate_user_Some in Ha as [Hdb _].
  rewrite (users_db_username _ _ Hdb). reflexivity.
Qed.

Lemma login_Ok now u pw b :
  login K now u pw = Ok b ->
  exists usr, authenticate_user u pw = Some usr /\
    b = token_body (jwt_encode K (login_payload u (role usr) (now + 3600))).
Proof.
  rewrite login_result. destruct (authenticate_user u pw) as [usr|]; [|discriminate].
  intros [= <-]. eauto.
Qed.

Lemma show_drift_Ok now tok b :
  show_drift K now tok = Ok b ->
  exists p, decode_token K now tok = Ok p /\ p !! "role" = Some (ClStr "admin").
Proof.
  unfold show_drift. destruct (decode_token K now tok) as [p|]; [|discriminate]. simpl.
  case_bool_decide as Hr; [discriminate|]. intros _. exists p. split; [done|].
  done.
Qed.

(** One request changes the world only by logging a login token. *)
Lemma serve_world w req :
  (serve K w req).2 = w \/
  exists u pw usr, req = PostToken u pw /\ authenticate_user u pw = Some usr /\
    (serve K w req).2 = mk_world (clock w)
      ((clock w, jwt_encode K (login_payload u (role usr) (clock w + 3600))) :: issued w).
Proof.
  unfold serve. destruct req as [|u pw| | |]; simpl; auto.
  destruct (login K (clock w) u pw) as [b|] eqn:Hl; auto.
  apply login_Ok in Hl as (usr & Ha & ->). right. eauto 6.
Qed.

Lemma serve_response w req : (serve K w req).1 = to_response (app K (clock w) req).
Proof. reflexivity. Qed.

Lemma serve_clock w req : clock (serve K w req).2 = clock w.
Proof. destruct (serve_world w req) as [-> | (? & ? & ? & _ & _ & ->)]; reflexivity. Qed.

Lemma issued_ok_mono w c :
  clock w <= c -> issued_ok K w -> issued_ok K (mk_world c (issued w)).
Proof.
  intros Hc. unfold issued_ok. apply Forall_impl. intros [t tok] [Ht Hex]. split; [simpl; lia | done].
Qed.
End EndpointLemmas.

(** A backend stand-in for the witnesses: an empty upload is not an
    image; any other upload yields a fixed report. *)
#[export] Instance stub_backend : ImageBackend := {|
  image := list Byte.byte;
  image_open := fun f => match f with [] => Err "cannot identify image file" | _ => Ok f end;
  blip_generate_report := fun _ _ => Ok "No acute findings."
|}.

Section Properties.
Context `{CryptContext} `{JwtCodec} `{ImageBackend}.
Variable K : string.

Lemma show_drift_Err now tok e :
  show_drift K now tok = Err e -> e = invalid_token \/ e = not_enough_permissions.
Proof.
  unfold show_drift. destruct (decode_token K now tok) as [p|e'] eqn:Hd; simpl.
  - case_bool_decide; intros [= <-]; auto.
  - intros [= <-]. left. by apply (decode_token_Err K now tok).
Qed.

Lemma oauth2_scheme_reject h :
  h = None \/ (exists s, h = Some s /\ str_lower (partition_space s).1 <> "bearer") ->
  oauth2_scheme h = Err not_authenticated.
Proof.
  intros [-> | (s & -> & Hs)]; [done|]. unfold oauth2_scheme, get_authorization_scheme_param.
  destruct (str_truthy (Some s)); [|done]. destruct (partition_space s) as [sc pa]. simpl in *.
  destruct (String.eqb_spec (str_lower sc) "bearer"); [done | reflexivity].
Qed.

Lemma reachable_issued_ok w : reachable K w -> issued_ok K w.
Proof.
  induction 1 as [t0 | w d Hr IH Hd | w req Hr IH].
  - constructor.
  - unfold tick. apply issued_ok_mono; [lia | exact IH].
  - destruct (serve_world K w req) as [-> | (u & pw & usr & -> & Ha & ->)]; [done|].
    apply authenticate_user_Some in Ha as [Hdb _].
    constructor; [|exact IH].
    split; [simpl; lia|]. exists u, usr. split; [done | apply jwt_verify_encode].
Qed.

(** C3: in every reachable world, each token that [/token] has
    returned was issued no later than the current clock, and is the
    signature under [SECRET_KEY] of the login payload of a row of
    [users_db]: that row's name as [sub], its role as [role], and an
    expiry one hour after issue. *)
Theorem issued_tokens_signed_by_db w t tok :
  reachable K w -> In (t, tok) (issued w) ->
  t <= clock w /\
  exists u usr, users_db !! u = Some usr /\
    jwt_verify K tok = Some (login_payload u (role usr) (t + 3600)).
Proof.
  intros Hr Hin. apply reachable_issued_ok in Hr. unfold issued_ok in Hr.
  rewrite Forall_forall in Hr. exact (Hr _ Hin).
Qed.

(** C2: in every reachable world, if [/show_drift] answers 200 to a
    token that [/token] returned at time [t], that token is the admin
    account's ([sub] and [role] both "admin"), and less than an hour
    has passed since [t]. The non-admin account never gets there. *)
Theorem drift_requires_recent_admin_login w t tok :
  reachable K w -> In (t, tok) (issued w) ->
  status (serve K w (GetShowDrift (Some ("Bearer " +:+ tok)))).1 = 200 ->
  jwt_verify K tok = Some (login_payload "admin" "admin" (t + 3600)) /\ clock w < t + 3600.
Proof.
  intros Hr Hin Hs.
  apply reachable_issued_ok in Hr. unfold issued_ok in Hr. rewrite Forall_forall in Hr.
  destruct (Hr _ Hin) as (_ & u & usr & Hdb & Hv).
  revert Hs. rewrite serve_response. unfold app. rewrite oauth2_scheme_bearer, res_bind_Ok.
  destruct (show_drift K (clock w) tok) as [b|e] eqn:Hd; simpl.
  - intros _. apply show_drift_Ok in Hd as (p & Hdec & Hrole).
    destruct (decode_token_login _ _ _ _ _ _ _ Hdec Hv) as [-> Hlt].
    rewrite login_payload_role in Hrole. injection Hrole as Hrole.
    pose proof (users_db_admin_role _ _ Hdb Hrole) as ->.
    rewrite Hrole in Hv. auto.
  - apply show_drift_Err in Hd as [-> | ->]; simpl; lia.
Qed.

(** C4: a successful login at [now] returns a bearer token, and
    decoding that token at any later [now'] gives back the login
    payload (the user's name, role and [exp = now + 3600]) exactly
    while [now' < now + 3600]; from then on it raises 401. *)
Theorem login_token_roundtrip now now' u pw usr :
  authenticate_user u pw = Some usr ->
  exists tok, login K now u pw = Ok (token_body tok) /\
    decode_token K now' tok =
      if bool_decide (now + 3600 <= now') then Err invalid_token
      else Ok (login_payload u (role usr) (now + 3600)).
Proof.
  intros Ha. rewrite login_result, Ha. eexists; split; [reflexivity|].
  apply decode_login_payload.
Qed.

(** C1: after a login at [now], [/show_drift] with that token answers,
    at time [now']: 401 once the hour is over, 200 while it lasts for
    an admin row, and 403 while it lasts for any other row. *)
Theorem show_drift_after_login now now' u pw usr tok :
  authenticate_user u pw = Some usr -> login K now u pw = Ok (token_body tok) ->
  app K now' (GetShowDrift (Some ("Bearer " +:+ tok))) =
    if bool_decide (now + 3600 <= now') then Err invalid_token
    else if bool_decide (role usr = "admin")
         then Ok (JObj [("Only Admin", JStr "Welcome to MLOPS DATA drift")])
         else Err not_enough_permissions.
Proof.
  intros Ha Hl. rewrite login_result, Ha in Hl. unfold token_body in Hl. injection Hl as <-.
  unfold app. rewrite oauth2_scheme_bearer, res_bind_Ok. unfold show_drift.
  rewrite decode_login_payload. case_bool_decide; [done|]. simpl.
  rewrite login_payload_role. repeat case_bool_decide; congruence.
Qed.
(** C6: [/vqa] never decodes its token (the call is commented out in
    the source). Any string after "Bearer " is accepted, including one
    that [decode_token] rejects: the answer is 200 with the question
    echoed back as soon as the upload opens as an image. *)
Theorem vqa_accepts_invalid_token now tok q f img :
  decode_token K now tok = Err invalid_token -> image_open f = Ok img ->
  app K now (PostVqa (Some ("Bearer " +:+ tok)) q f) = Ok (JObj [("question", JStr q)]).
Proof.
  intros _ Hi. unfold app. rewrite oauth2_scheme_bearer, res_bind_Ok.
  unfold question_image. by rewrite Hi.
Qed.

(** C7: when the report is generated, [/generate_report/] returns as
    [radiologist_name] the whole [users_db] row of the token's
    subject. The row includes the stored bcrypt hash, so the hash of
    "adminpass" or of "userpass" is sent to the client. *)
Theorem generate_report_returns_password_hash now tok p u usr f ind img rep :
  decode_token K now tok = Ok p -> p !! "sub" = Some (ClStr u) -> users_db !! u = Some usr ->
  image_open f = Ok img -> blip_generate_report img ind = Ok rep ->
  app K now (PostGenerateReport (Some ("Bearer " +:+ tok)) f ind) =
    Ok (JObj [("report", JStr rep); ("radiologist_name",
          JObj [("username", JStr u); ("password", JStr (password usr));
                ("role", JStr (role usr))])]) /\
  (password usr = pwd_hash "adminpass" \/ password usr = pwd_hash "userpass").
Proof.
  intros Hd Hs Hdb Hi Hg. split.
  - unfold app. rewrite oauth2_scheme_bearer, res_bind_Ok. unfold generate_report.
    rewrite Hd, res_bind_Ok, Hi, res_bind_Ok, Hg. unfold users_db_get_json.
    rewrite Hs, Hdb. unfold user_json. by rewrite (users_db_username _ _ Hdb).
  - by destruct (users_db_lookup _ _ Hdb) as [[_ ->] | [_ ->]]; [left | right].
Qed.

(** C8: once the token decodes, a failure of the image decoder or of
    the model is not an HTTP error. [/generate_report/] answers 200
    with [{"error": str(e)}]. *)
Theorem generate_report_failure_is_200 now tok p f ind msg :
  decode_token K now tok = Ok p ->
  res_bind (image_open f) (fun img => blip_generate_report img ind) = Err msg ->
  to_response (app K now (PostGenerateReport (Some ("Bearer " +:+ tok)) f ind)) =
    mk_response 200 (JObj [("error", JStr msg)]) [].
Proof.
  intros Hd Hm. unfold app. rewrite oauth2_scheme_bearer, res_bind_Ok.
  unfold generate_report. by rewrite Hd, res_bind_Ok, Hm.
Qed.

(** C10: without an [Authorization] header, or with one whose scheme is
    not "bearer" in any letter case, the three protected routes answer
    401 "Not authenticated" with [WWW-Authenticate: Bearer], before
    their bodies run. *)
Theorem protected_routes_require_bearer now h f ind q :
  h = None \/ (exists s, h = Some s /\ str_lower (partition_space s).1 <> "bearer") ->
  app K now (GetShowDrift h) = Err not_authenticated /\
  app K now (PostGenerateReport h f ind) = Err not_authenticated /\
  app K now (PostVqa h q f) = Err not_authenticated.
Proof. intros Hh. unfold app. by rewrite (oauth2_scheme_reject h Hh). Qed.

Lemma authenticate_admin :
  authenticate_user "admin" "adminpass" = Some (mk_user "admin" (pwd_hash "adminpass") "admin").
Proof. unfold authenticate_user, verify_password, users_db. simplify_map_eq. by rewrite pwd_verify_hash. Qed.

(** C39: the server never locks the admin account out. From every
    state, whatever requests and time came before, logging in as
    admin answers 200 with a token, and [/show_drift] with that token
    right after answers 200. *)
Theorem admin_never_locked_out w :
  exists tok,
    (serve K w (PostToken "admin" "adminpass")).1 = mk_response 200 (token_body tok) [] /\
    (serve K (serve K w (PostToken "admin" "adminpass")).2 (GetShowDrift (Some ("Bearer " +:+ tok)))).1 =
      mk_response 200 (JObj [("Only Admin", JStr "Welcome to MLOPS DATA drift")]) [].
Proof.
  pose proof (login_result K (clock w) "admin" "adminpass") as Hl. rewrite authenticate_admin in Hl.
  exists (jwt_encode K (login_payload "admin" "admin" (clock w + 3600))).
  rewrite !serve_response, serve_clock. simpl app. rewrite Hl. split; [reflexivity|].
  change ("" +:+ ?t) with t. unfold show_drift.
  rewrite decode_login_payload, bool_decide_false by lia. simpl.
  rewrite login_payload_role. by rewrite bool_decide_false by congruence.
Qed.
End Properties.

(** ** Witnesses, with the concrete instances [plain_crypt], [bits_codec]
    and [stub_backend] and the key "k" *)

Definition admin_token : string :=
  bits_encode "k" (login_payload "admin" "admin" 3600).

Lemma show_drift_after_login_witness :
  authenticate_user "admin" "adminpass" = Some (mk_user "admin" (plain_hash "adminpass") "admin") /\
  login "k" 0 "admin" "adminpass" = Ok (token_body admin_token) /\
  app "k" 10 (GetShowDrift (Some ("Bearer " +:+ admin_token))) =
    Ok (JObj [("Only Admin", JStr "Welcome to MLOPS DATA drift")]).
Proof.
  assert (Ha : authenticate_user "admin" "adminpass" = Some (mk_user "admin" (plain_hash "adminpass") "admin"))
    by reflexivity.
  assert (Hl : login "k" 0 "admin" "adminpass" = Ok (token_body admin_token)) by (vm_compute; reflexivity).
  split; [exact Ha | split; [exact Hl|]].
  rewrite (show_drift_after_login "k" 0 10 _ _ _ _ Ha Hl). reflexivity.
Defined.

Definition w_after_admin_login : world :=
  (serve "k" (mk_world 0 []) (PostToken "admin" "adminpass")).2.

Lemma drift_requires_recent_admin_login_witness :
  reachable "k" w_after_admin_login /\ In (0, admin_token) (issued w_after_admin_login) /\
  status (serve "k" w_after_admin_login (GetShowDrift (Some ("Bearer " +:+ admin_token)))).1 = 200 /\
  jwt_verify "k" admin_token = Some (login_payload "admin" "admin" 3600) /\
  clock w_after_admin_login < 3600.
Proof.
  assert (Hr : reachable "k" w_after_admin_login) by apply reachable_serve, reachable_init.
  assert (Hin : In (0, admin_token) (issued w_after_admin_login)) by (vm_compute; left; reflexivity).
  assert (Hs : status (serve "k" w_after_admin_login
                 (GetShowDrift (Some ("Bearer " +:+ admin_token)))).1 = 200) by (vm_compute; reflexivity).
  split; [exact Hr | split; [exact Hin | split; [exact Hs|]]].
  exact (drift_requires_recent_admin_login "k" _ 0 admin_token Hr Hin Hs).
Defined.

Lemma issued_tokens_signed_by_db_witness :
  reachable "k" w_after_admin_login /\ In (0, admin_token) (issued w_after_admin_login) /\
  0 <= clock w_after_admin_login.
Proof.
  assert (Hr : reachable "k" w_after_admin_login) by apply reachable_serve, reachable_init.
  assert (Hin : In (0, admin_token) (issued w_after_admin_login)) by (vm_compute; left; reflexivity).
  split; [exact Hr | split; [exact Hin|]].
  exact (proj1 (issued_tokens_signed_by_db "k" _ 0 admin_token Hr Hin)).
Defined.

Lemma login_token_roundtrip_witness :
  authenticate_user "user" "userpass" = Some (mk_user "user" (plain_hash "userpass") "user") /\
  exists tok, login "k" 0 "user" "userpass" = Ok (token_body tok) /\
    decode_token "k" 4000 tok = Err invalid_token.
Proof.
  assert (Ha : authenticate_user "user" "userpass" = Some (mk_user "user" (plain_hash "userpass") "user"))
    by reflexivity.
  split; [exact Ha|].
  destruct (login_token_roundtrip "k" 0 4000 _ _ _ Ha) as (tok & Hl & Hd).
  exists tok. split; [exact Hl | rewrite Hd; reflexivity].
Defined.

Lemma vqa_accepts_invalid_token_witness :
  decode_token "k" 0 "not-a-token" = Err invalid_token /\
  image_open [Byte.x89] = Ok [Byte.x89] /\
  app "k" 0 (PostVqa (Some ("Bearer " +:+ "not-a-token")) "Is there a lesion?" [Byte.x89]) =
    Ok (JObj [("question", JStr "Is there a lesion?")]).
Proof.
  assert (Hd : decode_token "k" 0 "not-a-token" = Err invalid_token) by (vm_compute; reflexivity).
  assert (Hi : image_open [Byte.x89] = Ok [Byte.x89]) by reflexivity.
  split; [exact Hd | split; [exact Hi|]].
  exact (vqa_accepts_invalid_token "k" 0 _ _ _ _ Hd Hi).
Defined.

Lemma generate_report_returns_password_hash_witness :
  decode_token "k" 10 admin_token = Ok (login_payload "admin" "admin" 3600) /\
  app "k" 10 (PostGenerateReport (Some ("Bearer " +:+ admin_token)) [Byte.x89] None) =
    Ok (JObj [("report", JStr "No acute findings."); ("radiologist_name",
          JObj [("username", JStr "admin"); ("password", JStr (plain_hash "adminpass"));
                ("role", JStr "admin")])]).
Proof.
  assert (Hd : decode_token "k" 10 admin_token = Ok (login_payload "admin" "admin" 3600))
    by (vm_compute; reflexivity).
  split; [exact Hd|].
  eapply proj1.
  apply (generate_report_returns_password_hash "k" 10 admin_token _ "admin"
    (mk_user "admin" (plain_hash "adminpass") "admin") [Byte.x89] None
    ([Byte.x89] : @image stub_backend) _ Hd);
    vm_compute; reflexivity.
Defined.

Lemma generate_report_failure_is_200_witness :
  decode_token "k" 10 admin_token = Ok (login_payload "admin" "admin" 3600) /\
  to_response (app "k" 10 (PostGenerateReport (Some ("Bearer " +:+ admin_token)) [] None)) =
    mk_response 200 (JObj [("error", JStr "cannot identify image file")]) [].
Proof.
  assert (Hd : decode_token "k" 10 admin_token = Ok (login_payload "admin" "admin" 3600))
    by (vm_compute; reflexivity).
  split; [exact Hd|].
  apply (generate_report_failure_is_200 "k" 10 admin_token _ [] None "cannot identify image file" Hd).
  reflexivity.
Defined.

Lemma protected_routes_require_bearer_witness :
  app "k" 0 (GetShowDrift (Some ("Basic YWRtaW46YWRtaW5wYXNz"))) = Err not_authenticated.
Proof.
  eapply proj1.
  apply (protected_routes_require_bearer "k" 0 (Some "Basic YWRtaW46YWRtaW5wYXNz") [] None "").
  right. exists "Basic YWRtaW46YWRtaW5wYXNz". split; [reflexivity | vm_compute; congruence].
Defined.

End Api.
