(* ===== verification/Unet.v ===== *)
(** The U-Net of [src/project2/backend/app/model.py]: [Unet.__init__]
    and [Unet.build_model].

    [build_model] calls the Keras functional API. A layer is first
    constructed, and its constructor checks its arguments
    ([layer_init]):
    - [Conv2D] looks its [kernel_initializer] up with
      [initializers.get], which raises on a name Keras does not know,
      and requires a positive [filters];
    - [Dropout] requires [0 <= rate <= 1].
    The layer is then called on its inputs, which checks their shapes
    and computes the output shape, raising [ValueError] on a mismatch.
    [compute_output_shape] writes out that shape inference for the
    layers the code uses, on [(None, h, w, c)] tensors (the batch axis
    is left out):
    - [Conv2D] with [padding='same'] and stride 1 keeps [h, w]; with
      [padding='valid'] it gives [h - k + 1], raising when negative;
    - [MaxPooling2D] with the default [padding='valid'] gives
      [floor((h - p) / p) + 1], which is [h / p] for [h >= 0];
    - [UpSampling2D(size)] multiplies [h, w] by [size];
    - [concatenate(axis=3)] requires equal [h, w] and sums the channels.
    Every layer of [build_model] is called as soon as it is constructed,
    except the [Conv2D] of [up7 = Conv2D(...)(UpSampling2D(...)(drop5))]
    and its three siblings, which Python constructs before it calls the
    [UpSampling2D]; that call cannot fail, so [apply_layer] (construct,
    then call) raises the same first error as the source. The graph
    under construction is the store of a state-and-error monad.
    [apply_layer] appends one node, and [build_model] chains the calls
    in the order the source makes them, variable names included. *)

From Stdlib Require Import QArith.
From S2P Require Import Prelude.

Module Unet.

Local Open Scope nat_scope.

Inductive activation : Type := Relu | Softmax.
Inductive padding : Type := Valid | Same.

(** The Keras layers the model uses, with the arguments passed to them. *)
Inductive layer : Type :=
| InputLayer (h w c : nat)
| Conv2D (filters kernel : nat) (act : activation) (pad : padding) (kernel_initializer : string)
| MaxPooling2D (pool_size : nat)
| Dropout (rate : Q)
| UpSampling2D (size : nat)
| Concatenate (axis : nat).

(** A tensor shape [(None, height, width, channels)]. *)
Record shape : Type := mk_shape { height : nat; width : nat; channels : nat }.

#[export] Instance shape_eq_dec : EqDecision shape.
Proof. solve_decision. Defined.

Record tensor : Type := mk_tensor { node_id : nat; tshape : shape }.

(** A node of the functional graph: its layer, the nodes its inputs
    come from (Keras' inbound nodes), their shapes, its output. *)
Record node : Type := mk_node {
  nlayer : layer;
  nsources : list nat;
  ninputs : list shape;
  noutput : shape
}.

Definition valid_rate (r : Q) : bool := Qle_bool 0 r && Qle_bool r 1.

Definition filters_error : string :=
  "Invalid value for argument `filters`. Expected a strictly positive value.".

Definition rate_error : string :=
  "Invalid value received for argument `rate`. Expected a float value between 0 and 1.".

Definition concat_error : string :=
  "A `Concatenate` layer requires inputs with matching shapes except for the concat axis.".

(** The names [initializers.get] resolves: the built-in initializers
    of Keras under their class names, their snake-case names and the
    short aliases. *)
Definition keras_initializers : list string :=
  ["Constant"; "GlorotNormal"; "GlorotUniform"; "HeNormal"; "HeUniform"; "Identity";
   "LecunNormal"; "LecunUniform"; "Ones"; "Orthogonal"; "RandomNormal"; "RandomUniform";
   "TruncatedNormal"; "VarianceScaling"; "Zeros";
   "constant"; "glorot_normal"; "glorot_uniform"; "he_normal"; "he_uniform"; "identity";
   "lecun_normal"; "lecun_uniform"; "ones"; "orthogonal"; "random_normal"; "random_uniform";
   "truncated_normal"; "variance_scaling"; "zeros";
   "uniform"; "normal"; "one"; "zero"].

Definition known_initializer (name : string) : bool := bool_decide (name ∈ keras_initializers).

Definition initializer_error (name : string) : string :=
  "Could not interpret initializer identifier: " +:+ name.

(** The checks of the constructors. *)
Definition layer_init (l : layer) : result string unit :=
  match l with
  | Conv2D f _ _ _ ki =>
      if negb (known_initializer ki) then Err (initializer_error ki)
      else if f =? 0 then Err filters_error else Ok tt
  | Dropout r => if valid_rate r then Ok tt else Err rate_error
  | _ => Ok tt
  end.

Definition compute_output_shape (l : layer) (ins : list shape) : result string shape :=
  match l, ins with
  | InputLayer h w c, [] => Ok (mk_shape h w c)
  | Conv2D f k _ pad _, [s] =>
      match pad with
      | Same => Ok (mk_shape (height s) (width s) f)
      | Valid =>
          if (k <=? height s + 1) && (k <=? width s + 1)
          then Ok (mk_shape (height s + 1 - k) (width s + 1 - k) f)
          else Err "Computed output size would be negative."
      end
  | MaxPooling2D p, [s] => Ok (mk_shape (height s / p) (width s / p) (channels s))
  | Dropout r, [s] => Ok s
  | UpSampling2D z, [s] => Ok (mk_shape (z * height s) (z * width s) (channels s))
  | Concatenate 3, [s1; s2] =>
      if bool_decide (height s1 = height s2 /\ width s1 = width s2)
      then Ok (mk_shape (height s1) (width s1) (channels s1 + channels s2))
      else Err concat_error
  | _, _ => Err "Layer called on inputs it does not accept."
  end.

Abbreviation graph := (list node).
Abbreviation build A := (stres graph string A).

(** Constructing a layer and calling it on tensors: check the
    arguments, infer the shape, then append the node. *)
Definition apply_layer (l : layer) (xs : list tensor) : build tensor :=
  fun g =>
    let* _ := layer_init l in
    let* s := compute_output_shape l (map tshape xs) in
    Ok (mk_tensor (length g) s, g ++ [mk_node l (map node_id xs) (map tshape xs) s]).

Record model : Type := mk_model { inputs : tensor; outputs : tensor; layers : graph }.

Definition Model (i o : tensor) : build model := fun g => Ok (mk_model i o g, g).

(** [Unet.build_model], call by call. *)
Definition build_model (img_size num_classes : nat) (ker_init : string) (dropout : Q)
    : result string model :=
  res_map fst ((
    let# inputs := apply_layer (InputLayer img_size img_size 2) [] in
    let# conv1 := apply_layer (Conv2D 32 3 Relu Same ker_init) [inputs] in
    let# conv1 := apply_layer (Conv2D 32 3 Relu Same ker_init) [conv1] in

    let# pool := apply_layer (MaxPooling2D 2) [conv1] in
    let# conv := apply_layer (Conv2D 64 3 Relu Same ker_init) [pool] in
    let# conv := apply_layer (Conv2D 64 3 Relu Same ker_init) [conv] in

    let# pool1 := apply_layer (MaxPooling2D 2) [conv] in
    let# conv2 := apply_layer (Conv2D 128 3 Relu Same ker_init) [pool1] in
    let# conv2 := apply_layer (Conv2D 128 3 Relu Same ker_init) [conv2] in

    let# pool2 := apply_layer (MaxPooling2D 2) [conv2] in
    let# conv3 := apply_layer (Conv2D 256 3 Relu Same ker_init) [pool2] in
    let# conv3 := apply_layer (Conv2D 256 3 Relu Same ker_init) [conv3] in

    let# pool4 := apply_layer (MaxPooling2D 2) [conv3] in
    let# conv5 := apply_layer (Conv2D 512 3 Relu Same ker_init) [pool4] in
    let# conv5 := apply_layer (Conv2D 512 3 Relu Same ker_init) [conv5] in
    let# drop5 := apply_layer (Dropout dropout) [conv5] in

    let# up7_in := apply_layer (UpSampling2D 2) [drop5] in
    let# up7 := apply_layer (Conv2D 256 2 Relu Same ker_init) [up7_in] in
    let# merge7 := apply_layer (Concatenate 3) [conv3; up7] in
    let# conv7 := apply_layer (Conv2D 256 3 Relu Same ker_init) [merge7] in
    let# conv7 := apply_layer (Conv2D 256 3 Relu Same ker_init) [conv7] in

    let# up8_in := apply_layer (UpSampling2D 2) [conv7] in
    let# up8 := apply_layer (Conv2D 128 2 Relu Same ker_init) [up8_in] in
    let# merge8 := apply_layer (Concatenate 3) [conv2; up8] in
    let# conv8 := apply_layer (Conv2D 128 3 Relu Same ker_init) [merge8] in
    let# conv8 := apply_layer (Conv2D 128 3 Relu Same ker_init) [conv8] in

    let# up9_in := apply_layer (UpSampling2D 2) [conv8] in
    let# up9 := apply_layer (Conv2D 64 2 Relu Same ker_init) [up9_in] in
    let# merge9 := apply_layer (Concatenate 3) [conv; up9] in
    let# conv9 := apply_layer (Conv2D 64 3 Relu Same ker_init) [merge9] in
    let# conv9 := apply_layer (Conv2D 64 3 Relu Same ker_init) [conv9] in

    let# up_in := apply_layer (UpSampling2D 2) [conv9] in
    let# up := apply_layer (Conv2D 32 2 Relu Same ker_init) [up_in] in
    let# merge := apply_layer (Concatenate 3) [conv1; up] in
    let# conv := apply_layer (Conv2D 32 3 Relu Same ker_init) [merge] in
    let# conv := apply_layer (Conv2D 32 3 Relu Same ker_init) [conv] in

    let# conv10 := apply_layer (Conv2D num_classes 1 Softmax Valid "glorot_uniform") [conv] in

    Model inputs conv10) []).

(** The object [Unet(img_size, num_classes, ker_init, dropout,
    learning_rate)]: its attributes, and the model [__init__] builds. *)
Record Unet : Type := mk_unet {
  img_size : nat;
  num_classes : nat;
  ker_init : string;
  dropout : Q;
  learning_rate : Q;
  unet_model : model
}.

Definition Unet_init (img_size num_classes : nat) (ker_init : string) (dropout learning_rate : Q)
    : result string Unet :=
  let* m := build_model img_size num_classes ker_init dropout in
  Ok (mk_unet img_size num_classes ker_init dropout learning_rate m).

(** The defaults of [__init__]: [ker_init='he_normal'], [dropout=0.2],
    [learning_rate=0.001]. *)
Definition Unet_default (img_size num_classes : nat) : result string Unet :=
  Unet_init img_size num_classes "he_normal" 0.2 0.001.

(** [model.count_params()]: a [Conv2D] has a [k * k * c_in * filters]
    kernel and a bias of [filters]; the other layers have no weights.
    The count is a binary number ([N]): it runs into the millions. *)
Definition node_params (n : node) : N :=
  match nlayer n, ninputs n with
  | Conv2D f k _ _ _, [s] => (N.of_nat k * N.of_nat k * N.of_nat (channels s) * N.of_nat f + N.of_nat f)%N
  | _, _ => 0%N
  end.

Definition count_params (m : model) : N :=
  fold_right (fun n acc => (node_params n + acc)%N) 0%N (layers m).

(** The U-Net's skip connections. [pool_inputs] lists, in graph
    order, the nodes whose output enters a [MaxPooling2D] (the
    encoder's outputs at each depth). [skip_inputs] lists the nodes
    whose output is the first input of a concatenation. *)
Definition pool_inputs (g : graph) : list nat :=
  flat_map (fun nd => match nlayer nd with MaxPooling2D _ => nsources nd | _ => [] end) g.

Definition skip_inputs (g : graph) : list nat :=
  flat_map (fun nd => match nlayer nd, nsources nd with
                      | Concatenate _, enc :: _ => [enc]
                      | _, _ => []
                      end) g.

(** ** The typing of the graph

    A graph is well typed when the output shape of every node is the
    shape inference of its layer on its input shapes, and each input
    comes from an earlier node whose output has that shape: the graph
    is in topological order and every edge carries the shape it
    claims. A tensor is valid in a graph when it names a node of that
    shape. *)
Definition graph_ok (g : graph) : Prop :=
  forall i nd, g !! i = Some nd ->
    compute_output_shape (nlayer nd) (ninputs nd) = Ok (noutput nd) /\
    Forall2 (fun src sh => src < i /\ exists m, g !! src = Some m /\ noutput m = sh)
      (nsources nd) (ninputs nd).

Definition tensor_ok (g : graph) (t : tensor) : Prop :=
  exists nd, g !! node_id t = Some nd /\ noutput nd = tshape t.

(** A Hoare triple for the builder: run from a well-typed graph in
    which the tensors [V] in scope are valid, [m] keeps the graph well
    typed and those tensors valid, and its result satisfies [Q]. *)
Definition hoare {A} (V : list tensor) (m : build A) (Q : A -> graph -> Prop) : Prop :=
  forall g a g', graph_ok g -> Forall (tensor_ok g) V -> m g = Ok (a, g') ->
    graph_ok g' /\ Forall (tensor_ok g') V /\ Q a g'.

(** ** Symbolic runs of [build_model] *)

(** Unfold the builder, the constructor checks and the shape
    inference, leaving [known_initializer], divisions, products,
    [valid_rate] and the [bool_decide] of each concatenation folded, so
    that the run on symbolic arguments stops at exactly the checks that
    depend on them. *)
Ltac run_build :=
  lazy beta iota zeta delta [build_model res_map st_bind st_ret res_bind apply_layer layer_init negb
    compute_output_shape Model map tshape length app Nat.eqb fst height width channels node_id].

(** Unfold only the layer calls and the constructor checks, so that
    the checks on the arguments can be rewritten before [run_build]
    runs the builder. *)
Ltac open_checks :=
  lazy beta iota delta [build_model apply_layer layer_init negb].

Lemma known_glorot_uniform : known_initializer "glorot_uniform" = true.
Proof. vm_compute. reflexivity. Qed.

(** The first [Conv2D] already rejects an unknown initializer. *)
Lemma build_model_bad_init n k ker drop :
  known_initializer ker = false -> build_model n k ker drop = Err (initializer_error ker).
Proof. intros Hker. open_checks. rewrite Hker. run_build. reflexivity. Qed.

Lemma build_model_bad_rate n k ker drop :
  known_initializer ker = true -> valid_rate drop = false -> build_model n k ker drop = Err rate_error.
Proof. intros Hker Hd. open_checks. rewrite Hker, Hd. run_build. reflexivity. Qed.

(** The four skip connections check [h = 2 * (h / 2)] at the four
    depths, which together say that [img_size] is a multiple of 16. *)
Lemma build_model_valid n k ker drop :
  known_initializer ker = true -> k <> 0 -> valid_rate drop = true ->
  (n mod 16 = 0 /\ exists m, build_model n k ker drop = Ok m /\
     tshape (inputs m) = mk_shape n n 2 /\ tshape (outputs m) = mk_shape n n k /\
     length (layers m) = 37 /\ count_params m = (7759776 + 33 * N.of_nat k)%N /\
     skip_inputs (layers m) = rev (pool_inputs (layers m)) /\ length (pool_inputs (layers m)) = 4)
  \/ (n mod 16 <> 0 /\ build_model n k ker drop = Err concat_error).
Proof.
  intros Hker Hk Hd. destruct k as [|k]; [contradiction|].
  open_checks. rewrite Hker, Hd, known_glorot_uniform. run_build.
  do 4 (run_build; case_bool_decide; [|right; split; [div_lia | reflexivity]]).
  rewrite (proj2 (Nat.leb_le 1 (n + 1))) by lia. run_build.
  left. split; [div_lia|].
  eexists; split; [reflexivity|].
  split; [reflexivity|]. split; [cbn; f_equal; lia|]. split; [reflexivity|].
  split; [cbn; lia | split; reflexivity].
Qed.

Lemma build_model_no_classes n ker drop :
  known_initializer ker = true -> valid_rate drop = true -> n mod 16 = 0 ->
  build_model n 0 ker drop = Err filters_error.
Proof.
  intros Hker Hd Hn. open_checks. rewrite Hker, Hd, known_glorot_uniform. run_build.
  do 4 (run_build; case_bool_decide; [|exfalso; div_lia]).
  reflexivity.
Qed.

Lemma build_model_bad_size n k ker drop :
  known_initializer ker = true -> valid_rate drop = true -> n mod 16 <> 0 ->
  build_model n k ker drop = Err concat_error.
Proof.
  intros Hker Hd Hn. destruct (decide (k = 0)) as [->|Hk].
  - open_checks. rewrite Hker, Hd, known_glorot_uniform. run_build.
    do 4 (run_build; case_bool_decide; [|done]). exfalso; div_lia.
  - destruct (build_model_valid n k ker drop Hker Hk Hd) as [[? _]|[_ E]]; [contradiction | exact E].
Qed.

(** What a successful build needs. *)
Lemma build_model_Ok_conds n k ker drop m :
  build_model n k ker drop = Ok m ->
  known_initializer ker = true /\ valid_rate drop = true /\ n mod 16 = 0 /\ k <> 0.
Proof.
  intros Hm. destruct (known_initializer ker) eqn:Hker; [|by rewrite build_model_bad_init in Hm].
  destruct (valid_rate drop) eqn:Hd; [|by rewrite build_model_bad_rate in Hm].
  destruct (decide (n mod 16 = 0)) as [Hn|Hn]; [|by rewrite build_model_bad_size in Hm].
  destruct (decide (k = 0)) as [->|Hk]; [by rewrite build_model_no_classes in Hm|]. done.
Qed.

(** ** Properties *)

(** C12: [Unet.__init__] builds its model exactly when the
    [kernel_initializer] is a name Keras knows, the dropout rate is in
    [0, 1], [img_size] is a multiple of 16 and [num_classes] is
    positive. Each of the four [MaxPooling2D] halves the size with
    rounding down, and each skip connection needs the upsampled size
    to equal the size before the matching pooling. *)
Theorem build_model_succeeds_iff n k ker drop :
  is_ok (build_model n k ker drop) = true <->
  known_initializer ker = true /\ valid_rate drop = true /\ n mod 16 = 0 /\ k <> 0.
Proof.
  split.
  - destruct (build_model n k ker drop) as [m|] eqn:E; [|discriminate].
    intros _. exact (build_model_Ok_conds n k ker drop m E).
  - intros (Hker & Hd & Hn & Hk).
    destruct (build_model_valid n k ker drop Hker Hk Hd) as [(_ & m & -> & _) | [Hn' _]];
      [reflexivity | contradiction].
Qed.

(** C13: when it builds, the model maps an [(img_size, img_size, 2)]
    input (FLAIR and T1ce) to an [(img_size, img_size, num_classes)]
    softmax map. It has 37 layers (input, 23 convolutions, 4 poolings,
    1 dropout, 4 upsamplings, 4 concatenations) and
    [7 759 776 + 33 * num_classes] weights, whatever [img_size] is. *)
Theorem build_model_shape_and_params n k ker drop :
  known_initializer ker = true -> n mod 16 = 0 -> k <> 0 -> valid_rate drop = true ->
  exists m, build_model n k ker drop = Ok m /\
    tshape (inputs m) = mk_shape n n 2 /\ tshape (outputs m) = mk_shape n n k /\
    length (layers m) = 37 /\ count_params m = (7759776 + 33 * N.of_nat k)%N.
Proof.
  intros Hker Hn Hk Hd.
  destruct (build_model_valid n k ker drop Hker Hk Hd) as [(_ & m & Hm & Hi & Ho & Hl & Hp & _) | [Hn' _]];
    [by exists m | contradiction].
Qed.

(** C14: the construction errors come in the order of the layer calls.
    An unknown [kernel_initializer] is reported first, by the first
    [Conv2D], whatever the other arguments. Then a dropout rate outside
    [0, 1], at the [Dropout] after the encoder. Otherwise an [img_size]
    that is not a multiple of 16 raises the [Concatenate] shape error.
    Only after that does [num_classes = 0] raise the [filters] error of
    the last [Conv2D]. *)
Theorem build_model_error_order n k ker drop :
  (known_initializer ker = false -> build_model n k ker drop = Err (initializer_error ker)) /\
  (known_initializer ker = true -> valid_rate drop = false -> build_model n k ker drop = Err rate_error) /\
  (known_initializer ker = true -> valid_rate drop = true -> n mod 16 <> 0 ->
     build_model n k ker drop = Err concat_error) /\
  (known_initializer ker = true -> valid_rate drop = true -> n mod 16 = 0 -> k = 0 ->
     build_model n k ker drop = Err filters_error).
Proof.
  split; [apply build_model_bad_init|]. split; [apply build_model_bad_rate|].
  split; [apply build_model_bad_size|]. intros Hker Hd Hn ->. by apply build_model_no_classes.
Qed.

(** ** The builder keeps the graph well typed *)

Lemma tensor_ok_app g l t : tensor_ok g t -> tensor_ok (g ++ l) t.
Proof. intros (nd & Hn & Hs). exists nd. split; [by apply lookup_app_l_Some | done]. Qed.

Lemma Forall2_map_same {A B C} (P : B -> C -> Prop) (f : A -> B) (h : A -> C) xs :
  Forall (fun x => P (f x) (h x)) xs -> Forall2 P (map f xs) (map h xs).
Proof. induction 1; simpl; constructor; auto. Qed.

(** Appending the node [apply_layer] builds, on valid inputs. *)
Lemma graph_ok_snoc g l xs s :
  graph_ok g -> Forall (tensor_ok g) xs -> compute_output_shape l (map tshape xs) = Ok s ->
  graph_ok (g ++ [mk_node l (map node_id xs) (map tshape xs) s]).
Proof.
  intros Hg Hxs Hs i nd Hi. apply lookup_app_Some in Hi as [Hi | [Hlen Hi]].
  - destruct (Hg i nd Hi) as [Hc HF]. split; [done|].
    eapply Forall2_impl; [|exact HF]. intros src sh [Hlt (m & Hm & Hms)].
    split; [done|]. exists m. split; [by apply lookup_app_l_Some | done].
  - apply list_lookup_singleton_Some in Hi as [Hi <-]. split; [done|]. simpl.
    apply Forall2_map_same. eapply Forall_impl; [|exact Hxs]. intros x (m & Hm & Hms).
    split; [apply lookup_lt_Some in Hm; lia|]. exists m. split; [by apply lookup_app_l_Some | done].
Qed.

Lemma hoare_bind {B} V (m : build tensor) (k : tensor -> build B) Q :
  hoare V m (fun a g => tensor_ok g a) -> (forall a, hoare (a :: V) (k a) Q) -> hoare V (st_bind m k) Q.
Proof.
  intros Hm Hk g b g'' Hg HV. rewrite st_bind_run. destruct (m g) as [[a g']|] eqn:E; [|discriminate].
  cbn [res_bind]. intros Hrun. destruct (Hm g a g' Hg HV E) as (Hg' & HV' & Ha).
  destruct (Hk a g' b g'' Hg' (Forall_cons_2 _ _ _ Ha HV') Hrun) as (Hg'' & HV'' & HQ).
  inversion HV''. auto.
Qed.

Lemma hoare_apply_layer V l xs :
  (forall x, In x xs -> In x V) -> hoare V (apply_layer l xs) (fun t g => tensor_ok g t).
Proof.
  intros Hxs g t g' Hg HV. unfold apply_layer.
  destruct (layer_init l); cbn [res_bind]; [|discriminate].
  destruct (compute_output_shape l (map tshape xs)) as [s|] eqn:Es; cbn [res_bind]; [|discriminate].
  intros [= <- <-]. rewrite Forall_forall in HV.
  assert (Hx : Forall (tensor_ok g) xs) by (apply Forall_forall; auto).
  split; [by apply graph_ok_snoc|]. split.
  - apply Forall_forall. intros x Hx'. by apply tensor_ok_app, HV.
  - eexists. split; [simpl; by rewrite lookup_app_r, Nat.sub_diag by lia | reflexivity].
Qed.

Lemma hoare_Model V i o :
  In i V -> In o V ->
  hoare V (Model i o) (fun m g => layers m = g /\ tensor_ok g (inputs m) /\ tensor_ok g (outputs m)).
Proof.
  intros Hi Ho g m g' Hg HV [= <- <-]. split; [done|]. split; [done|].
  rewrite Forall_forall in HV. simpl. auto.
Qed.

Lemma hoare_run {A} (c : build A) Q a g :
  hoare [] c Q -> c [] = Ok (a, g) -> graph_ok g /\ Q a g.
Proof.
  intros Hc E. destruct (Hc [] a g) as (Hg & _ & HQ); [|constructor|done|done].
  intros i nd Hi. by rewrite lookup_nil in Hi.
Qed.

(** Every model [build_model] returns is well typed. The proof is a
    Hoare logic on the builder and does not depend on the arguments. *)
Lemma build_model_graph_ok n k ker drop m :
  build_model n k ker drop = Ok m ->
  graph_ok (layers m) /\ tensor_ok (layers m) (inputs m) /\ tensor_ok (layers m) (outputs m).
Proof.
  unfold build_model, res_map. intros Hm.
  apply res_bind_Ok_inv in Hm as ([m' g] & E & Hm). injection Hm as <-.
  lazymatch type of E with ?c [] = _ =>
    assert (HQ : hoare [] c (fun m g => layers m = g /\ tensor_ok g (inputs m) /\ tensor_ok g (outputs m)))
  end.
  { repeat (apply hoare_bind; [apply hoare_apply_layer; simpl; intros ? ?; intuition congruence | intros ?]).
    apply hoare_Model; simpl; tauto. }
  destruct (hoare_run _ _ _ _ HQ E) as (Hg & <- & Hi & Ho). auto.
Qed.

(** C33: every model [build_model] returns is a well-typed U-Net. Each
    layer has the output shape Keras infers from its inputs, each input
    comes from an earlier layer with that output shape (the graph is in
    topological order), and the model's input and output tensors name
    layers of the graph with their shapes. The four concatenations take
    as their first input the tensors that entered the four poolings, in
    mirrored order: the first concatenation joins the deepest encoder
    output ([conv3]), the last one the shallowest ([conv1]). *)
Theorem build_model_well_typed n k ker drop m :
  build_model n k ker drop = Ok m ->
  graph_ok (layers m) /\ tensor_ok (layers m) (inputs m) /\ tensor_ok (layers m) (outputs m) /\
  skip_inputs (layers m) = rev (pool_inputs (layers m)) /\ length (pool_inputs (layers m)) = 4.
Proof.
  intros Hm. destruct (build_model_graph_ok n k ker drop m Hm) as (Hg & Hi & Ho).
  destruct (build_model_Ok_conds n k ker drop m Hm) as (Hker & Hd & Hn & Hk).
  destruct (build_model_valid n k ker drop Hker Hk Hd) as [(_ & m' & Hm' & _ & _ & _ & _ & Hs) | [Hn' _]];
    [|contradiction].
  rewrite Hm in Hm'. injection Hm' as <-. auto.
Qed.

(** Witnesses: the image size 128 and the 4 BraTS classes the source
    uses; the size 120 that is not a multiple of 16; an initializer
    name Keras does not know. *)
Lemma build_model_succeeds_iff_witness :
  is_ok (build_model 128 4 "he_normal" 0.2) = true /\ is_ok (build_model 120 4 "he_normal" 0.2) = false /\
  is_ok (build_model 128 4 "bogus" 0.2) = false.
Proof.
  split; [|split].
  - apply (build_model_succeeds_iff 128 4 "he_normal" 0.2). vm_compute. repeat split; discriminate.
  - destruct (is_ok (build_model 120 4 "he_normal" 0.2)) eqn:E; [|reflexivity].
    apply (build_model_succeeds_iff 120 4 "he_normal" 0.2) in E as (_ & _ & Hn & _). discriminate Hn.
  - destruct (is_ok (build_model 128 4 "bogus" 0.2)) eqn:E; [|reflexivity].
    apply (build_model_succeeds_iff 128 4 "bogus" 0.2) in E as (Hker & _). discriminate Hker.
Defined.

Lemma build_model_shape_and_params_witness :
  exists m, build_model 128 4 "he_normal" 0.2 = Ok m /\
    tshape (inputs m) = mk_shape 128 128 2 /\ tshape (outputs m) = mk_shape 128 128 4 /\
    length (layers m) = 37 /\ count_params m = 7759908%N.
Proof.
  destruct (build_model_shape_and_params 128 4 "he_normal" 0.2) as (m & Hm & Hi & Ho & Hl & Hp);
    [vm_compute; reflexivity | reflexivity | lia | reflexivity |].
  exists m. rewrite Hp. auto.
Defined.

Lemma build_model_error_order_witness :
  build_model 128 4 "bogus" 1.5 = Err (initializer_error "bogus") /\
  build_model 128 4 "he_normal" 1.5 = Err rate_error /\
  build_model 120 4 "he_normal" 0.2 = Err concat_error /\
  build_model 128 0 "he_normal" 0.2 = Err filters_error.
Proof.
  assert (Hb : known_initializer "bogus" = false) by (vm_compute; reflexivity).
  assert (Hh : known_initializer "he_normal" = true) by (vm_compute; reflexivity).
  destruct (build_model_error_order 128 4 "bogus" 1.5) as [H0 _].
  destruct (build_model_error_order 128 4 "he_normal" 1.5) as [_ [H1 _]].
  destruct (build_model_error_order 120 4 "he_normal" 0.2) as [_ [_ [H2 _]]].
  destruct (build_model_error_order 128 0 "he_normal" 0.2) as [_ [_ [_ H3]]].
  split; [exact (H0 Hb)|]. split; [exact (H1 Hh eq_refl)|].
  split; [apply H2; [exact Hh | reflexivity | discriminate] | apply H3; [exact Hh | reflexivity | reflexivity | reflexivity]].
Defined.

Lemma build_model_well_typed_witness :
  match build_model 128 4 "he_normal" 0.2 with
  | Ok m => skip_inputs (layers m) = [11%nat; 8%nat; 5%nat; 2%nat] /\
      skip_inputs (layers m) = rev (pool_inputs (layers m))
  | Err _ => False
  end.
Proof.
  destruct (build_model 128 4 "he_normal" 0.2) as [m|e] eqn:E.
  - split; [vm_compute in E; injection E as <-; reflexivity|].
    exact (proj1 (proj2 (proj2 (proj2 (build_model_well_typed 128 4 "he_normal" 0.2 m E))))).
  - vm_compute in E. discriminate E.
Defined.

End Unet.
