(* ===== verification/Training.v ===== *)
(** Compiling, evaluating and training the U-Net of
    [src/project2/backend/app/model.py].

    [compile_model], [compile_and_load_weights] and [evaluate] pass a
    loss, an Adam learning rate and a list of metrics to
    [model.compile]. The record [compiled] is what the model holds
    afterwards. [evaluate] then pairs the list Keras returns ([loss]
    followed by one value per compiled metric) with its ten
    descriptions, through [zip].

    [train] calls [model.fit] on [self.model], whose compile
    configuration it takes as an argument: [len(train_ids)] is
    evaluated first, then [fit] raises [ValueError] unless the model
    was compiled ([__init__] never compiles it), and trains from the
    rate the compiled Adam optimizer holds. The writes to disk are in
    [Checkpoint.train_fs]. [fit] runs three callbacks, in list order
    at the end of every epoch. Their logic is written out from Keras as
    state machines with the arguments the code passes:
    - [ReduceLROnPlateau(monitor='val_loss', factor=0.2, patience=2,
      min_lr=1e-6)] (mode [min], [min_delta = 1e-4], no cooldown).
      It first stores the current rate in the epoch's logs; [wait]
      counts the epochs without an improvement of more than
      [min_delta], and at [patience] the rate becomes
      [max(lr * factor, min_lr)], provided it is still above [min_lr].
    - [ModelCheckpoint(save_best_only=True)] on [val_loss]: weights are
      saved, as [model_.{epoch+1:02d}-...], exactly when the loss is
      strictly below the best seen so far.
    - [CSVLogger('training.log', append=False)]: one row per epoch,
      holding the epoch index, the validation loss and the learning
      rate ReduceLROnPlateau logged.
    Training itself is a framework call: the validation loss of each
    epoch is an arbitrary oracle [val_loss : nat -> Q], so every theorem
    holds for every sequence of losses training may produce. Losses and
    rates are exact rationals; NaN losses and float32 rounding are not
    modelled. *)

From Stdlib Require Import QArith Qminmax Lqa.
From S2P Require Import Prelude Unet.

Module Training.
Import Unet.

Local Open Scope Q_scope.

Definition Qltb (x y : Q) : bool := negb (Qle_bool y x).

Lemma Qltb_lt x y : Qltb x y = true <-> x < y.
Proof.
  unfold Qltb. rewrite negb_true_iff. split.
  - intros H. apply Qnot_le_lt. intros Hle. apply Qle_bool_iff in Hle. congruence.
  - intros H. destruct (Qle_bool y x) eqn:E; [|done]. apply Qle_bool_iff in E. lra.
Qed.

(** ** Compilation and evaluation *)

Inductive metric : Type :=
| accuracy
| MeanIoU (num_classes : nat)
| dice_coef | precision | sensitivity | specificity
| dice_coef_necrotic | dice_coef_edema | dice_coef_enhancing.

#[export] Instance metric_eq_dec : EqDecision metric.
Proof. solve_decision. Defined.

Record compiled : Type := mk_compiled {
  loss : string;
  adam_learning_rate : Q;
  metrics : list metric
}.

Definition compile_model_metrics : list metric :=
  [accuracy; MeanIoU 4; dice_coef; precision; sensitivity; specificity;
   dice_coef_necrotic; dice_coef_edema; dice_coef_enhancing].

Definition compile_model (self : Unet) (loss_ : string) : compiled :=
  mk_compiled loss_ (learning_rate self) compile_model_metrics.

(** The compilation [compile_and_load_weights] performs before
    [load_weights]. *)
Definition compile_and_load_weights (self : Unet) (weights_path : string) : compiled * string :=
  (mk_compiled "categorical_crossentropy" (learning_rate self) compile_model_metrics,
   "Loaded weights from " +:+ weights_path).

Definition evaluate_metrics (self : Unet) : list metric :=
  [accuracy; MeanIoU (num_classes self); dice_coef; precision; sensitivity; specificity;
   dice_coef_necrotic; dice_coef_edema; dice_coef_enhancing].

Definition descriptions : list string :=
  ["Loss"; "Accuracy"; "MeanIOU"; "Dice coefficient"; "Precision"; "Sensitivity";
   "Specificity"; "Dice coef Necrotic"; "Dice coef Edema"; "Dice coef Enhancing"].

(** Python's [zip]: stops at the shorter list. *)
Fixpoint zip {A B} (xs : list A) (ys : list B) : list (A * B) :=
  match xs, ys with
  | x :: xs', y :: ys' => (x, y) :: zip xs' ys'
  | _, _ => []
  end.

(** [evaluate]: compile, ask Keras for the results, and produce the
    printed lines [f"{description} : {round(metric, 4)}"] as pairs
    (rounding is left out). *)
Definition evaluate (self : Unet) (keras_evaluate : compiled -> list Q)
    : compiled * list (string * Q) :=
  let c := mk_compiled "categorical_crossentropy" (learning_rate self) (evaluate_metrics self) in
  let results := keras_evaluate c in
  (c, map (fun '(metric, description) => (description, metric)) (zip results descriptions)).

(** ** The callbacks of [train] *)

Record ReduceLROnPlateau : Type := mk_reduce_lr {
  rl_factor : Q;
  rl_patience : nat;
  rl_min_lr : Q;
  rl_min_delta : Q;
  rl_cooldown : nat
}.

Definition reduce_lr : ReduceLROnPlateau := mk_reduce_lr 0.2 2 0.000001 0.0001 0.

Record rl_state : Type := mk_rl_state {
  rl_best : option Q;       (* [None] is [np.inf] *)
  rl_wait : nat;
  rl_cooldown_counter : nat
}.

Definition rl_reset : rl_state := mk_rl_state None 0 0.

(** [monitor_op] of mode [min]: [current < best - min_delta]. *)
Definition rl_improves (cfg : ReduceLROnPlateau) (current : Q) (best : option Q) : bool :=
  match best with None => true | Some b => Qltb current (b - rl_min_delta cfg) end.

(** [ReduceLROnPlateau.on_epoch_end]: the new state and the new rate. *)
Definition rl_on_epoch_end (cfg : ReduceLROnPlateau) (st : rl_state) (lr current : Q)
    : rl_state * Q :=
  let '(cd, wait) :=
    if (0 <? rl_cooldown_counter st)%nat then (rl_cooldown_counter st - 1, 0)%nat
    else (rl_cooldown_counter st, rl_wait st) in
  if rl_improves cfg current (rl_best st) then (mk_rl_state (Some current) 0 cd, lr)
  else if (0 <? cd)%nat then (mk_rl_state (rl_best st) wait cd, lr)
  else
    let wait := S wait in
    if (rl_patience cfg <=? wait)%nat then
      if Qltb (rl_min_lr cfg) lr then
        (mk_rl_state (rl_best st) 0 (rl_cooldown cfg), Qmax (lr * rl_factor cfg) (rl_min_lr cfg))
      else (mk_rl_state (rl_best st) wait cd, lr)
    else (mk_rl_state (rl_best st) wait cd, lr).

Record ck_state : Type := mk_ck_state {
  ck_best : option Q;
  ck_saved : list (nat * Q)     (* (epoch + 1, val_loss) of each file written *)
}.

(** [ModelCheckpoint._save_model] with [save_best_only=True]:
    [monitor_op] is [np.less]. *)
Definition ck_better (st : ck_state) (current : Q) : bool :=
  match ck_best st with None => true | Some b => Qltb current b end.

Definition ck_on_epoch_end (st : ck_state) (epoch : nat) (current : Q) : ck_state :=
  if ck_better st current then mk_ck_state (Some current) (ck_saved st ++ [(S epoch, current)]) else st.

(** ** The fit loop *)

Record fit_state : Type := mk_fit_state {
  fs_lr : Q;
  fs_rl : rl_state;
  fs_ck : ck_state;
  fs_csv : list (nat * Q * Q)   (* epoch, val_loss, learning_rate *)
}.

(** The end of one epoch: the callbacks in the order of the list. *)
Definition fit_epoch (st : fit_state) (epoch : nat) (val_loss : Q) : fit_state :=
  let logged_lr := fs_lr st in
  let '(rl', lr') := rl_on_epoch_end reduce_lr (fs_rl st) (fs_lr st) val_loss in
  let ck' := ck_on_epoch_end (fs_ck st) epoch val_loss in
  mk_fit_state lr' rl' ck' (fs_csv st ++ [(epoch, val_loss, logged_lr)]).

Fixpoint fit_from (st : fit_state) (epoch : nat) (losses : list Q) : fit_state :=
  match losses with
  | [] => st
  | v :: rest => fit_from (fit_epoch st epoch v) (S epoch) rest
  end.

Definition fit_init (lr : Q) : fit_state := mk_fit_state lr rl_reset (mk_ck_state None []) [].

Definition len_none_error : string := "TypeError: object of type 'NoneType' has no len()".

(** Keras' [_assert_compile_called('fit')]. *)
Definition not_compiled_error : string :=
  "ValueError: You must call `compile()` before calling `fit()`.".

(** [Unet.train] on [self.model], whose compile configuration is
    [model_compiled] ([None] until [compile] is called; [__init__]
    never calls it). The arguments of [fit] are evaluated first, so
    [steps_per_epoch=len(train_ids)] raises [TypeError] on the default
    [train_ids=None]. [fit] then raises unless the model is compiled,
    and trains from the rate the compiled Adam optimizer holds. *)
Definition train (model_compiled : option compiled) (train_ids : option (list string)) (epochs : nat)
    (val_loss : nat -> Q) : result string fit_state :=
  match train_ids with
  | None => Err len_none_error
  | Some _ =>
      match model_compiled with
      | None => Err not_compiled_error
      | Some c => Ok (fit_from (fit_init (adam_learning_rate c)) 0 (map val_loss (seq 0 epochs)))
      end
  end.

(** ** Lemmas *)

(** Every element is related to every later one. *)
Fixpoint pairwise (R : Q -> Q -> Prop) (l : list Q) : Prop :=
  match l with
  | [] => True
  | x :: r => Forall (R x) r /\ pairwise R r
  end.

Lemma pairwise_snoc R l z :
  pairwise R (l ++ [z]) <-> pairwise R l /\ Forall (fun x => R x z) l.
Proof.
  induction l as [|x r IH]; simpl.
  - split; [intros _; split; constructor | intros _; split; [constructor | exact I]].
  - rewrite Forall_app, IH, !Forall_cons_iff. split.
    + intros [[Hr [Hz _]] [Hp Hf]]. repeat split; auto.
    + intros [[Hr Hp] [Hz Hf]]. repeat split; auto.
Qed.

Definition lr_trace (st : fit_state) : list Q := map (fun '(_, _, lr) => lr) (fs_csv st).
Definition processed (st : fit_state) : list (nat * Q) := map (fun '(e, v, _) => (e, v)) (fs_csv st).

Lemma fit_epoch_unfold st e v :
  fit_epoch st e v =
  mk_fit_state (rl_on_epoch_end reduce_lr (fs_rl st) (fs_lr st) v).2
    (rl_on_epoch_end reduce_lr (fs_rl st) (fs_lr st) v).1
    (ck_on_epoch_end (fs_ck st) e v) (fs_csv st ++ [(e, v, fs_lr st)]).
Proof. unfold fit_epoch. by destruct (rl_on_epoch_end _ _ _ _). Qed.

Lemma lr_trace_fit_epoch st e v : lr_trace (fit_epoch st e v) = lr_trace st ++ [fs_lr st].
Proof. rewrite fit_epoch_unfold. unfold lr_trace. simpl. by rewrite map_app. Qed.

Lemma processed_fit_epoch st e v : processed (fit_epoch st e v) = processed st ++ [(e, v)].
Proof. rewrite fit_epoch_unfold. unfold processed. simpl. by rewrite map_app. Qed.

(** One epoch leaves the rate alone or, from above [min_lr], sets it to
    [max(lr * 0.2, min_lr)]. *)
Lemma rl_on_epoch_end_lr st lr v :
  (rl_on_epoch_end reduce_lr st lr v).2 = lr \/
  (0.000001 < lr /\ (rl_on_epoch_end reduce_lr st lr v).2 = Qmax (lr * 0.2) 0.000001).
Proof.
  unfold rl_on_epoch_end. simpl.
  repeat (case_match; simpl; auto).
  all: right; split; [by apply Qltb_lt | reflexivity].
Qed.

Lemma lr_step_bounds lr lr' :
  0.000001 <= lr ->
  lr' = lr \/ (0.000001 < lr /\ lr' = Qmax (lr * 0.2) 0.000001) ->
  0.000001 <= lr' /\ lr' <= lr.
Proof.
  intros Hm [-> | [Hlt ->]]; [lra|].
  split; [apply Q.le_max_r|].
  destruct (Q.max_spec_le (lr * 0.2) 0.000001) as [[_ ->] | [_ ->]]; lra.
Qed.

(** An invariant of one epoch is an invariant of the whole loop. *)
Lemma fit_from_invariant (P : fit_state -> Prop) st e l :
  (forall st e v, P st -> P (fit_epoch st e v)) -> P st -> P (fit_from st e l).
Proof. intros Hstep. revert st e. induction l; simpl; auto. Qed.

Lemma processed_fit_from st e l :
  processed (fit_from st e l) = processed st ++ combine (seq e (length l)) l.
Proof.
  revert st e. induction l as [|v l IH]; intros st e; simpl; [by rewrite app_nil_r|].
  rewrite IH, processed_fit_epoch, <- app_assoc. reflexivity.
Qed.

Lemma combine_seq_map (vl : nat -> Q) n k :
  combine (seq k n) (map vl (seq k n)) = map (fun e => (e, vl e)) (seq k n).
Proof. revert k. induction n; intros k; simpl; [done | by rewrite IHn]. Qed.

Lemma train_Ok c ids epochs vl st :
  train (Some c) ids epochs vl = Ok st ->
  st = fit_from (fit_init (adam_learning_rate c)) 0 (map vl (seq 0 epochs)).
Proof. unfold train. destruct ids; congruence. Qed.

Lemma processed_train c epochs vl :
  processed (fit_from (fit_init (adam_learning_rate c)) 0 (map vl (seq 0 epochs))) =
  map (fun e => (e, vl e)) (seq 0 epochs).
Proof. by rewrite processed_fit_from, length_map, length_seq, combine_seq_map. Qed.

(** The six learning rates the schedule can reach from 0.001. *)
Definition lr_schedule : list Q := [0.001; 0.0002; 0.00004; 0.000008; 0.0000016; 0.000001].

Definition in_schedule (lr : Q) : bool := existsb (Qeq_bool lr) lr_schedule.

#[export] Instance in_schedule_proper : Proper (Qeq ==> eq) in_schedule.
Proof.
  intros x y Hxy. unfold in_schedule. generalize lr_schedule as l.
  induction l as [|a l IH]; simpl; [done|]. f_equal; [|exact IH].
  apply Bool.eq_iff_eq_true. rewrite !Qeq_bool_iff. split; intros; lra.
Qed.

Lemma in_schedule_step lr :
  in_schedule lr = true -> 0.000001 < lr -> in_schedule (Qmax (lr * 0.2) 0.000001) = true.
Proof.
  intros Ha Hlt. apply existsb_exists in Ha as (a & Hin & Heq). apply Qeq_bool_iff in Heq.
  rewrite Heq in Hlt |- *.
  repeat (destruct Hin as [<- | Hin]; [vm_compute; reflexivity || lra|]). contradiction.
Qed.

Definition lr_history (st : fit_state) : list Q := lr_trace st ++ [fs_lr st].

Lemma lr_history_fit_epoch st e v :
  lr_history (fit_epoch st e v) =
  lr_history st ++ [(rl_on_epoch_end reduce_lr (fs_rl st) (fs_lr st) v).2].
Proof. unfold lr_history. rewrite lr_trace_fit_epoch, fit_epoch_unfold. reflexivity. Qed.

Lemma lr_history_init lr : lr_history (fit_init lr) = [lr].
Proof. reflexivity. Qed.

Lemma lr_history_last st : In (fs_lr st) (lr_history st).
Proof. unfold lr_history. apply in_or_app. right. by left. Qed.

(** The rate a fit starts from is the first one it logs. *)
Lemma lr_history_head lr e l : lr_history (fit_from (fit_init lr) e l) !! 0%nat = Some lr.
Proof.
  apply fit_from_invariant; [|reflexivity]. intros st e' v H0.
  rewrite lr_history_fit_epoch, lookup_app_l; [done|]. apply lookup_lt_Some in H0. lia.
Qed.

(** What [ModelCheckpoint] keeps: the saved losses decrease strictly,
    the best is the loss of the last file written, and it is the least
    loss of the epochs processed so far. *)
Definition ck_inv (st : fit_state) : Prop :=
  let ck := fs_ck st in
  pairwise (fun x y => y < x) (map snd (ck_saved ck)) /\
  match ck_best ck with
  | None => ck_saved ck = [] /\ processed st = []
  | Some b => Forall (fun x => b <= x) (map snd (ck_saved ck)) /\
      Forall (fun '(_, v) => b <= v) (processed st) /\
      exists e, list.last (ck_saved ck) = Some (S e, b) /\ In (e, b) (processed st)
  end.

Lemma ck_inv_fit_epoch st e v : ck_inv st -> ck_inv (fit_epoch st e v).
Proof.
  unfold ck_inv. rewrite processed_fit_epoch, fit_epoch_unfold. cbn [fs_ck].
  unfold ck_on_epoch_end, ck_better. intros [Hpw Hb].
  destruct (ck_best (fs_ck st)) as [b|] eqn:Eb; simpl.
  - destruct Hb as (Hsaved & Hproc & e0 & Hlast & Hin).
    destruct (Qltb v b) eqn:Hlt; simpl.
    + apply Qltb_lt in Hlt. rewrite map_app. simpl.
      split; [apply pairwise_snoc; split; [done|] | split; [|split]].
      * eapply Forall_impl; [|exact Hsaved]. simpl. intros x Hx. lra.
      * apply Forall_app; split; [|constructor; [lra | constructor]].
        eapply Forall_impl; [|exact Hsaved]. simpl. intros x Hx. lra.
      * apply Forall_app; split; [|constructor; [lra | constructor]].
        eapply Forall_impl; [|exact Hproc]. intros [? ?] Hx. lra.
      * exists e. rewrite last_snoc. split; [done|]. apply in_or_app. right. by left.
    + assert (b <= v) by (apply Qnot_lt_le; intros Hv; apply Qltb_lt in Hv; congruence).
      rewrite Eb. split; [done|]. split; [done|]. split.
      * apply Forall_app; split; [done | by constructor].
      * exists e0. split; [done|]. apply in_or_app. by left.
  - destruct Hb as [-> ->]. simpl. split; [split; constructor|].
    split; [constructor; [lra | constructor]|]. split; [constructor; [lra | constructor]|].
    exists e. split; [reflexivity | by left].
Qed.

Lemma zip_same_length {A B} (xs : list A) (ys : list B) :
  length xs = length ys -> map fst (zip xs ys) = xs /\ map snd (zip xs ys) = ys.
Proof.
  revert ys. induction xs as [|x xs IH]; intros [|y ys] Hl; simpl in *; try done.
  destruct (IH ys) as [-> ->]; [lia | done].
Qed.

(** ** Properties *)

(** C15: for every sequence of validation losses, the learning rates
    [train] runs with never increase from one epoch to the next, and
    stay between [min_lr = 1e-6] and the rate the compiled optimizer
    held when [train] was called ([learning_rate] right after
    [compile_model]). This covers the rates the CSV log records and
    the final rate. *)
Theorem train_lr_nonincreasing_bounded c ids epochs vl st :
  0.000001 <= adam_learning_rate c -> train (Some c) ids epochs vl = Ok st ->
  pairwise (fun x y => y <= x) (lr_history st) /\
  Forall (fun lr => 0.000001 <= lr /\ lr <= adam_learning_rate c) (lr_history st).
Proof.
  intros Hlr Ht. apply train_Ok in Ht as ->. apply fit_from_invariant.
  - intros st e v [Hpw Hb]. rewrite lr_history_fit_epoch.
    pose proof (proj1 (Forall_forall _ _) Hb _ (lr_history_last st)) as [Hm Hle]. simpl in Hm, Hle.
    destruct (lr_step_bounds _ _ Hm (rl_on_epoch_end_lr (fs_rl st) (fs_lr st) v)) as [Hm' Hle'].
    split.
    + apply pairwise_snoc. split; [done|].
      unfold lr_history in Hpw |- *. apply pairwise_snoc in Hpw as [_ Hlast].
      apply Forall_app. split; [|constructor; [done | constructor]].
      eapply Forall_impl; [|exact Hlast]. simpl. intros x Hx. lra.
    + apply Forall_app. split; [done|]. constructor; [split; lra | constructor].
  - rewrite lr_history_init. split; [split; constructor|]. constructor; [split; lra | constructor].
Qed.

(** From the default [learning_rate=0.001], the only rates the
    optimizer ever gets are 0.001, 0.0002, 0.00004, 0.000008, 0.0000016
    and 1e-6. So at most five reductions ever take effect: the fifth
    lands on the [min_lr] floor, and nothing changes the rate after
    that. *)
Theorem train_lr_schedule c ids epochs vl st :
  adam_learning_rate c == 0.001 -> train (Some c) ids epochs vl = Ok st ->
  Forall (fun lr => in_schedule lr = true) (lr_history st).
Proof.
  intros Hlr Ht. apply train_Ok in Ht as ->. apply fit_from_invariant.
  - intros st e v Hall. rewrite lr_history_fit_epoch. apply Forall_app. split; [done|].
    constructor; [|constructor].
    pose proof (proj1 (Forall_forall _ _) Hall _ (lr_history_last st)) as Hs. simpl in Hs.
    destruct (rl_on_epoch_end_lr (fs_rl st) (fs_lr st) v) as [-> | [Hlt ->]]; [done|].
    by apply in_schedule_step.
  - rewrite lr_history_init. constructor; [|constructor]. rewrite Hlr. reflexivity.
Qed.

(** C17: after training for at least one epoch, the losses of the
    weight files [ModelCheckpoint] wrote strictly decrease. The last
    file written is that of an epoch whose validation loss is the least
    of all epochs, so it holds the best weights. *)
Theorem train_checkpoint_best c ids epochs vl st :
  train (Some c) ids epochs vl = Ok st -> (0 < epochs)%nat ->
  pairwise (fun x y => y < x) (map snd (ck_saved (fs_ck st))) /\
  exists e, (e < epochs)%nat /\ list.last (ck_saved (fs_ck st)) = Some (S e, vl e) /\
    forall e', (e' < epochs)%nat -> vl e <= vl e'.
Proof.
  intros Ht Hep. apply train_Ok in Ht as Hst.
  assert (Hproc : processed st = map (fun e => (e, vl e)) (seq 0 epochs)).
  { rewrite Hst. apply processed_train. }
  assert (Hinv : ck_inv st).
  { rewrite Hst. apply fit_from_invariant; [apply ck_inv_fit_epoch | split; [exact I | split; reflexivity]]. }
  destruct Hinv as [Hpw Hb]. split; [done|].
  destruct (ck_best (fs_ck st)) as [b|].
  - destruct Hb as (_ & Hall & e & Hlast & Hin). rewrite Hproc in Hall, Hin.
    apply in_map_iff in Hin as (e1 & [= -> <-] & Hin). apply in_seq in Hin.
    exists e. split; [lia|]. split; [done|].
    intros e' He'. rewrite Forall_forall in Hall.
    apply (Hall (e', vl e')), in_map_iff. exists e'. split; [done | apply in_seq; lia].
  - destruct Hb as [_ Hnil]. rewrite Hproc in Hnil. destruct epochs; [lia | discriminate].
Qed.

(** C18: [train] raises [TypeError] exactly when [train_ids] is left at
    its default [None], before anything else. Otherwise it raises the
    [ValueError] of [fit] exactly when the model is not compiled, as it
    is on an object [__init__] just built. Otherwise the CSV log has one
    row per epoch, in epoch order, each with that epoch's validation
    loss, and the first row carries the rate the compiled optimizer
    holds when [train] is called. *)
Theorem train_log_rows model_compiled ids epochs vl :
  match train model_compiled ids epochs vl with
  | Err e => (ids = None /\ e = len_none_error) \/
      (ids <> None /\ model_compiled = None /\ e = not_compiled_error)
  | Ok st => exists c, ids <> None /\ model_compiled = Some c /\
      processed st = map (fun e => (e, vl e)) (seq 0 epochs) /\
      (epochs <> 0%nat -> lr_trace st !! 0%nat = Some (adam_learning_rate c))
  end.
Proof.
  unfold train. destruct ids as [l|]; [|left; split; reflexivity].
  destruct model_compiled as [c|]; [|right; done].
  exists c. split; [done|]. split; [done|]. split; [apply processed_train|].
  destruct epochs as [|n]; [done|]. intros _.
  pose proof (lr_history_head (adam_learning_rate c) 0 (map vl (seq 0 (S n)))) as H.
  unfold lr_history in H. rewrite lookup_app_l in H; [done|].
  pose proof (f_equal length (processed_train c (S n) vl)) as Hl. unfold processed in Hl.
  rewrite !length_map, length_seq in Hl. unfold lr_trace. rewrite length_map, Hl. lia.
Qed.

(** Whatever the model evaluates to, as long as Keras returns the
    loss and one value per compiled metric, [evaluate] prints all ten
    descriptions in order, each beside the value at the same position:
    the [zip] never truncates, and "Loss" is beside the loss. *)
Theorem evaluate_reports_all_metrics self keras_evaluate :
  (forall c, length (keras_evaluate c) = S (length (metrics c))) ->
  metrics (evaluate self keras_evaluate).1 = evaluate_metrics self /\
  map fst (evaluate self keras_evaluate).2 = descriptions /\
  map snd (evaluate self keras_evaluate).2 = keras_evaluate (evaluate self keras_evaluate).1.
Proof.
  intros Hlen. unfold evaluate. simpl. split; [done|].
  set (c := mk_compiled _ _ _). specialize (Hlen c).
  destruct (zip_same_length (keras_evaluate c) descriptions) as [Hf Hs]; [by rewrite Hlen|].
  rewrite !map_map. split.
  - rewrite <- Hs at 2. apply map_ext. by intros [].
  - rewrite <- Hf at 2. apply map_ext. by intros [].
Qed.

(** C20: [compile_model] and [compile_and_load_weights] compile with
    [MeanIoU(num_classes=4)], while [evaluate] recompiles with
    [MeanIoU(num_classes=self.num_classes)]. The two metric lists agree
    exactly when the U-Net has 4 classes. *)
Theorem compile_evaluate_metrics_agree_iff self loss_ keras_evaluate :
  metrics (compile_model self loss_) = metrics (evaluate self keras_evaluate).1 <->
  num_classes self = 4%nat.
Proof.
  unfold compile_model, evaluate, compile_model_metrics, evaluate_metrics. simpl.
  split; [intros H; injection H as H; by rewrite H | intros ->; reflexivity].
Qed.

(** ** Witnesses *)

Definition example_unet : Unet :=
  mk_unet 128 4 "he_normal" 0.2 0.001 (mk_model (mk_tensor 0 (mk_shape 128 128 2))
    (mk_tensor 36 (mk_shape 128 128 4)) []).

(** A plateau: the loss improves once, then stays flat for 20 epochs. *)
Definition plateau (e : nat) : Q := if (e =? 0)%nat then 1 else 0.5.

Definition plateau_run : fit_state :=
  fit_from (fit_init 0.001) 0 (map plateau (seq 0 20)).

(** The model right after [compile_model()]. *)
Definition example_compiled : compiled := compile_model example_unet "categorical_crossentropy".

Lemma train_lr_nonincreasing_bounded_witness :
  0.000001 <= adam_learning_rate example_compiled /\
  train (Some example_compiled) (Some []) 20 plateau = Ok plateau_run /\
  Forall (fun lr => 0.000001 <= lr /\ lr <= adam_learning_rate example_compiled) (lr_history plateau_run).
Proof.
  assert (H1 : 0.000001 <= adam_learning_rate example_compiled) by (vm_compute; discriminate).
  assert (H2 : train (Some example_compiled) (Some []) 20 plateau = Ok plateau_run) by (vm_compute; reflexivity).
  split; [exact H1 | split; [exact H2|]].
  exact (proj2 (train_lr_nonincreasing_bounded example_compiled (Some []) 20 plateau plateau_run H1 H2)).
Defined.

Lemma train_lr_schedule_witness :
  adam_learning_rate example_compiled == 0.001 /\
  train (Some example_compiled) (Some []) 20 plateau = Ok plateau_run /\
  Forall (fun lr => in_schedule lr = true) (lr_history plateau_run).
Proof.
  assert (H1 : adam_learning_rate example_compiled == 0.001) by reflexivity.
  assert (H2 : train (Some example_compiled) (Some []) 20 plateau = Ok plateau_run) by (vm_compute; reflexivity).
  split; [exact H1 | split; [exact H2|]].
  exact (train_lr_schedule example_compiled (Some []) 20 plateau plateau_run H1 H2).
Defined.

Lemma train_checkpoint_best_witness :
  train (Some example_compiled) (Some []) 20 plateau = Ok plateau_run /\ (0 < 20)%nat /\
  list.last (ck_saved (fs_ck plateau_run)) = Some (2%nat, 0.5).
Proof.
  assert (H1 : train (Some example_compiled) (Some []) 20 plateau = Ok plateau_run) by (vm_compute; reflexivity).
  assert (H2 : (0 < 20)%nat) by lia.
  split; [exact H1 | split; [exact H2|]].
  destruct (train_checkpoint_best example_compiled (Some []) 20 plateau plateau_run H1 H2)
    as [_ (e & He & Hlast & _)].
  rewrite Hlast. vm_compute in Hlast. injection Hlast as <-. reflexivity.
Defined.

(** On an object [__init__] just built, [train] raises until the model
    is compiled; once compiled, the first log row has the rate 0.001. *)
Lemma train_log_rows_witness :
  train None (Some []) 20 plateau = Err not_compiled_error /\
  lr_trace plateau_run !! 0%nat = Some 0.001.
Proof.
  split.
  - reflexivity.
  - pose proof (train_log_rows (Some example_compiled) (Some []) 20 plateau) as H.
    assert (E : train (Some example_compiled) (Some []) 20 plateau = Ok plateau_run) by (vm_compute; reflexivity).
    rewrite E in H. destruct H as (c & _ & Hc & _ & Hfirst). injection Hc as <-.
    by apply Hfirst.
Defined.

(** A Keras stand-in that returns 0 for the loss and for every metric. *)
Definition zero_results (c : compiled) : list Q := repeat 0 (S (length (metrics c))).

Lemma evaluate_reports_all_metrics_witness :
  (forall c, length (zero_results c) = S (length (metrics c))) /\
  map fst (evaluate example_unet zero_results).2 = descriptions.
Proof.
  assert (H : forall c, length (zero_results c) = S (length (metrics c)))
    by (intros c; apply repeat_length).
  split; [exact H|].
  exact (proj1 (proj2 (evaluate_reports_all_metrics example_unet zero_results H))).
Defined.

End Training.
