(* ===== verification/Plateau.v ===== *)
(** The contract of [ReduceLROnPlateau] and its refinement by the
    callback [train] runs.

    Keras documents the callback as follows: when the monitored
    quantity has not improved for [patience] epochs, the learning rate
    becomes [max(lr * factor, min_lr)]. [spec_step] is that contract as
    an abstract machine: it tracks the best loss and a wait counter,
    and has no cooldown and no [lr > min_lr] guard. [sim] relates it to
    the detailed state machine [Training.rl_on_epoch_end], and
    [sim_step] is the simulation diagram. The two machines can disagree
    on [wait] only once the rate sits on the [min_lr] floor, where
    neither changes the rate again. [contract_step] is the contract
    with the arguments of line 114 written in, and is [spec_step] on
    the record [reduce_lr]. So for every sequence of losses, [train]
    runs with the rates of that contract, from the rate the compiled
    optimizer holds (C28).

    The patience property (C29) is proved on the contract, and carried
    over to [train] by the refinement. A reduction takes two
    non-improving epochs in a row, so no two epochs in a row lower the
    rate, and the first two epochs never do.

    The reductions terminate (C40). [reductions lr], defined by
    well-founded recursion with Equations, is the length of the chain
    of reductions from [lr] to [min_lr]. The number of epochs at which
    [train] lowers the rate ([drops] of its history) never exceeds it,
    whatever the number of epochs, and once it is reached the rate sits
    on [min_lr]. *)

From Stdlib Require Import QArith Qminmax Lqa Qround.
From Equations Require Import Equations.
From S2P Require Import Prelude Unet Training.

Module Plateau.
Import Unet Training.

Local Open Scope Q_scope.

Record spec_state : Type := mk_spec {
  sp_best : option Q;
  sp_wait : nat;
  sp_lr : Q
}.

Definition spec_init (lr : Q) : spec_state := mk_spec None 0 lr.

Definition spec_step (cfg : ReduceLROnPlateau) (s : spec_state) (v : Q) : spec_state :=
  if rl_improves cfg v (sp_best s) then mk_spec (Some v) 0 (sp_lr s)
  else if (rl_patience cfg <=? S (sp_wait s))%nat
  then mk_spec (sp_best s) 0 (Qmax (sp_lr s * rl_factor cfg) (rl_min_lr cfg))
  else mk_spec (sp_best s) (S (sp_wait s)) (sp_lr s).

(** The rate of each epoch under the contract, then the final rate:
    the shape of [Training.lr_history]. *)
Fixpoint spec_lrs (cfg : ReduceLROnPlateau) (s : spec_state) (losses : list Q) : list Q :=
  sp_lr s :: match losses with
             | [] => []
             | v :: rest => spec_lrs cfg (spec_step cfg s v) rest
             end.

(** The contract of the callback line 114 configures, with its
    arguments written in: after [patience = 2] epochs in which the loss
    does not go below the best by more than [min_delta = 1e-4] (the
    Keras default), the rate becomes [max(lr * 0.2, 1e-6)]. *)
Definition contract_improves (v : Q) (best : option Q) : bool :=
  match best with None => true | Some b => Qltb v (b - 0.0001) end.

Definition contract_step (s : spec_state) (v : Q) : spec_state :=
  if contract_improves v (sp_best s) then mk_spec (Some v) 0 (sp_lr s)
  else if (2 <=? S (sp_wait s))%nat then mk_spec (sp_best s) 0 (Qmax (sp_lr s * 0.2) 0.000001)
  else mk_spec (sp_best s) (S (sp_wait s)) (sp_lr s).

Fixpoint contract_lrs (s : spec_state) (losses : list Q) : list Q :=
  sp_lr s :: match losses with
             | [] => []
             | v :: rest => contract_lrs (contract_step s v) rest
             end.

(** The rate goes down between positions [i] and [i + 1]. *)
Definition drop_at (h : list Q) (i : nat) : Prop :=
  exists x y, h !! i = Some x /\ h !! S i = Some y /\ y < x.

(** ** How many reductions the callback can make

    Each reduction of [rl_on_epoch_end] takes a rate above [min_lr] to
    [max(lr * 0.2, min_lr)], and none applies at or below [min_lr].
    [reductions lr] counts the reductions from [lr] until that guard
    stops them. It is defined by well-founded recursion: the measure
    [lr_measure], the ceiling of [lr / min_lr], goes down at each
    reduction, so the chain ends. [drops h] counts the positions where
    a history of rates goes down. *)

Definition lr_measure (lr : Q) : nat := Z.to_nat (Qceiling (lr / rl_min_lr reduce_lr)).

(** The measure goes down: from [y > 1] to at most [max(y * 0.2, 1)]. *)
Lemma Qceiling_lt_ceiling x y : 1 < y -> (x <= 1 \/ x <= y * 0.2) -> (Z.to_nat (Qceiling x) < Z.to_nat (Qceiling y))%nat.
Proof.
  intros Hy Hx.
  pose proof (Qle_ceiling y) as Hcy. pose proof (Qceiling_lt x) as Hcx.
  set (cy := Qceiling y) in *. set (cx := Qceiling x) in *.
  assert (H2 : (2 <= cy)%Z).
  { apply Z.lt_pred_le. rewrite Zlt_Qlt. change (inject_Z (Z.pred 2)) with 1. lra. }
  enough (cx < cy)%Z by lia.
  rewrite Zle_Qle in H2. change (inject_Z 2) with 2 in H2.
  rewrite Zlt_Qlt. rewrite <- Z.add_opp_r, inject_Z_plus, inject_Z_opp in Hcx. change (inject_Z 1) with 1 in Hcx.
  destruct Hx; nra.
Qed.

Definition inspect {A} (a : A) : {b | a = b} := exist _ a eq_refl.

Equations? reductions (lr : Q) : nat by wf (lr_measure lr) lt :=
  reductions lr with inspect (Qltb (rl_min_lr reduce_lr) lr) := {
    | exist _ true H => S (reductions (Qmax (lr * rl_factor reduce_lr) (rl_min_lr reduce_lr)));
    | exist _ false _ => 0%nat }.
Proof.
  apply Qltb_lt in H. unfold lr_measure. cbn [rl_min_lr rl_factor reduce_lr] in *.
  unfold Qdiv. change (/ 0.000001) with (1000000 # 1).
  apply Qceiling_lt_ceiling; [lra|].
  destruct (Q.max_spec_le (lr * 0.2) 0.000001) as [[_ ->] | [_ ->]]; [left | right].
    all: lra.
Defined.

(** The positions where the rate goes down. *)
Fixpoint drops (h : list Q) : nat :=
  match h with
  | x :: ((y :: _) as t) => ((if Qltb y x then 1 else 0) + drops t)%nat
  | _ => 0%nat
  end.

(** ** Lemmas on the contract *)

Lemma drop_at_cons x h i : drop_at (x :: h) (S i) <-> drop_at h i.
Proof. reflexivity. Qed.

Lemma drop_at_head x h : drop_at (x :: h) 0 <-> exists y, h !! 0%nat = Some y /\ y < x.
Proof.
  split; [intros (x' & y & [= <-] & Hy & Hlt); eauto | intros (y & Hy & Hlt); by exists x, y].
Qed.

Lemma drop_at_Qeq h h' i : Forall2 Qeq h h' -> drop_at h i -> drop_at h' i.
Proof.
  intros HF (x & y & Hx & Hy & Hlt).
  destruct (Forall2_lookup_l _ _ _ _ _ HF Hx) as (x' & Hx' & Ex).
  destruct (Forall2_lookup_l _ _ _ _ _ HF Hy) as (y' & Hy' & Ey).
  exists x', y'. split; [done | split; [done|]]. rewrite <- Ex, <- Ey. exact Hlt.
Qed.

Lemma spec_lrs_head cfg s l : spec_lrs cfg s l !! 0%nat = Some (sp_lr s).
Proof. by destruct l. Qed.

Lemma spec_lrs_length cfg s l : length (spec_lrs cfg s l) = S (length l).
Proof. revert s. induction l as [|v l IH]; intros s; simpl; [done | by rewrite IH]. Qed.

Lemma spec_step_wait cfg s v : (sp_wait (spec_step cfg s v) <= S (sp_wait s))%nat.
Proof. unfold spec_step. repeat case_match; simpl; lia. Qed.

(** A step that changes the rate is a reduction: the patience was
    reached, and the counter starts again. *)
Lemma spec_step_lr cfg s v :
  sp_lr (spec_step cfg s v) = sp_lr s \/
  ((rl_patience cfg <= S (sp_wait s))%nat /\ sp_wait (spec_step cfg s v) = 0%nat).
Proof.
  unfold spec_step. destruct (rl_improves _ _ _); [by left|].
  destruct (_ <=? _)%nat eqn:E; [right; simpl; split; [by apply Nat.leb_le | done] | by left].
Qed.

(** A reduction at position [i] needs [patience] epochs without
    improvement, counted from the state's [wait], and no reduction
    follows in the next [patience - 1] positions. *)
Lemma spec_drop_window cfg s l i :
  drop_at (spec_lrs cfg s l) i ->
  (rl_patience cfg <= S (i + sp_wait s))%nat /\
  forall k, (i < k < i + rl_patience cfg)%nat -> ~ drop_at (spec_lrs cfg s l) k.
Proof.
  revert s i. induction l as [|v l IH]; intros s i Hd.
  { destruct Hd as (x & y & _ & Hy & _). destruct i; discriminate. }
  cbn [spec_lrs] in Hd |- *. destruct i as [|i].
  - apply drop_at_head in Hd as (y & Hy & Hlt). rewrite spec_lrs_head in Hy. injection Hy as <-.
    destruct (spec_step_lr cfg s v) as [E | [Hp Hw]]; [rewrite E in Hlt; lra|].
    split; [lia|]. intros [|k] Hk; [lia|]. rewrite drop_at_cons. intros Hk'.
    apply IH in Hk' as [Hp' _]. lia.
  - rewrite drop_at_cons in Hd. destruct (IH _ _ Hd) as [Hp Hwin].
    pose proof (spec_step_wait cfg s v). split; [lia|].
    intros [|k] Hk; [lia|]. rewrite drop_at_cons. apply Hwin. lia.
Qed.

(** From the initial state the first epoch always improves, so the
    first reduction comes [patience] positions in at the earliest. *)
Lemma spec_drop_from_init cfg lr l i :
  drop_at (spec_lrs cfg (spec_init lr) l) i ->
  (rl_patience cfg <= i)%nat /\
  forall k, (i < k < i + rl_patience cfg)%nat -> ~ drop_at (spec_lrs cfg (spec_init lr) l) k.
Proof.
  intros Hd. split; [|by apply spec_drop_window].
  destruct l as [|v l]; [destruct Hd as (? & ? & _ & Hy & _); destruct i; discriminate|].
  cbn [spec_lrs] in Hd. destruct i as [|i].
  - apply drop_at_head in Hd as (y & Hy & Hlt). rewrite spec_lrs_head in Hy.
    injection Hy as <-. simpl in Hlt. lra.
  - rewrite drop_at_cons in Hd. apply spec_drop_window in Hd as [Hp _]. simpl in Hp. lia.
Qed.

(** ** The simulation *)

Section Refinement.
Variable cfg : ReduceLROnPlateau.
Hypothesis cfg_cooldown : rl_cooldown cfg = 0%nat.
Hypothesis cfg_factor : 0 <= rl_factor cfg <= 1.
Hypothesis cfg_min_lr : 0 <= rl_min_lr cfg.

(** The detailed state [c] with rate [lr] refines the contract's state
    [a]: same best loss, no cooldown running, the same rate, and the
    same counter unless the rate is on the floor. *)
Definition sim (c : rl_state) (lr : Q) (a : spec_state) : Prop :=
  rl_best c = sp_best a /\ rl_cooldown_counter c = 0%nat /\ lr == sp_lr a /\
  rl_min_lr cfg <= sp_lr a /\ (rl_wait c = sp_wait a \/ sp_lr a == rl_min_lr cfg).

Lemma reduce_compat x y : x == y -> Qmax (x * rl_factor cfg) (rl_min_lr cfg) == Qmax (y * rl_factor cfg) (rl_min_lr cfg).
Proof. intros E. by rewrite E. Qed.

(** On the floor, a reduction leaves the rate where it is. *)
Lemma reduce_floor x : x == rl_min_lr cfg -> Qmax (x * rl_factor cfg) (rl_min_lr cfg) == rl_min_lr cfg.
Proof.
  intros E. apply Q.max_r. rewrite E. destruct cfg_factor.
  nra.
Qed.

Lemma reduce_above x : rl_min_lr cfg <= Qmax (x * rl_factor cfg) (rl_min_lr cfg).
Proof. apply Q.le_max_r. Qed.

Lemma sim_step c lr a v :
  sim c lr a -> sim (rl_on_epoch_end cfg c lr v).1 (rl_on_epoch_end cfg c lr v).2 (spec_step cfg a v).
Proof.
  intros (Hb & Hcd & Hlr & Hm & Hw). unfold rl_on_epoch_end, spec_step.
  rewrite Hcd, cfg_cooldown, Hb. cbn [Nat.ltb Nat.leb].
  destruct (rl_improves cfg v (sp_best a)); [repeat split; simpl; auto; by left|].
  destruct (rl_patience cfg <=? S (rl_wait c))%nat eqn:Ep;
    [destruct (Qltb (rl_min_lr cfg) lr) eqn:El|].
  - apply Qltb_lt in El. destruct Hw as [Hw | Hw]; [|lra].
    rewrite <- Hw, Ep. repeat split; simpl; auto using reduce_compat, reduce_above.
  - assert (Hlt : ~ rl_min_lr cfg < lr) by (intros H'; apply Qltb_lt in H'; congruence).
    assert (Ha : sp_lr a == rl_min_lr cfg) by lra.
    destruct (_ <=? S (sp_wait a))%nat; repeat split; simpl; auto;
      try (right; apply reduce_floor); rewrite ?reduce_floor; auto; lra.
  - destruct Hw as [Hw | Hw].
    + rewrite <- Hw, Ep. repeat split; simpl; auto.
    + destruct (_ <=? S (sp_wait a))%nat; repeat split; simpl; auto;
        try (right; apply reduce_floor); rewrite ?reduce_floor; auto; lra.
Qed.

End Refinement.

(** ** The callback [train] configures *)

Lemma sim_init lr : 0.000001 <= lr -> sim reduce_lr rl_reset lr (spec_init lr).
Proof. intros Hlr. repeat split; simpl; auto; reflexivity. Qed.

Lemma sim_fit_epoch st e v a :
  sim reduce_lr (fs_rl st) (fs_lr st) a ->
  sim reduce_lr (fs_rl (fit_epoch st e v)) (fs_lr (fit_epoch st e v)) (spec_step reduce_lr a v).
Proof. rewrite fit_epoch_unfold. apply sim_step; [reflexivity | simpl; lra | simpl; lra]. Qed.

(** The fit loop, from any state related to the contract, logs the
    contract's rates. *)
Lemma fit_from_spec l : forall st e a t,
  sim reduce_lr (fs_rl st) (fs_lr st) a -> Forall2 Qeq (lr_trace st) t ->
  Forall2 Qeq (lr_history (fit_from st e l)) (t ++ spec_lrs reduce_lr a l).
Proof.
  induction l as [|v l IH]; intros st e a t Hsim Ht; cbn [fit_from spec_lrs].
  - apply Forall2_app; [done|]. constructor; [apply Hsim | constructor].
  - replace (t ++ sp_lr a :: spec_lrs reduce_lr (spec_step reduce_lr a v) l)
      with ((t ++ [sp_lr a]) ++ spec_lrs reduce_lr (spec_step reduce_lr a v) l)
      by (rewrite <- app_assoc; reflexivity).
    apply IH; [by apply sim_fit_epoch|].
    rewrite lr_trace_fit_epoch. apply Forall2_app; [done|]. constructor; [apply Hsim | constructor].
Qed.

Lemma train_spec c ids epochs vl st :
  0.000001 <= adam_learning_rate c -> train (Some c) ids epochs vl = Ok st ->
  Forall2 Qeq (lr_history st)
    (spec_lrs reduce_lr (spec_init (adam_learning_rate c)) (map vl (seq 0 epochs))).
Proof.
  intros Hlr Ht. apply train_Ok in Ht as ->.
  apply (fit_from_spec _ _ _ _ []); [by apply sim_init | constructor].
Qed.

(** The contract read off the record [reduce_lr] is the one with the
    documented arguments. *)
Lemma spec_lrs_contract s l : spec_lrs reduce_lr s l = contract_lrs s l.
Proof.
  revert s. induction l as [|v l IH]; intros s; [reflexivity|].
  cbn [spec_lrs contract_lrs]. rewrite IH. reflexivity.
Qed.

Lemma contract_lrs_length s l : length (contract_lrs s l) = S (length l).
Proof. revert s. induction l as [|v l IH]; intros s; simpl; [done | by rewrite IH]. Qed.

(** ** The reduction count along the fit loop *)

Lemma reductions_eq lr :
  reductions lr = if Qltb (rl_min_lr reduce_lr) lr
                  then S (reductions (Qmax (lr * rl_factor reduce_lr) (rl_min_lr reduce_lr))) else 0%nat.
Proof.
  rewrite reductions_equation_1.
  destruct (inspect (Qltb (rl_min_lr reduce_lr) lr)) as [[|] E]; simp reductions; by rewrite E.
Qed.

Lemma drops_snoc h x y :
  drops ((h ++ [x]) ++ [y]) = (drops (h ++ [x]) + if Qltb y x then 1 else 0)%nat.
Proof.
  induction h as [|a [|b h] IH]; simpl in *; [lia | lia |].
  rewrite IH. lia.
Qed.

Lemma drops_fit_epoch st e v :
  drops (lr_history (fit_epoch st e v)) =
  (drops (lr_history st) +
   if Qltb (rl_on_epoch_end reduce_lr (fs_rl st) (fs_lr st) v).2 (fs_lr st) then 1 else 0)%nat.
Proof. rewrite lr_history_fit_epoch. unfold lr_history at 1. apply drops_snoc. Qed.

Lemma reductions_fit_epoch st e v :
  (drops (lr_history (fit_epoch st e v)) + reductions (fs_lr (fit_epoch st e v)) <=
   drops (lr_history st) + reductions (fs_lr st))%nat.
Proof.
  rewrite drops_fit_epoch, fit_epoch_unfold. simpl fs_lr.
  destruct (rl_on_epoch_end_lr (fs_rl st) (fs_lr st) v) as [-> | [Hlt ->]].
  - assert (Qltb (fs_lr st) (fs_lr st) = false) as -> by (apply not_true_iff_false; rewrite Qltb_lt; lra).
    lia.
  - rewrite (reductions_eq (fs_lr st)). 
    assert (Qltb (rl_min_lr reduce_lr) (fs_lr st) = true) as -> by (apply Qltb_lt; exact Hlt).
    destruct (Qltb _ _); simpl; lia.
Qed.

Lemma train_reductions_inv c ids epochs vl st :
  train (Some c) ids epochs vl = Ok st ->
  (drops (lr_history st) + reductions (fs_lr st) <= reductions (adam_learning_rate c))%nat.
Proof.
  intros Ht. apply train_Ok in Ht as ->.
  apply (fit_from_invariant (fun st => drops (lr_history st) + reductions (fs_lr st) <= _)%nat);
    [|simpl; lia].
  intros st e v H. pose proof (reductions_fit_epoch st e v). lia.
Qed.

(** ** Properties *)

(** C28: for every sequence of validation losses, the learning rates
    [train] runs with (and logs) are those of the documented contract
    of the callback with the arguments of line 114, started from the
    rate the compiled optimizer holds: after [patience = 2] epochs
    without an improvement of more than [min_delta = 1e-4], the rate
    becomes [max(lr * 0.2, 1e-6)]. The Keras state machine, with its
    cooldown counter and its [lr > min_lr] guard, refines the
    contract. *)
Theorem train_refines_plateau_spec c ids epochs vl st :
  0.000001 <= adam_learning_rate c -> train (Some c) ids epochs vl = Ok st ->
  Forall2 Qeq (lr_history st) (contract_lrs (spec_init (adam_learning_rate c)) (map vl (seq 0 epochs))) /\
  (length (lr_history st) = S epochs)%nat.
Proof.
  intros Hlr Ht. pose proof (train_spec _ _ _ _ _ Hlr Ht) as HF. rewrite spec_lrs_contract in HF.
  split; [done|].
  by rewrite (Forall2_length HF), contract_lrs_length, length_map, length_seq.
Qed.

(** C29: the patience of ReduceLROnPlateau. If the learning rate goes
    down between epochs [i] and [i + 1], then [i >= 2]: the first two
    epochs never lower it, since the first always improves on [inf]
    and a reduction takes two epochs without improvement. And the rate
    does not go down again between [i + 1] and [i + 2]: no two epochs
    in a row lower it. *)
Theorem train_lr_patience c ids epochs vl st i :
  0.000001 <= adam_learning_rate c -> train (Some c) ids epochs vl = Ok st ->
  drop_at (lr_history st) i -> (2 <= i)%nat /\ ~ drop_at (lr_history st) (S i).
Proof.
  intros Hlr Ht Hd. pose proof (train_spec _ _ _ _ _ Hlr Ht) as HF.
  apply (drop_at_Qeq _ _ _ HF), spec_drop_from_init in Hd as [Hp Hwin].
  simpl in Hp, Hwin. split; [done|]. intros Hd'. apply (Hwin (S i)); [lia|].
  exact (drop_at_Qeq _ _ _ HF Hd').
Qed.

(** C40: the reductions of the learning rate terminate. Whatever the
    number of epochs and the losses, [train] lowers the rate at most
    [reductions lr] times, where [lr] is the rate of the compiled
    optimizer: the length of the chain of reductions from [lr] down to [min_lr = 1e-6]. Once that
    many reductions have happened, the rate is at or below [min_lr],
    where the guard of ReduceLROnPlateau stops any further change. *)
Theorem train_lr_reductions_terminate c ids epochs vl st :
  train (Some c) ids epochs vl = Ok st ->
  (drops (lr_history st) <= reductions (adam_learning_rate c))%nat /\
  (drops (lr_history st) = reductions (adam_learning_rate c) -> fs_lr st <= rl_min_lr reduce_lr).
Proof.
  intros Ht. pose proof (train_reductions_inv _ _ _ _ _ Ht) as Hinv. split; [lia|].
  intros Heq. rewrite reductions_eq in Hinv.
  destruct (Qltb (rl_min_lr reduce_lr) (fs_lr st)) eqn:E; [lia|].
  apply Qnot_lt_le. rewrite <- Qltb_lt. congruence.
Qed.

(** ** Witnesses *)

Lemma train_refines_plateau_spec_witness :
  0.000001 <= adam_learning_rate example_compiled /\
  train (Some example_compiled) (Some []) 20 plateau = Ok plateau_run /\
  Forall2 Qeq (lr_history plateau_run) (contract_lrs (spec_init 0.001) (map plateau (seq 0 20))).
Proof.
  assert (H1 : 0.000001 <= adam_learning_rate example_compiled) by (vm_compute; discriminate).
  assert (H2 : train (Some example_compiled) (Some []) 20 plateau = Ok plateau_run) by (vm_compute; reflexivity).
  split; [exact H1 | split; [exact H2|]].
  exact (proj1 (train_refines_plateau_spec example_compiled (Some []) 20 plateau plateau_run H1 H2)).
Defined.

(** On the plateau run, the rate goes down first between epochs 3 and
    4 (two flat epochs after the last improvement). *)
Lemma train_lr_patience_witness :
  drop_at (lr_history plateau_run) 3 /\ ~ drop_at (lr_history plateau_run) 4.
Proof.
  assert (H1 : 0.000001 <= adam_learning_rate example_compiled) by (vm_compute; discriminate).
  assert (H2 : train (Some example_compiled) (Some []) 20 plateau = Ok plateau_run) by (vm_compute; reflexivity).
  assert (H3 : drop_at (lr_history plateau_run) 3).
  { exists 0.001, 0.0002. vm_compute. repeat split; reflexivity. }
  split; [exact H3|].
  exact (proj2 (train_lr_patience example_compiled (Some []) 20 plateau plateau_run 3 H1 H2 H3)).
Defined.

(** From 0.001, five reductions reach 1e-6, and a long plateau makes
    all five. *)
Lemma train_lr_reductions_terminate_witness :
  reductions (adam_learning_rate example_compiled) = 5%nat /\ drops (lr_history plateau_run) = 5%nat /\
  fs_lr plateau_run <= rl_min_lr reduce_lr.
Proof.
  assert (H1 : train (Some example_compiled) (Some []) 20 plateau = Ok plateau_run) by (vm_compute; reflexivity).
  assert (H2 : reductions (adam_learning_rate example_compiled) = 5%nat) by (vm_compute; reflexivity).
  assert (H3 : drops (lr_history plateau_run) = 5%nat) by (vm_compute; reflexivity).
  split; [exact H2 | split; [exact H3|]].
  apply (proj2 (train_lr_reductions_terminate example_compiled (Some []) 20 plateau plateau_run H1)).
  by rewrite H2, H3.
Defined.

End Plateau.
