(* ===== verification/Volume.v ===== *)
(** Loading MRI volumes and preparing the network input, from
    [src/project2/backend/app/model.py]: [imageLoader],
    [loadDataFromDir], [predictByPath] and [predict_segmentation].

    A NIfTI volume is the list of its axial slices [image[:, :, k]], and
    each slice is a list of rows of voxel values (exact rationals).
    [nib_load] reads a file from a map from path names to volumes, and
    fails with [FileNotFoundError] on a missing path. [axis2] is numpy's
    [image[:, :, k]], with its [IndexError] past the last slice.
    [cv2.resize] is the [Resize] interface. Its laws say that the result
    is [n] rows of [n] values, and that resizing keeps voxels
    non-negative and keeps an all-zero slice all zero. Both hold for
    cv2's default bilinear interpolation, which takes convex
    combinations of voxels. [X / np.max(X)] is written out with IEEE
    division by zero ([0/0] is NaN, [x/0] an infinity), and with numpy's
    [ValueError] on an empty array. The network's [predict] is an
    arbitrary function of its input. *)

From Stdlib Require Import QArith Qminmax Lqa.
From Stdlib Require Import Ascii.
From stdpp Require Import pretty.
From S2P Require Import Prelude Unet.

Module Volume.
Import Unet.

Local Open Scope Q_scope.

Definition VOLUME_SLICES : nat := 100.
Definition VOLUME_START_AT : nat := 22.
Definition IMG_SIZE : nat := 128.

Abbreviation slice := (list (list Q)).

Record volume : Type := mk_volume { vol_slices : list slice }.

Definition depth (v : volume) : nat := length (vol_slices v).

Abbreviation filesystem := (gmap string volume).

Definition nib_load (fs : filesystem) (path : string) : result string volume :=
  match fs !! path with
  | Some v => Ok v
  | None => Err ("FileNotFoundError: No such file or no access: '" +:+ path +:+ "'")
  end.

Definition index_error (k d : nat) : string :=
  "IndexError: index " +:+ pretty k +:+ " is out of bounds for axis 2 with size " +:+ pretty d.

(** [image[:, :, k]]. *)
Definition axis2 (v : volume) (k : nat) : result string slice :=
  match vol_slices v !! k with
  | Some s => Ok s
  | None => Err (index_error k (depth v))
  end.

Definition all_voxels (P : Q -> Prop) (s : slice) : Prop := Forall (Forall P) s.

(** [cv2.resize(src, (n, n))]. *)
Class Resize := {
  cv2_resize : slice -> nat -> slice;
  resize_rows : forall s n, length (cv2_resize s n) = n;
  resize_cols : forall s n, Forall (fun r => length r = n) (cv2_resize s n);
  resize_nonneg : forall s n, all_voxels (Qle 0) s -> all_voxels (Qle 0) (cv2_resize s n);
  resize_zero : forall s n, all_voxels (fun x => x == 0) s -> all_voxels (fun x => x == 0) (cv2_resize s n)
}.

Definition zeros (n : nat) : slice := repeat (repeat 0 n) n.

(** An IEEE float as numpy's division produces it. *)
Inductive fval : Type := Fin (q : Q) | NaN | PosInf | NegInf.

Definition fdiv (x m : Q) : fval :=
  if Qeq_bool m 0 then
    if Qeq_bool x 0 then NaN else if Qle_bool 0 x then PosInf else NegInf
  else Fin (x / m).

(** Every value of the array [X] of shape [(slices, n, n, 2)], as pairs
    of channels. *)
Definition entries {A} (X : list (list (list A) * list (list A))) : list A :=
  concat (map (fun '(a, b) => concat a ++ concat b) X).

Definition np_max (X : list (slice * slice)) : result string Q :=
  match entries X with
  | [] => Err "ValueError: zero-size array to reduction operation maximum which has no identity"
  | x :: r => Ok (fold_right Qmax x r)
  end.

(** The elementwise division [X / m]. *)
Definition div_by (m : Q) (X : list (slice * slice)) : list (list (list fval) * list (list fval)) :=
  map (fun '(a, b) => (map (map (fun x => fdiv x m)) a, map (map (fun x => fdiv x m)) b)) X.

(** [X / np.max(X)]. *)
Definition normalize (X : list (slice * slice)) : result string (list (list (list fval) * list (list fval))) :=
  let* m := np_max X in
  Ok (div_by m X).

(** A value of the normalised input: NaN, or a number in [[0, 1]]. *)
Definition unit_or_nan (v : fval) : Prop := v = NaN \/ exists q, v = Fin q /\ 0 <= q <= 1.

Section Loading.
Context `{Resize}.

(** [for j in range(...): X[j,:,:,0] = resize(a[:,:,j+start]);
    X[j,:,:,1] = resize(b[:,:,j+start])]: channel 0 first. *)
Fixpoint fill_two (img : nat) (a b : volume) (start : nat) (js : list nat)
    : result string (list (slice * slice)) :=
  match js with
  | [] => Ok []
  | j :: rest =>
      let* s0 := axis2 a (j + start) in
      let* s1 := axis2 b (j + start) in
      let* X := fill_two img a b start rest in
      Ok ((cv2_resize s0 img, cv2_resize s1 img) :: X)
  end.

(** [imageLoader]'s loop: channel 1 keeps the zeros of [np.zeros]. *)
Fixpoint fill_one (img : nat) (a : volume) (start : nat) (js : list nat)
    : result string (list (slice * slice)) :=
  match js with
  | [] => Ok []
  | j :: rest =>
      let* s0 := axis2 a (j + start) in
      let* X := fill_one img a start rest in
      Ok ((cv2_resize s0 img, zeros img) :: X)
  end.

Definition imageLoader (fs : filesystem) (self : Unet) (path : string)
    : result string (list (slice * slice)) :=
  let* image := nib_load fs path in
  fill_one (img_size self) image VOLUME_START_AT (seq 0 VOLUME_SLICES).

(** [glob.glob] is a function of the pattern. The loop body stops at
    the first file: [glob(...)[0]] raises [IndexError] when nothing
    matches, and otherwise [self.image_loader] does not exist. *)
Definition loadDataFromDir (glob : string -> list string) (self : Unet) (path : string)
    (list_of_files : list string) (mri_type : string) (n_images : nat)
    : result string (list slice * list slice) :=
  match take n_images list_of_files with
  | [] => Ok ([], [])
  | i :: _ =>
      match glob (i +:+ "/*" +:+ mri_type +:+ "*") with
      | [] => Err "IndexError: list index out of range"
      | _ :: _ => Err "AttributeError: 'Unet' object has no attribute 'image_loader'"
      end
  end.

Context {P : Type}.
Variable predict : list (list (list fval) * list (list fval)) -> P.

Definition predict_segmentation (fs : filesystem) (self : Unet) (sample_path : string)
    (volume_slices volume_start_at : nat) : result string P :=
  let t1ce_path := sample_path +:+ "_t1ce.nii" in
  let flair_path := sample_path +:+ "_flair.nii" in
  let* t1ce := nib_load fs t1ce_path in
  let* flair := nib_load fs flair_path in
  let* X := fill_two (img_size self) flair t1ce volume_start_at (seq 0 volume_slices) in
  let* Xn := normalize X in
  Ok (predict Xn).

(** [os.path.join(a, b)]: an absolute [b] replaces [a]; otherwise a
    separator goes between them unless [a] is empty or ends with one. *)
Definition starts_with_sep (b : string) : bool :=
  match b with String ch _ => Ascii.eqb ch "/"%char | EmptyString => false end.

Definition path_join (a b : string) : string :=
  if starts_with_sep b then b
  else if String.eqb a "" then b
  else if String.eqb (String.substring (String.length a - 1) 1 a) "/" then a +:+ b
  else a +:+ "/" +:+ b.

Definition predictByPath (fs : filesystem) (self : Unet) (case_path case : string) : result string P :=
  let vol_path := path_join case_path ("BraTS20_Training_" +:+ case +:+ "_flair.nii") in
  let* flair := nib_load fs vol_path in
  let vol_path := path_join case_path ("BraTS20_Training_" +:+ case +:+ "_t1ce.nii") in
  let* ce := nib_load fs vol_path in
  let* X := fill_two (img_size self) flair ce VOLUME_START_AT (seq 0 VOLUME_SLICES) in
  let* Xn := normalize X in
  Ok (predict Xn).
End Loading.

(** A concrete [Resize]: nearest neighbour on the top-left corner, padding
    with zeros. It is what [cv2.resize] does to a slice that is already
    [n] by [n], and it satisfies the laws the proofs use. *)
Definition crop_resize (s : slice) (n : nat) : slice :=
  map (fun i => map (fun j => nth j (nth i s []) 0) (seq 0 n)) (seq 0 n).

Lemma nth_all_voxels (P : Q -> Prop) (s : slice) i j :
  P 0 -> all_voxels P s -> P (nth j (nth i s []) 0).
Proof.
  intros H0 Hs. destruct (decide (i < length s)%nat) as [Hi|Hi].
  - assert (Hr : Forall P (nth i s [])).
    { unfold all_voxels in Hs. rewrite Forall_forall in Hs. by apply Hs, nth_In. }
    destruct (decide (j < length (nth i s []))%nat).
    + rewrite Forall_forall in Hr. by apply Hr, nth_In.
    + rewrite nth_overflow; [done | lia].
  - rewrite (nth_overflow s); [destruct j; done | lia].
Qed.

Lemma crop_resize_all (P : Q -> Prop) s n :
  P 0 -> all_voxels P s -> all_voxels P (crop_resize s n).
Proof.
  intros H0 Hs. apply Forall_map, Forall_forall. intros i _.
  apply Forall_map, Forall_forall. intros j _. by apply nth_all_voxels.
Qed.

#[export] Instance crop_resize_inst : Resize.
Proof.
  refine {| cv2_resize := crop_resize |}.
  - intros. unfold crop_resize. by rewrite length_map, length_seq.
  - intros. apply Forall_map, Forall_forall. intros. by rewrite length_map, length_seq.
  - intros. apply crop_resize_all; [lra | done].
  - intros. apply crop_resize_all; [reflexivity | done].
Defined.

(** Both channels of every slice of [X] satisfy [Pv]. *)
Definition channels_all (Pv : Q -> Prop) (X : list (slice * slice)) : Prop :=
  Forall (fun '(x0, x1) => all_voxels Pv x0 /\ all_voxels Pv x1) X.

Lemma axis2_Ok v k s : axis2 v k = Ok s <-> vol_slices v !! k = Some s.
Proof. unfold axis2. destruct (vol_slices v !! k); split; congruence. Qed.

Lemma axis2_is_ok v k : is_ok (axis2 v k) = true <-> (k < depth v)%nat.
Proof.
  unfold axis2, depth. rewrite <- lookup_lt_is_Some.
  destruct (vol_slices v !! k); simpl; split; intros Hk; try done; by destruct Hk.
Qed.

Lemma entries_cons {A} (x0 x1 : list (list A)) X :
  entries ((x0, x1) :: X) = concat x0 ++ concat x1 ++ entries X.
Proof. unfold entries. simpl. by rewrite app_assoc. Qed.

Lemma entries_Forall (Pv : Q -> Prop) X : Forall Pv (entries X) <-> channels_all Pv X.
Proof.
  unfold channels_all, all_voxels. induction X as [|[x0 x1] X IH]; [simpl; split; constructor|].
  rewrite entries_cons, !Forall_app, !Forall_concat, Forall_cons_iff, IH. tauto.
Qed.

Lemma entries_div_by m X : entries (div_by m X) = map (fun x => fdiv x m) (entries X).
Proof.
  induction X as [|[x0 x1] X IH]; [done|].
  unfold div_by in *. simpl map. rewrite !entries_cons, IH, !map_app, !concat_map. done.
Qed.

Lemma fold_Qmax_ge x r : Forall (fun y => y <= fold_right Qmax x r) (x :: r).
Proof.
  induction r as [|y r IH]; simpl; [constructor; [lra | constructor]|].
  assert (Hm : fold_right Qmax x r <= Qmax y (fold_right Qmax x r)) by apply Q.le_max_r.
  apply Forall_cons_iff in IH as [Hx Hr].
  constructor; [lra | constructor; [apply Q.le_max_l|]].
  rewrite Forall_forall in Hr |- *. intros z Hz. specialize (Hr z Hz). lra.
Qed.

Lemma np_max_ge X m : np_max X = Ok m -> Forall (fun y => y <= m) (entries X).
Proof.
  unfold np_max. destruct (entries X) as [|x r]; intros Hm; [discriminate|].
  injection Hm as <-. apply fold_Qmax_ge.
Qed.

Lemma fold_Qmax_in x r : exists y, y ∈ x :: r /\ fold_right Qmax x r == y.
Proof.
  induction r as [|z r (y & Hy & Ey)]; simpl; [exists x; split; [left | reflexivity]|].
  destruct (Q.max_dec z (fold_right Qmax x r)) as [E|E].
  - exists z. split; [right; left | done].
  - exists y. split; [by apply elem_of_cons in Hy as [->|Hy]; [left|right; right] | rewrite E; exact Ey].
Qed.

Lemma np_max_in X m : np_max X = Ok m -> exists y, y ∈ entries X /\ m == y.
Proof.
  unfold np_max. destruct (entries X) as [|x r]; intros Hm; [discriminate|].
  injection Hm as <-. apply fold_Qmax_in.
Qed.

Lemma np_max_nonempty X : entries X <> [] -> exists m, np_max X = Ok m.
Proof. unfold np_max. destruct (entries X); [done | eauto]. Qed.

Lemma normalize_Ok X Xn : normalize X = Ok Xn <-> exists m, np_max X = Ok m /\ Xn = div_by m X.
Proof.
  unfold normalize. destruct (np_max X) as [m|e]; simpl; split.
  - intros [= <-]. eauto.
  - intros (m' & [= <-] & ->). done.
  - done.
  - by intros (? & ? & _).
Qed.

Lemma string_app_assoc (a b c : string) : a +:+ (b +:+ c) = (a +:+ b) +:+ c.
Proof.
  induction a as [|ch a IH]; [reflexivity|].
  change (String ch (a +:+ (b +:+ c)) = String ch ((a +:+ b) +:+ c)). by rewrite IH.
Qed.

Lemma starts_with_sep_app (b c : string) :
  b <> "" -> starts_with_sep (b +:+ c) = starts_with_sep b.
Proof. destruct b as [|ch b]; [done|]. reflexivity. Qed.

Lemma path_join_app a b c :
  b <> "" -> starts_with_sep b = false -> path_join a (b +:+ c) = path_join a b +:+ c.
Proof.
  intros Hb Hp. unfold path_join. rewrite starts_with_sep_app, Hp by done.
  by repeat case_match; rewrite ?string_app_assoc.
Qed.

Lemma Forall_seq_bounds (st da db n : nat) :
  Forall (fun j => j + st < da /\ j + st < db)%nat (seq 0 n) <->
  n = 0%nat \/ (st + n <= da /\ st + n <= db)%nat.
Proof.
  rewrite Forall_seq. split.
  - intros Hj. destruct n as [|n]; [by left|right]. specialize (Hj n). lia.
  - intros Hn j Hj. lia.
Qed.

Lemma fdiv_unit x m : 0 <= x -> x <= m -> unit_or_nan (fdiv x m).
Proof.
  intros H0 Hm. unfold fdiv, unit_or_nan. destruct (Qeq_bool m 0) eqn:E.
  - apply Qeq_bool_eq in E. left. rewrite (proj2 (Qeq_bool_iff x 0)); [done | lra].
  - apply Qeq_bool_neq in E. right. exists (x / m). split; [done|].
    assert (0 < m) by lra. split.
    + apply Qle_shift_div_l; lra.
    + apply Qle_shift_div_r; lra.
Qed.

Lemma fdiv_zero x m : x == 0 -> m == 0 -> fdiv x m = NaN.
Proof.
  intros Hx Hm. unfold fdiv.
  by rewrite (proj2 (Qeq_bool_iff m 0) Hm), (proj2 (Qeq_bool_iff x 0) Hx).
Qed.

Section Proofs.
Context `{Resize} {P : Type}.

Lemma resize_nonempty s n : (0 < n)%nat -> concat (cv2_resize s n) <> [].
Proof.
  intros Hn. pose proof (resize_rows s n) as Hr. pose proof (resize_cols s n) as Hc.
  destruct (cv2_resize s n) as [|r rs]; simpl in *; [lia|].
  apply Forall_cons_iff in Hc as [Hc _]. destruct r; simpl in *; [lia | done].
Qed.

Lemma fill_two_is_ok img a b start js :
  is_ok (fill_two img a b start js) = true <->
  Forall (fun j => j + start < depth a /\ j + start < depth b)%nat js.
Proof.
  induction js as [|j js IH]; simpl; [split; constructor|].
  rewrite Forall_cons_iff, <- IH, <- !axis2_is_ok.
  destruct (axis2 a (j + start)), (axis2 b (j + start)), (fill_two img a b start js);
    simpl; intuition congruence.
Qed.

Lemma fill_two_Ok img a b start js X :
  fill_two img a b start js = Ok X ->
  length X = length js /\
  Forall (fun '(x0, x1) => (exists s, s ∈ vol_slices a /\ x0 = cv2_resize s img) /\
                           (exists s, s ∈ vol_slices b /\ x1 = cv2_resize s img)) X.
Proof.
  revert X. induction js as [|j js IH]; simpl; intros X HX; [injection HX as <-; done|].
  destruct (axis2 a (j + start)) as [s0|] eqn:E0; [|done].
  destruct (axis2 b (j + start)) as [s1|] eqn:E1; [|done].
  destruct (fill_two img a b start js) as [X'|]; [|done].
  injection HX as <-. destruct (IH X' eq_refl) as [Hl HF].
  apply axis2_Ok, list_elem_of_lookup_2 in E0, E1.
  split; [simpl; lia|]. constructor; [split; eauto | done].
Qed.

Lemma fill_two_all (Pv : Q -> Prop) img a b start js X :
  (forall s, all_voxels Pv s -> all_voxels Pv (cv2_resize s img)) ->
  Forall (all_voxels Pv) (vol_slices a) -> Forall (all_voxels Pv) (vol_slices b) ->
  fill_two img a b start js = Ok X -> channels_all Pv X.
Proof.
  intros HR Ha Hb HX. destruct (fill_two_Ok _ _ _ _ _ _ HX) as [_ HF].
  rewrite Forall_forall in Ha, Hb. unfold channels_all.
  eapply Forall_impl; [|exact HF]. intros [x0 x1] [(s0 & Hs0 & ->) (s1 & Hs1 & ->)].
  apply list_elem_of_In in Hs0, Hs1. auto.
Qed.

Lemma fill_two_nonempty img a b start js X :
  (0 < img)%nat -> js <> [] -> fill_two img a b start js = Ok X -> entries X <> [].
Proof.
  intros Hi Hjs HX. destruct (fill_two_Ok _ _ _ _ _ _ HX) as [Hl HF].
  destruct X as [|[x0 x1] X]; [destruct js; simpl in *; done|].
  apply Forall_cons_iff in HF as [[(s0 & _ & ->) _] _].
  rewrite entries_cons. pose proof (resize_nonempty s0 img Hi). by destruct (concat _).
Qed.

(** The first slice out of range raises, flair before t1ce. *)
Lemma fill_two_seq_error img a b start s n :
  (depth a <= depth b)%nat -> (0 < n)%nat -> (depth a < s + n + start)%nat ->
  fill_two img a b start (seq s n) =
  Err (index_error (Nat.max (s + start) (depth a)) (depth a)).
Proof.
  revert s. induction n as [|n IH]; intros s Hab Hn Hd; [lia|]. cbn [seq fill_two].
  unfold axis2 at 1. destruct (decide (s + start < depth a)%nat) as [Ha|Ha].
  - destruct (lookup_lt_is_Some_2 (vol_slices a) (s + start) Ha) as [s0 E0].
    destruct (lookup_lt_is_Some_2 (vol_slices b) (s + start)) as [s1 E1]; [unfold depth in *; lia|].
    rewrite E0. cbn [res_bind]. unfold axis2. rewrite E1. cbn [res_bind].
    destruct n as [|n]; [lia|]. rewrite IH by lia. cbn [res_bind].
    do 2 f_equal. lia.
  - rewrite lookup_ge_None_2 by (unfold depth in Ha; lia). cbn [res_bind]. do 2 f_equal. lia.
Qed.

Lemma predict_segmentation_unfold predict fs self path sl st t1ce flair :
  fs !! (path +:+ "_t1ce.nii") = Some t1ce -> fs !! (path +:+ "_flair.nii") = Some flair ->
  predict_segmentation (P:=P) predict fs self path sl st =
  (let* X := fill_two (img_size self) flair t1ce st (seq 0 sl) in
   let* Xn := normalize X in Ok (predict Xn)).
Proof. intros Ht Hf. unfold predict_segmentation, nib_load. cbv zeta. by rewrite Ht, Hf. Qed.

(** In range, the fill loop succeeds and the normalisation divides by
    the maximum. *)
Lemma fill_two_seq_Ok img a b st sl :
  (st + sl <= depth a)%nat -> (st + sl <= depth b)%nat ->
  exists X, fill_two img a b st (seq 0 sl) = Ok X.
Proof.
  intros Ha Hb. pose proof (proj2 (fill_two_is_ok img a b st (seq 0 sl))) as Hok.
  destruct (fill_two img a b st (seq 0 sl)) as [X|]; [eauto|].
  discriminate Hok. apply Forall_seq_bounds. by right.
Qed.

Lemma fill_two_normalize img a b st sl X :
  (0 < img)%nat -> (0 < sl)%nat -> fill_two img a b st (seq 0 sl) = Ok X ->
  exists m, np_max X = Ok m /\ normalize X = Ok (div_by m X).
Proof.
  intros Hi Hs HX. destruct (np_max_nonempty X) as [m Hm].
  { apply (fill_two_nonempty img a b st (seq 0 sl)); [done | destruct sl; [lia | discriminate] | done]. }
  exists m. split; [done|]. apply normalize_Ok. eauto.
Qed.

(** The file names [predictByPath] builds. *)
Lemma brats_path cp case sfx :
  path_join cp ("BraTS20_Training_" +:+ case +:+ sfx) = path_join cp ("BraTS20_Training_" +:+ case) +:+ sfx.
Proof.
  rewrite string_app_assoc. apply path_join_app; [intros Hn; vm_compute in Hn; discriminate | reflexivity].
Qed.

Lemma predictByPath_unfold predict fs self cp case flair ce :
  fs !! path_join cp ("BraTS20_Training_" +:+ case +:+ "_flair.nii") = Some flair ->
  fs !! path_join cp ("BraTS20_Training_" +:+ case +:+ "_t1ce.nii") = Some ce ->
  predictByPath (P:=P) predict fs self cp case =
  (let* X := fill_two (img_size self) flair ce VOLUME_START_AT (seq 0 VOLUME_SLICES) in
   let* Xn := normalize X in Ok (predict Xn)).
Proof. intros Hf Ht. unfold predictByPath, nib_load. cbv zeta. by rewrite Hf, Ht. Qed.

(** The slice at position [j] of the array the loop fills. *)
Lemma fill_two_lookup img a b start js X (j k : nat) :
  fill_two img a b start js = Ok X -> js !! j = Some k ->
  exists s0 s1, vol_slices a !! (k + start)%nat = Some s0 /\ vol_slices b !! (k + start)%nat = Some s1 /\
    X !! j = Some (cv2_resize s0 img, cv2_resize s1 img).
Proof.
  revert X j. induction js as [|k' js IH]; intros X j HX Hj; [done|]. simpl in HX.
  destruct (axis2 a (k' + start)) as [s0|] eqn:E0; [|done].
  destruct (axis2 b (k' + start)) as [s1|] eqn:E1; [|done].
  destruct (fill_two img a b start js) as [X'|] eqn:EX'; [|done]. injection HX as <-.
  destruct j as [|j]; simpl in Hj.
  - injection Hj as <-. apply axis2_Ok in E0, E1. eauto.
  - exact (IH X' j eq_refl Hj).
Qed.

Lemma fill_one_Ok img a start js X :
  fill_one img a start js = Ok X ->
  length X = length js /\ Forall (fun '(_, x1) => x1 = zeros img) X.
Proof.
  revert X. induction js as [|j js IH]; simpl; intros X HX; [injection HX as <-; done|].
  destruct (axis2 a (j + start)) as [s0|]; [|done].
  destruct (fill_one img a start js) as [X'|]; [|done].
  injection HX as <-. destruct (IH X' eq_refl). split; [simpl; lia | by constructor].
Qed.

Lemma fill_one_is_ok img a start js :
  is_ok (fill_one img a start js) = true <-> Forall (fun j => j + start < depth a)%nat js.
Proof.
  induction js as [|j js IH]; simpl; [split; constructor|].
  rewrite Forall_cons_iff, <- IH, <- axis2_is_ok.
  destruct (axis2 a (j + start)), (fill_one img a start js); simpl; intuition congruence.
Qed.

(** C21: with both files present, a positive image size and at least
    one slice, [predict_segmentation] returns the network's prediction
    exactly when slices [volume_start_at] to
    [volume_start_at + volume_slices - 1] exist in both volumes; outside
    that range it raises. *)
Theorem predict_segmentation_succeeds_iff (predict : _ -> P) fs self path sl st t1ce flair :
  fs !! (path +:+ "_t1ce.nii") = Some t1ce -> fs !! (path +:+ "_flair.nii") = Some flair ->
  (0 < img_size self)%nat -> (0 < sl)%nat ->
  is_ok (predict_segmentation predict fs self path sl st) = true <->
  (st + sl <= depth flair /\ st + sl <= depth t1ce)%nat.
Proof.
  intros Ht Hf Hi Hs. rewrite (predict_segmentation_unfold predict fs self path sl st t1ce flair Ht Hf).
  destruct (fill_two (img_size self) flair t1ce st (seq 0 sl)) as [X|e] eqn:HX.
  - destruct (fill_two_normalize _ _ _ _ _ _ Hi Hs HX) as (m & _ & Hn).
    assert (Hok : is_ok (fill_two (img_size self) flair t1ce st (seq 0 sl)) = true) by now rewrite HX.
    apply fill_two_is_ok, Forall_seq_bounds in Hok.
    cbn [res_bind]. rewrite Hn. split; [intros _; lia | done].
  - split; [done|]. intros Hb.
    destruct (fill_two_seq_Ok (img_size self) flair t1ce st sl) as [X HX']; [lia..|]. congruence.
Qed.

(** C22: when the flair volume is not deeper than the t1ce volume and the
    range passes its end, the error is numpy's [IndexError] for the first
    slice index out of range in the flair volume. *)
Theorem predict_segmentation_index_error (predict : _ -> P) fs self path sl st t1ce flair :
  fs !! (path +:+ "_t1ce.nii") = Some t1ce -> fs !! (path +:+ "_flair.nii") = Some flair ->
  (depth flair <= depth t1ce)%nat -> (0 < sl)%nat -> (depth flair < st + sl)%nat ->
  predict_segmentation predict fs self path sl st =
  Err (index_error (Nat.max st (depth flair)) (depth flair)).
Proof.
  intros Ht Hf Hd Hs Hr. rewrite (predict_segmentation_unfold predict fs self path sl st t1ce flair Ht Hf).
  rewrite fill_two_seq_error by lia. reflexivity.
Qed.

(** C23: on volumes of non-negative intensities, in range, the network
    receives [volume_slices] slices, and every value of its input is in
    [[0, 1]], or NaN when the whole input is zero. *)
Theorem predict_segmentation_input_normalized (predict : _ -> P) fs self path sl st t1ce flair :
  fs !! (path +:+ "_t1ce.nii") = Some t1ce -> fs !! (path +:+ "_flair.nii") = Some flair ->
  (0 < img_size self)%nat -> (0 < sl)%nat ->
  (st + sl <= depth flair)%nat -> (st + sl <= depth t1ce)%nat ->
  Forall (all_voxels (Qle 0)) (vol_slices flair) -> Forall (all_voxels (Qle 0)) (vol_slices t1ce) ->
  exists Xn, predict_segmentation predict fs self path sl st = Ok (predict Xn) /\
    length Xn = sl /\ Forall unit_or_nan (entries Xn).
Proof.
  intros Ht Hf Hi Hs Ha Hb Hna Hnb. rewrite (predict_segmentation_unfold predict fs self path sl st t1ce flair Ht Hf).
  destruct (fill_two_seq_Ok (img_size self) flair t1ce st sl Ha Hb) as [X HX].
  destruct (fill_two_normalize _ _ _ _ _ _ Hi Hs HX) as (m & Hm & Hn).
  exists (div_by m X). rewrite HX. cbn [res_bind]. rewrite Hn. split; [done|]. split.
  - unfold div_by. rewrite length_map. by rewrite (proj1 (fill_two_Ok _ _ _ _ _ _ HX)), length_seq.
  - pose proof (proj2 (entries_Forall _ _) (fill_two_all _ _ _ _ _ _ _ (fun s => resize_nonneg s _) Hna Hnb HX)) as H0.
    pose proof (np_max_ge X m Hm) as Hle. rewrite entries_div_by, Forall_map.
    rewrite Forall_forall in H0, Hle |- *. intros x Hx. apply fdiv_unit; auto.
Qed.

(** C24: on two volumes that are zero everywhere, [np.max(X)] is 0 and
    every value the network receives is [0/0], NaN. *)
Theorem predict_segmentation_zero_volume_nan (predict : _ -> P) fs self path sl st t1ce flair r :
  fs !! (path +:+ "_t1ce.nii") = Some t1ce -> fs !! (path +:+ "_flair.nii") = Some flair ->
  Forall (all_voxels (fun x => x == 0)) (vol_slices flair) ->
  Forall (all_voxels (fun x => x == 0)) (vol_slices t1ce) ->
  predict_segmentation predict fs self path sl st = Ok r ->
  exists Xn, r = predict Xn /\ Forall (fun v => v = NaN) (entries Xn).
Proof.
  intros Ht Hf Hza Hzb Hr. rewrite (predict_segmentation_unfold predict fs self path sl st t1ce flair Ht Hf) in Hr.
  destruct (fill_two (img_size self) flair t1ce st (seq 0 sl)) as [X|] eqn:HX; [|discriminate].
  cbn [res_bind] in Hr. destruct (normalize X) as [Xn|] eqn:HN; [|discriminate].
  injection Hr as <-. apply normalize_Ok in HN as (m & Hm & ->). exists (div_by m X). split; [done|].
  pose proof (proj2 (entries_Forall _ _) (fill_two_all _ _ _ _ _ _ _ (fun s => resize_zero s _) Hza Hzb HX)) as H0.
  destruct (np_max_in X m Hm) as (y & Hy & Ey). rewrite entries_div_by, Forall_map.
  rewrite Forall_forall in H0 |- *. apply list_elem_of_In in Hy.
  intros x Hx. apply fdiv_zero; [auto|]. rewrite Ey. auto.
Qed.

(** C25: [imageLoader] on a volume of at least 122 slices returns 100
    slices. Its second channel is always the zeros of [np.zeros], even
    though the network reads two channels. *)
Theorem imageLoader_second_channel_zero fs self path v :
  fs !! path = Some v -> (VOLUME_START_AT + VOLUME_SLICES <= depth v)%nat ->
  exists X, imageLoader fs self path = Ok X /\ length X = VOLUME_SLICES /\
    Forall (fun '(_, x1) => x1 = zeros (img_size self)) X.
Proof.
  intros Hv Hd. unfold imageLoader, nib_load. rewrite Hv. cbn [res_bind].
  pose proof (proj2 (fill_one_is_ok (img_size self) v VOLUME_START_AT (seq 0 VOLUME_SLICES))) as Hok.
  destruct (fill_one (img_size self) v VOLUME_START_AT (seq 0 VOLUME_SLICES)) as [X|] eqn:HX.
  - destruct (fill_one_Ok _ _ _ _ _ HX) as [Hl HF]. exists X. rewrite Hl, length_seq. done.
  - discriminate Hok. apply Forall_seq. intros j Hj. lia.
Qed.

(** C26: [loadDataFromDir] returns only when it is asked for no file:
    on the first selected file it raises, [IndexError] when [glob] finds
    nothing and [AttributeError] otherwise, so it never loads a volume. *)
Theorem loadDataFromDir_loads_nothing glob self path files mri n r :
  loadDataFromDir glob self path files mri n = Ok r <-> take n files = [] /\ r = ([], []).
Proof.
  unfold loadDataFromDir. destruct (take n files) as [|i rest].
  - split; [intros [= <-] | intros [_ ->]]; done.
  - split; [by destruct (glob _) | by intros [? _]].
Qed.

(** C27: when both files exist, [predictByPath(case_path, case)] is
    [predict_segmentation] on [os.path.join(case_path,
    'BraTS20_Training_' + case)] with the default slice range: the same
    input, flair in channel 0 and t1ce in channel 1, although the two
    load the files in the opposite order. *)
Theorem predictByPath_predict_segmentation (predict : _ -> P) fs self cp case flair ce :
  fs !! path_join cp ("BraTS20_Training_" +:+ case +:+ "_flair.nii") = Some flair ->
  fs !! path_join cp ("BraTS20_Training_" +:+ case +:+ "_t1ce.nii") = Some ce ->
  predictByPath predict fs self cp case =
  predict_segmentation predict fs self (path_join cp ("BraTS20_Training_" +:+ case))
    VOLUME_SLICES VOLUME_START_AT.
Proof.
  intros Hf Ht. rewrite (predictByPath_unfold predict fs self cp case flair ce Hf Ht).
  by rewrite (predict_segmentation_unfold predict fs self _ _ _ ce flair); rewrite <- ?brats_path.
Qed.

End Proofs.

(** Concrete inputs: a network of input size 16, volumes of 155 slices
    (the depth of a BraTS 2020 volume) of two by two voxels, a short
    volume of 100 slices, and an empty one. *)
Definition wit_unet : Unet :=
  mk_unet 16 4 "he_normal" 0.2 0.001
    (mk_model (mk_tensor 0 (mk_shape 16 16 2)) (mk_tensor 36 (mk_shape 16 16 4)) []).

Definition ramp_volume (d : nat) : volume :=
  mk_volume (map (fun k => [[inject_Z (Z.of_nat k); 1]; [0; 2]]) (seq 0 d)).

Definition zero_volume (d : nat) : volume := mk_volume (repeat [[0; 0]; [0; 0]] d).

Definition wit_fs : filesystem :=
  <["s_t1ce.nii" := ramp_volume 155]> (<["s_flair.nii" := ramp_volume 155]> (
  <["z_t1ce.nii" := zero_volume 155]> (<["z_flair.nii" := zero_volume 155]> (
  <["short_t1ce.nii" := ramp_volume 155]> (<["short_flair.nii" := ramp_volume 100]> (
  <["data/BraTS20_Training_001_flair.nii" := ramp_volume 155]> (
  <["data/BraTS20_Training_001_t1ce.nii" := zero_volume 155]> ∅))))))).

Abbreviation input := (list (list (list fval) * list (list fval))).

Lemma predict_segmentation_succeeds_iff_witness :
  is_ok (predict_segmentation (P:=input) id wit_fs wit_unet "s" 100 22) = true /\
  is_ok (predict_segmentation (P:=input) id wit_fs wit_unet "s" 100 56) = false.
Proof.
  split.
  - apply (predict_segmentation_succeeds_iff id wit_fs wit_unet "s" 100 22 (ramp_volume 155) (ramp_volume 155));
      [reflexivity | reflexivity | vm_compute; lia | lia | vm_compute; lia].
  - destruct (is_ok _) eqn:E; [|reflexivity]. exfalso.
    apply (predict_segmentation_succeeds_iff id wit_fs wit_unet "s" 100 56 (ramp_volume 155) (ramp_volume 155)) in E;
      [vm_compute in E; lia | reflexivity | reflexivity | vm_compute; lia | lia].
Defined.

Lemma predict_segmentation_index_error_witness :
  predict_segmentation (P:=input) id wit_fs wit_unet "short" 100 22 = Err (index_error 100 100).
Proof.
  apply (predict_segmentation_index_error id wit_fs wit_unet "short" 100 22 (ramp_volume 155) (ramp_volume 100));
    [reflexivity | reflexivity | vm_compute; lia | lia | vm_compute; lia].
Defined.

Lemma predict_segmentation_input_normalized_witness :
  exists Xn, predict_segmentation (P:=input) id wit_fs wit_unet "s" 100 22 = Ok Xn /\
    length Xn = 100%nat /\ Forall unit_or_nan (entries Xn).
Proof.
  apply (predict_segmentation_input_normalized id wit_fs wit_unet "s" 100 22 (ramp_volume 155) (ramp_volume 155));
    [reflexivity | reflexivity | vm_compute; lia | lia | vm_compute; lia | vm_compute; lia
    | vm_compute; repeat (constructor || (intro; discriminate))..].
Defined.

Lemma predict_segmentation_zero_volume_nan_witness :
  match predict_segmentation (P:=input) id wit_fs wit_unet "z" 100 22 with
  | Ok r => exists Xn, r = Xn /\ Forall (fun v => v = NaN) (entries Xn)
  | Err _ => False
  end.
Proof.
  destruct (predict_segmentation id wit_fs wit_unet "z" 100 22) as [r|e] eqn:E.
  - apply (predict_segmentation_zero_volume_nan id wit_fs wit_unet "z" 100 22 (zero_volume 155) (zero_volume 155) r);
      [reflexivity | reflexivity | vm_compute; repeat constructor.. | exact E].
  - vm_compute in E. discriminate E.
Defined.

Lemma imageLoader_second_channel_zero_witness :
  exists X, imageLoader wit_fs wit_unet "s_flair.nii" = Ok X /\ length X = VOLUME_SLICES /\
    Forall (fun '(_, x1) => x1 = zeros (img_size wit_unet)) X.
Proof.
  apply (imageLoader_second_channel_zero wit_fs wit_unet "s_flair.nii" (ramp_volume 155));
    [reflexivity | vm_compute; lia].
Defined.

Lemma predictByPath_predict_segmentation_witness :
  predictByPath (P:=input) id wit_fs wit_unet "data" "001" =
  predict_segmentation id wit_fs wit_unet "data/BraTS20_Training_001" VOLUME_SLICES VOLUME_START_AT.
Proof.
  apply (predictByPath_predict_segmentation id wit_fs wit_unet "data" "001" (ramp_volume 155) (zero_volume 155));
    vm_compute; reflexivity.
Defined.

End Volume.
