(* ===== verification/Display.v ===== *)
(** The two visualisation methods of the U-Net in
    [src/project2/backend/app/model.py]: [showPredictsById] and
    [show_predicted_segmentations].

    The network's output is a numpy array. [ndarray] is a shape with
    an element function. [nd_index] is numpy's integer indexing along
    one axis, with Python's negative indices counted from the end and
    [IndexError] outside [[-d, d)]. [nd_index2] is [a[i, :, :, k]],
    two integer indices in one subscript, checked from the left with
    the error naming the axis of [a]. [nd_slice] is a slice [lo:hi]
    with non-negative bounds clipped to the axis. [axis2z] is
    [volume[:, :, k]] for a Python integer [k], negative ones included.

    Plotting is an effect: a run that does not raise produces the list
    of [imshow], [set_title] and [print] calls, in program order.
    [cmap] and [norm] are kept; [alpha], [interpolation],
    [subplots_adjust] and the figure sizes are presentation and are
    left out. [cv2.resize] with [INTER_NEAREST] is a function of the
    section, like the network's [predict]. When several lines can
    raise, the first in program order gives the error, because an
    exception discards the partly drawn figure.

    [show_predicted_segmentations] reads [self.volume_start_at], which
    [__init__] never sets: on an object as constructed it raises
    [AttributeError] (C32). A client may assign the attribute on the
    object; the method is modelled with the attribute as an [option Z]
    argument, so the plotting of lines 256-295 is modelled for that
    case too. *)

From Stdlib Require Import QArith ZArith Lia.
From stdpp Require Import pretty.
From S2P Require Import Prelude Unet Volume.

Module Display.
Import Unet Volume.

(** ** numpy arrays *)

Record ndarray : Type := mk_nd {
  nd_shape : list nat;
  nd_get : list nat -> Q
}.

(** A Python index into an axis of size [d]. *)
Definition py_index (d : nat) (i : Z) : option nat :=
  if bool_decide (- Z.of_nat d <= i < Z.of_nat d)%Z
  then Some (Z.to_nat (if (i <? 0)%Z then i + Z.of_nat d else i)%Z)
  else None.

Definition nd_index_error (i : Z) (axis d : nat) : string :=
  "IndexError: index " +:+ pretty i +:+ " is out of bounds for axis " +:+ pretty axis
  +:+ " with size " +:+ pretty d.

Definition too_many_indices (ndim indexed : nat) : string :=
  "IndexError: too many indices for array: array is " +:+ pretty ndim +:+ "-dimensional, but "
  +:+ pretty indexed +:+ " were indexed".

(** Position [k] of axis [axis], already in range: the axis goes away. *)
Definition nd_pick (a : ndarray) (axis k : nat) : ndarray :=
  mk_nd (delete axis (nd_shape a)) (fun ix => nd_get a (take axis ix ++ k :: drop axis ix)).

(** [a[:, ..., i, ...]] with [i] at position [axis]. *)
Definition nd_index (a : ndarray) (axis : nat) (i : Z) : result string ndarray :=
  match nd_shape a !! axis with
  | None => Err (too_many_indices (length (nd_shape a)) (S axis))
  | Some d =>
      match py_index d i with
      | None => Err (nd_index_error i axis d)
      | Some k => Ok (nd_pick a axis k)
      end
  end.

(** The integer indices of one subscript, each with the axis of [a] it
    indexes, in increasing order; [removed] axes before them are gone.
    numpy checks them from the left, and its error names the axis of
    the array it was given. *)
Fixpoint nd_index_go (a : ndarray) (removed : nat) (idx : list (nat * Z)) : result string ndarray :=
  match idx with
  | [] => Ok a
  | (axis, i) :: rest =>
      match nd_shape a !! (axis - removed) with
      | None => Err (too_many_indices (length (nd_shape a) + removed) (S axis))
      | Some d =>
          match py_index d i with
          | None => Err (nd_index_error i axis d)
          | Some k => nd_index_go (nd_pick a (axis - removed) k) (S removed) rest
          end
      end
  end.

(** [a[i, :, :, k]]: integer indices at axes 0 and 3 of one subscript.
    numpy counts the indices before it checks any of them. *)
Definition nd_index2 (a : ndarray) (i k : Z) : result string ndarray :=
  if (length (nd_shape a) <? 4)%nat then Err (too_many_indices (length (nd_shape a)) 4)
  else nd_index_go a 0 [(0%nat, i); (3%nat, k)].

(** [a[:, ..., lo:hi, ...]] for [0 <= lo]. *)
Definition nd_slice (a : ndarray) (axis lo hi : nat) : result string ndarray :=
  match nd_shape a !! axis with
  | None => Err (too_many_indices (length (nd_shape a)) (S axis))
  | Some d =>
      let start := Nat.min lo d in
      Ok (mk_nd (<[axis := Nat.min hi d - start]> (nd_shape a))
                (fun ix => nd_get a (<[axis := start + default 0 (ix !! axis)]> ix)))
  end.

(** [volume[:, :, k]] for a Python integer [k]. *)
Definition axis2z (v : volume) (k : Z) : result string slice :=
  match py_index (depth v) k with
  | Some i => axis2 v i
  | None => Err (nd_index_error k 2 (depth v))
  end.

(** ** The figure *)

Inductive shown : Type :=
| ShowSlice (s : slice)
| ShowArray (a : ndarray).

(** [imshow] without and with a [norm] argument ([None] is Python's
    [None]; a [Normalize] object is named by a string); [set_title] and
    [title.set_text] both set the title; [Print] is a line on stdout. *)
Inductive plot_call : Type :=
| Imshow (ax : nat) (img : shown) (cmap : option string)
| ImshowNorm (ax : nat) (img : shown) (cmap : string) (norm : option string)
| SetTitle (ax : nat) (title : string)
| Print (line : string).

Definition showPredictsById_path (case : string) : string :=
  "/home/jupyter/BraTS2020_TrainingData/MICCAI_BraTS2020_TrainingData/BraTS20_Training_" +:+ case.

Definition volume_start_at_error : string :=
  "AttributeError: 'Unet' object has no attribute 'volume_start_at'".

Section Show.
Context `{Resize}.
Variable cv2_resize_nearest : slice -> nat -> slice.
Variable predict : input -> ndarray.

(** [for i in range(6): axarr[i].imshow(cv2.resize(origImage[:,:,k], ...), cmap="gray")]:
    the slice is read again at every iteration. *)
Fixpoint flair_panels (img : nat) (orig : volume) (k : Z) (axes : list nat)
    : result string (list plot_call) :=
  match axes with
  | [] => Ok []
  | i :: rest =>
      let* s := axis2z orig k in
      let* calls := flair_panels img orig k rest in
      Ok (Imshow i (ShowSlice (cv2_resize s img)) (Some "gray") :: calls)
  end.

Definition showPredictsById (fs : filesystem) (self : Unet) (case : string) (start_slice : Z)
    : result string (list plot_call) :=
  let path := showPredictsById_path case in
  let n := img_size self in
  let* gt := nib_load fs (path_join path ("BraTS20_Training_" +:+ case +:+ "_seg.nii")) in
  let* origImage := nib_load fs (path_join path ("BraTS20_Training_" +:+ case +:+ "_flair.nii")) in
  let* p := predictByPath predict fs self path case in
  let* core := nd_index p 3 1 in
  let* edema := nd_index p 3 2 in
  let* enhancing := nd_index p 3 3 in
  let k := (start_slice + Z.of_nat VOLUME_START_AT)%Z in
  let* background := flair_panels n origImage k (seq 0 6) in
  let* g := axis2z gt k in
  let* p_s := nd_index p 0 start_slice in
  let* all_classes := nd_slice p_s 2 1 4 in
  let* edema_s := nd_index edema 0 start_slice in
  let* core_s := nd_index core 0 start_slice in
  let* enhancing_s := nd_index enhancing 0 start_slice in
  Ok (background ++
      [SetTitle 0 "Original image flair";
       Imshow 1 (ShowSlice (cv2_resize_nearest g n)) (Some "Reds");
       SetTitle 1 "Ground truth";
       Imshow 2 (ShowArray all_classes) (Some "Reds");
       SetTitle 2 "all classes predicted";
       Imshow 3 (ShowArray edema_s) (Some "OrRd");
       SetTitle 3 "Edema predicted";
       Imshow 4 (ShowArray core_s) (Some "OrRd");
       SetTitle 4 "Core predicted";
       Imshow 5 (ShowArray enhancing_s) (Some "OrRd");
       SetTitle 5 "Enhancing predicted"]).

(** [random.choice(seq)]: [seq[randbelow(len(seq))]], and [IndexError]
    on an empty sequence. *)
Definition random_choice {A} (randbelow : nat -> nat) (l : list A) : result string A :=
  match l with
  | [] => Err "IndexError: Cannot choose from an empty sequence"
  | _ => match l !! randbelow (length l) with
         | Some x => Ok x
         | None => Err "IndexError: list index out of range"
         end
  end.

(** [os.path.join(TRAIN_DATASET_PATH, s, s)], with [TRAIN_DATASET_PATH]
    read by [os.getenv]. *)
Definition sample_path (TRAIN_DATASET_PATH : option string) (s : string) : result string string :=
  match TRAIN_DATASET_PATH with
  | None => Err "TypeError: expected str, bytes or os.PathLike object, not NoneType"
  | Some d => Ok (path_join (path_join d s) s)
  end.

(** [self.volume_start_at]: an attribute [__init__] never sets, so
    [None] unless a client assigns it on the object. *)
Definition getattr_volume_start_at (volume_start_at : option Z) : result string Z :=
  match volume_start_at with
  | None => Err volume_start_at_error
  | Some k => Ok k
  end.

(** [show_predicted_segmentations(samples_list, slice_to_plot, cmap, norm)]
    on an object whose [volume_start_at] attribute is [volume_start_at]. *)
Definition show_predicted_segmentations (randbelow : nat -> nat)
    (TRAIN_DATASET_PATH : option string) (fs : filesystem) (self : Unet)
    (volume_start_at : option Z) (samples_list : list string) (slice_to_plot : Z)
    (cmap : string) (norm : option string) : result string (list plot_call) :=
  let* random_sample := random_choice randbelow samples_list in
  let* random_sample_path := sample_path TRAIN_DATASET_PATH random_sample in
  let* predicted_seg := predict_segmentation predict fs self random_sample_path
                          VOLUME_SLICES VOLUME_START_AT in
  let seg_path := random_sample_path +:+ "_seg.nii" in
  let* seg := nib_load fs seg_path in
  let* vsa := getattr_volume_start_at volume_start_at in
  let* seg_k := axis2z seg (slice_to_plot + vsa) in
  let seg := cv2_resize_nearest seg_k (img_size self) in
  let* p_s := nd_index predicted_seg 0 slice_to_plot in
  let* all_classes := nd_slice p_s 2 1 4 in
  let* background := nd_index2 predicted_seg slice_to_plot 0 in
  let* core := nd_index2 predicted_seg slice_to_plot 1 in
  let* edema := nd_index2 predicted_seg slice_to_plot 2 in
  let* enhancing := nd_index2 predicted_seg slice_to_plot 3 in
  Ok [Print ("Patient number: " +:+ random_sample);
      ImshowNorm 0 (ShowSlice seg) cmap norm;
      SetTitle 0 "Original Segmentation";
      ImshowNorm 1 (ShowArray all_classes) cmap norm;
      SetTitle 1 "Predicted Segmentation - All Classes";
      Imshow 2 (ShowArray background) None;
      SetTitle 2 "Predicted Segmentation - Not Tumor";
      Imshow 3 (ShowArray core) None;
      SetTitle 3 "Predicted Segmentation - Necrotic/Core";
      Imshow 4 (ShowArray edema) None;
      SetTitle 4 "Predicted Segmentation - Edema";
      Imshow 5 (ShowArray enhancing) None;
      SetTitle 5 "Predicted Segmentation - Enhancing"].

(** Keras' [predict] on a batch: an array of shape
    [(batch, n, n, classes)] whose sample [j] depends on input sample
    [j] alone. *)
Definition per_sample (n C : nat) (g : (list (list fval) * list (list fval)) -> list nat -> Q) : Prop :=
  forall Xn, nd_shape (predict Xn) = [length Xn; n; n; C] /\
    forall j x ix, Xn !! j = Some x -> nd_get (predict Xn) (j :: ix) = g x ix.

End Show.

(** ** Lemmas *)

Lemma py_index_Some d i :
  (- Z.of_nat d <= i < Z.of_nat d)%Z ->
  py_index d i = Some (Z.to_nat (if (i <? 0)%Z then i + Z.of_nat d else i)).
Proof. intros Hi. unfold py_index. by rewrite bool_decide_true. Qed.

Lemma py_index_None d i : ~ (- Z.of_nat d <= i < Z.of_nat d)%Z -> py_index d i = None.
Proof. intros Hi. unfold py_index. by rewrite bool_decide_false. Qed.

Lemma py_index_lt d i k : py_index d i = Some k -> (k < d)%nat.
Proof. unfold py_index. case_bool_decide; [|done]. intros [= <-]. destruct (Z.ltb_spec i 0); lia. Qed.

Lemma nd_index_Ok a axis i d :
  nd_shape a !! axis = Some d -> (- Z.of_nat d <= i < Z.of_nat d)%Z ->
  nd_index a axis i =
  Ok (mk_nd (delete axis (nd_shape a))
        (fun ix => nd_get a (take axis ix ++ Z.to_nat (if (i <? 0)%Z then i + Z.of_nat d else i) :: drop axis ix))).
Proof. intros Hd Hi. unfold nd_index. by rewrite Hd, py_index_Some. Qed.

Lemma nd_index_Err a axis i d :
  nd_shape a !! axis = Some d -> ~ (- Z.of_nat d <= i < Z.of_nat d)%Z ->
  nd_index a axis i = Err (nd_index_error i axis d).
Proof. intros Hd Hi. unfold nd_index. by rewrite Hd, py_index_None. Qed.

Lemma nd_slice_Ok a axis lo hi d : nd_shape a !! axis = Some d -> exists b, nd_slice a axis lo hi = Ok b.
Proof. intros Hd. unfold nd_slice. rewrite Hd. eauto. Qed.

Lemma axis2z_Ok v k i : py_index (depth v) k = Some i -> exists s, vol_slices v !! i = Some s /\ axis2z v k = Ok s.
Proof.
  intros Hi. destruct (lookup_lt_is_Some_2 (vol_slices v) i) as [s Hs]; [exact (py_index_lt _ _ _ Hi)|].
  exists s. unfold axis2z, axis2. by rewrite Hi, Hs.
Qed.

(** [a[i, :, :, k]] on a four-dimensional array, both in range. *)
Lemma nd_index2_Ok a b n1 n2 C i k j c :
  nd_shape a = [b; n1; n2; C] -> py_index b i = Some j -> py_index C k = Some c ->
  nd_index2 a i k = Ok (nd_pick (nd_pick a 0 j) 2 c).
Proof.
  intros Hs Hi Hk. unfold nd_index2. rewrite Hs. cbn [length Nat.ltb Nat.leb]. cbn [nd_index_go Nat.sub]. rewrite Hs.
  change ([b; n1; n2; C] !! 0%nat) with (Some b). cbv iota. rewrite Hi. cbn [nd_index_go Nat.sub].
  replace (nd_shape (nd_pick a 0 j)) with [n1; n2; C] by (unfold nd_pick; by rewrite Hs).
  change ([n1; n2; C] !! 2%nat) with (Some C). cbv iota. by rewrite Hk.
Qed.

Section Proofs.
Context `{Resize}.
Variable cv2_resize_nearest : slice -> nat -> slice.
Variable predict : input -> ndarray.

Lemma flair_panels_Ok img orig k s axes :
  axis2z orig k = Ok s ->
  flair_panels img orig k axes = Ok (map (fun i => Imshow i (ShowSlice (cv2_resize s img)) (Some "gray")) axes).
Proof. intros Hs. induction axes as [|i axes IH]; simpl; [done|]. by rewrite Hs, IH. Qed.

(** The loop and the normalisation of [predictByPath] and
    [predict_segmentation] on volumes deep enough: the network gets 100
    samples, and sample [j] is built from slice [j + 22] of each
    volume, divided by the maximum [m]. *)
Lemma fill_predict_sample img flair ce :
  (122 <= depth flair)%nat -> (122 <= depth ce)%nat -> (0 < img)%nat ->
  exists Xn m,
    (let* X := fill_two img flair ce VOLUME_START_AT (seq 0 VOLUME_SLICES) in
     let* Xn := normalize X in Ok (predict Xn)) = Ok (predict Xn) /\ length Xn = 100%nat /\
    forall j, (j < 100)%nat -> exists s0 s1,
      vol_slices flair !! (j + 22)%nat = Some s0 /\ vol_slices ce !! (j + 22)%nat = Some s1 /\
      Xn !! j = Some (map (map (fun v => fdiv v m)) (cv2_resize s0 img),
                      map (map (fun v => fdiv v m)) (cv2_resize s1 img)).
Proof.
  intros Hdf Hdc Hi.
  destruct (fill_two_seq_Ok img flair ce VOLUME_START_AT VOLUME_SLICES) as [X HX];
    [unfold VOLUME_START_AT, VOLUME_SLICES; lia..|].
  destruct (fill_two_normalize _ _ _ _ VOLUME_SLICES X Hi ltac:(unfold VOLUME_SLICES; lia) HX) as (m & _ & Hn).
  exists (div_by m X), m. rewrite HX. cbn [res_bind]. rewrite Hn. split; [done|]. split.
  - unfold div_by. by rewrite length_map, (proj1 (fill_two_Ok _ _ _ _ _ _ HX)), length_seq.
  - intros j Hj. destruct (fill_two_lookup _ _ _ _ _ _ j j HX) as (s0 & s1 & H0 & H1 & HXj);
      [apply lookup_seq_lt; exact Hj|].
    exists s0, s1. split; [done | split; [done|]]. unfold div_by. by rewrite list_lookup_map, HXj.
Qed.

Lemma predictByPath_sample fs self cp case flair ce :
  fs !! path_join cp ("BraTS20_Training_" +:+ case +:+ "_flair.nii") = Some flair ->
  fs !! path_join cp ("BraTS20_Training_" +:+ case +:+ "_t1ce.nii") = Some ce ->
  (122 <= depth flair)%nat -> (122 <= depth ce)%nat -> (0 < img_size self)%nat ->
  exists Xn m, predictByPath predict fs self cp case = Ok (predict Xn) /\ length Xn = 100%nat /\
    forall j, (j < 100)%nat -> exists s0 s1,
      vol_slices flair !! (j + 22)%nat = Some s0 /\ vol_slices ce !! (j + 22)%nat = Some s1 /\
      Xn !! j = Some (map (map (fun v => fdiv v m)) (cv2_resize s0 (img_size self)),
                      map (map (fun v => fdiv v m)) (cv2_resize s1 (img_size self))).
Proof.
  intros Hf Ht Hdf Hdc Hi. rewrite (predictByPath_unfold predict fs self cp case flair ce Hf Ht).
  by apply fill_predict_sample.
Qed.

Lemma predict_segmentation_sample fs self p flair ce :
  fs !! (p +:+ "_flair.nii") = Some flair -> fs !! (p +:+ "_t1ce.nii") = Some ce ->
  (122 <= depth flair)%nat -> (122 <= depth ce)%nat -> (0 < img_size self)%nat ->
  exists Xn m, predict_segmentation predict fs self p VOLUME_SLICES VOLUME_START_AT = Ok (predict Xn) /\
    length Xn = 100%nat /\
    forall j, (j < 100)%nat -> exists s0 s1,
      vol_slices flair !! (j + 22)%nat = Some s0 /\ vol_slices ce !! (j + 22)%nat = Some s1 /\
      Xn !! j = Some (map (map (fun v => fdiv v m)) (cv2_resize s0 (img_size self)),
                      map (map (fun v => fdiv v m)) (cv2_resize s1 (img_size self))).
Proof.
  intros Hf Ht Hdf Hdc Hi. unfold predict_segmentation, nib_load. cbv zeta. rewrite Ht, Hf.
  cbn [res_bind]. by apply fill_predict_sample.
Qed.

(** C30: [showPredictsById] on a case whose three files exist, with
    volumes deep enough for the 100-slice window and a network of at
    least four classes, draws its figure. Panel 0 shows slice [i] of the
    flair volume, [i] being [start_slice + 22] read as a Python index.
    The "Edema predicted" panel shows channel 2 of the prediction for
    sample [j], [start_slice] read as a Python index into the 100
    samples. Sample [j] is built from flair slice [j + 22]. The two
    panels show the same slice exactly when [start_slice >= 0]: a
    negative [start_slice] counts from the end of the volume in one
    and from the end of the batch in the other. *)
Theorem showPredictsById_panels fs self case start gt flair ce C g :
  fs !! path_join (showPredictsById_path case) ("BraTS20_Training_" +:+ case +:+ "_seg.nii") = Some gt ->
  fs !! path_join (showPredictsById_path case) ("BraTS20_Training_" +:+ case +:+ "_flair.nii") = Some flair ->
  fs !! path_join (showPredictsById_path case) ("BraTS20_Training_" +:+ case +:+ "_t1ce.nii") = Some ce ->
  (122 <= depth flair)%nat -> (122 <= depth ce)%nat -> (0 < img_size self)%nat ->
  per_sample predict (img_size self) C g -> (4 <= C)%nat -> (-100 <= start < 100)%Z ->
  (- Z.of_nat (depth flair) <= start + 22 < Z.of_nat (depth flair))%Z ->
  (- Z.of_nat (depth gt) <= start + 22 < Z.of_nat (depth gt))%Z ->
  exists tr i j s0 s x m e,
    showPredictsById cv2_resize_nearest predict fs self case start = Ok tr /\
    py_index (depth flair) (start + 22) = Some i /\ vol_slices flair !! i = Some s0 /\
    In (Imshow 0 (ShowSlice (cv2_resize s0 (img_size self))) (Some "gray")) tr /\
    py_index 100 start = Some j /\ vol_slices flair !! (j + 22)%nat = Some s /\
    x.1 = map (map (fun v => fdiv v m)) (cv2_resize s (img_size self)) /\
    In (Imshow 3 (ShowArray e) (Some "OrRd")) tr /\ (forall r c, nd_get e [r; c] = g x [r; c; 2%nat]) /\
    ((i = j + 22)%nat <-> (0 <= start)%Z).
Proof.
  intros Hg Hf Ht Hdf Hdc Hi Hps HC Hs Hk Hkg.
  destruct (predictByPath_sample fs self _ case flair ce Hf Ht Hdf Hdc Hi) as (Xn & m & Hp & Hlen & Hsm).
  destruct (Hps Xn) as [Hshape Hget]. rewrite Hlen in Hshape.
  set (j := Z.to_nat (if (start <? 0)%Z then start + Z.of_nat 100 else start)).
  assert (Hj : py_index 100 start = Some j) by (apply py_index_Some; lia).
  destruct (Hsm j (py_index_lt _ _ _ Hj)) as (s & s1 & Hs0 & _ & Hx).
  set (i := Z.to_nat (if (start + 22 <? 0)%Z then start + 22 + Z.of_nat (depth flair) else start + 22)).
  assert (Hi' : py_index (depth flair) (start + 22) = Some i) by (apply py_index_Some; lia).
  destruct (axis2z_Ok flair _ _ Hi') as (s0 & Hs0' & Ha0).
  destruct (axis2z_Ok gt (start + 22) _ (py_index_Some _ _ Hkg)) as (sg & _ & Hag).
  unfold showPredictsById, nib_load. cbv zeta. change (Z.of_nat VOLUME_START_AT) with 22%Z.
  rewrite Hg, Hf. cbn [res_bind]. rewrite Hp. cbn [res_bind].
  rewrite !(nd_index_Ok (predict Xn) 3 _ C) by (rewrite ?Hshape; reflexivity || lia). cbn [res_bind].
  rewrite (flair_panels_Ok _ _ _ _ _ Ha0), Hag. cbn [res_bind].
  rewrite (nd_index_Ok (predict Xn) 0 start 100) by (rewrite ?Hshape; reflexivity || lia). cbn [res_bind].
  match goal with |- context [nd_slice ?a 2 1 4] =>
    destruct (nd_slice_Ok a 2 1 4 C) as [b Hb]; [simpl; by rewrite Hshape | rewrite Hb] end.
  cbn [res_bind].
  rewrite !(nd_index_Ok _ 0 start 100) by (simpl; rewrite ?Hshape; reflexivity || lia). cbn [res_bind].
  eexists _, i, j, s0, s, (map (map (fun v => fdiv v m)) (cv2_resize s (img_size self)),
    map (map (fun v => fdiv v m)) (cv2_resize s1 (img_size self))), m, _.
  split; [reflexivity|].
  do 2 (split; [done|]). split; [apply in_or_app; left; simpl; by left|].
  split; [done|]. split; [done|]. split; [reflexivity|].
  split; [apply in_or_app; right; simpl; do 5 right; by left|]. split.
  - intros r c. exact (Hget j _ [r; c; 2%nat] Hx).
  - subst i j. destruct (Z.ltb_spec start 0), (Z.ltb_spec (start + 22) 0); lia.
Qed.

(** C31: on the same inputs with a network of fewer than four
    classes, [showPredictsById] raises numpy's [IndexError] on the
    first of [p[:,:,:,1]], [p[:,:,:,2]], [p[:,:,:,3]] that is out of
    range, after running the whole prediction and before drawing
    anything. *)
Theorem showPredictsById_few_classes fs self case start gt flair ce C g :
  fs !! path_join (showPredictsById_path case) ("BraTS20_Training_" +:+ case +:+ "_seg.nii") = Some gt ->
  fs !! path_join (showPredictsById_path case) ("BraTS20_Training_" +:+ case +:+ "_flair.nii") = Some flair ->
  fs !! path_join (showPredictsById_path case) ("BraTS20_Training_" +:+ case +:+ "_t1ce.nii") = Some ce ->
  (122 <= depth flair)%nat -> (122 <= depth ce)%nat -> (0 < img_size self)%nat ->
  per_sample predict (img_size self) C g -> (C < 4)%nat ->
  showPredictsById cv2_resize_nearest predict fs self case start =
  Err (nd_index_error (Z.of_nat (Nat.max 1 C)) 3 C).
Proof.
  intros Hg Hf Ht Hdf Hdc Hi Hps HC.
  destruct (predictByPath_sample fs self _ case flair ce Hf Ht Hdf Hdc Hi) as (Xn & m & Hp & Hlen & _).
  destruct (Hps Xn) as [Hshape _]. rewrite Hlen in Hshape.
  assert (Hsh : nd_shape (predict Xn) !! 3 = Some C) by (rewrite Hshape; reflexivity).
  unfold showPredictsById, nib_load. cbv zeta. rewrite Hg, Hf. cbn [res_bind]. rewrite Hp. cbn [res_bind].
  destruct C as [|[|[|[|C]]]]; [..|lia].
  - by rewrite (nd_index_Err _ _ _ _ Hsh) by lia.
  - by rewrite (nd_index_Err _ _ _ _ Hsh) by lia.
  - rewrite (nd_index_Ok _ _ 1 _ Hsh) by lia. cbn [res_bind].
    by rewrite (nd_index_Err _ _ _ _ Hsh) by lia.
  - rewrite (nd_index_Ok _ _ 1 _ Hsh), (nd_index_Ok _ _ 2 _ Hsh) by lia. cbn [res_bind].
    by rewrite (nd_index_Err _ _ _ _ Hsh) by lia.
Qed.

(** C32: [show_predicted_segmentations] never returns on an object
    built by [__init__], which never sets [volume_start_at]. Whatever
    the random choice, the environment, the files and the arguments, it
    raises; once the sample is chosen, [TRAIN_DATASET_PATH] is set, the
    prediction has run and the segmentation file is loaded, the error
    is the [AttributeError] on [self.volume_start_at]. *)
Theorem show_predicted_segmentations_never_returns randbelow base fs self samples k cmap norm :
  is_ok (show_predicted_segmentations cv2_resize_nearest predict randbelow base fs self None
           samples k cmap norm) = false /\
  forall sample d r seg,
    random_choice randbelow samples = Ok sample -> base = Some d ->
    predict_segmentation predict fs self (path_join (path_join d sample) sample)
      VOLUME_SLICES VOLUME_START_AT = Ok r ->
    fs !! (path_join (path_join d sample) sample +:+ "_seg.nii") = Some seg ->
    show_predicted_segmentations cv2_resize_nearest predict randbelow base fs self None samples k cmap norm
    = Err volume_start_at_error.
Proof.
  split.
  - unfold show_predicted_segmentations. cbv zeta. do 4 (apply res_bind_not_ok; intros ?). reflexivity.
  - intros sample d r seg Hc -> Hp Hs. unfold show_predicted_segmentations, nib_load.
    rewrite Hc. cbn [res_bind sample_path]. rewrite Hp. cbn [res_bind]. by rewrite Hs.
Qed.

(** C19: when a client has set [volume_start_at] to [v], the method draws
    its figure. Panel 0 shows slice [i] of the ground truth, [i] being
    [slice_to_plot + v] read as a Python index. The "Edema" panel shows
    channel 2 of the prediction for sample [j], [slice_to_plot] read as
    a Python index into the 100 samples, and sample [j] is built from
    flair slice [j + 22], because [predict_segmentation] runs with the
    default [VOLUME_START_AT]. For non-negative indices the two panels
    show the same slice exactly when [v = 22]. *)
Theorem show_predicted_segmentations_panels randbelow d fs self samples k cmap norm v
    sample flair ce seg C g :
  random_choice randbelow samples = Ok sample ->
  fs !! (path_join (path_join d sample) sample +:+ "_flair.nii") = Some flair ->
  fs !! (path_join (path_join d sample) sample +:+ "_t1ce.nii") = Some ce ->
  fs !! (path_join (path_join d sample) sample +:+ "_seg.nii") = Some seg ->
  (122 <= depth flair)%nat -> (122 <= depth ce)%nat -> (0 < img_size self)%nat ->
  per_sample predict (img_size self) C g -> (4 <= C)%nat -> (-100 <= k < 100)%Z ->
  (- Z.of_nat (depth seg) <= k + v < Z.of_nat (depth seg))%Z ->
  exists tr i j sg s x m e,
    show_predicted_segmentations cv2_resize_nearest predict randbelow (Some d) fs self (Some v)
      samples k cmap norm = Ok tr /\
    In (Print ("Patient number: " +:+ sample)) tr /\
    py_index (depth seg) (k + v) = Some i /\ vol_slices seg !! i = Some sg /\
    In (ImshowNorm 0 (ShowSlice (cv2_resize_nearest sg (img_size self))) cmap norm) tr /\
    py_index 100 k = Some j /\ vol_slices flair !! (j + 22)%nat = Some s /\
    x.1 = map (map (fun v => fdiv v m)) (cv2_resize s (img_size self)) /\
    In (Imshow 4 (ShowArray e) None) tr /\ (forall r c, nd_get e [r; c] = g x [r; c; 2%nat]) /\
    ((0 <= k)%Z -> (0 <= k + v)%Z -> ((i = j + 22)%nat <-> v = 22%Z)).
Proof.
  intros Hc Hf Ht Hs Hdf Hdc Hi Hps HC Hk Hkv.
  destruct (predict_segmentation_sample fs self _ flair ce Hf Ht Hdf Hdc Hi) as (Xn & m & Hp & Hlen & Hsm).
  destruct (Hps Xn) as [Hshape Hget]. rewrite Hlen in Hshape.
  set (j := Z.to_nat (if (k <? 0)%Z then k + Z.of_nat 100 else k)).
  assert (Hj : py_index 100 k = Some j) by (apply py_index_Some; lia).
  destruct (Hsm j (py_index_lt _ _ _ Hj)) as (s & s1 & Hs0 & _ & Hx).
  set (i := Z.to_nat (if (k + v <? 0)%Z then k + v + Z.of_nat (depth seg) else k + v)).
  assert (Hi' : py_index (depth seg) (k + v) = Some i) by (apply py_index_Some; lia).
  destruct (axis2z_Ok seg _ _ Hi') as (sg & Hsg & Hag).
  unfold show_predicted_segmentations, nib_load. cbv zeta.
  rewrite Hc. cbn [res_bind sample_path]. rewrite Hp. cbn [res_bind]. rewrite Hs.
  cbn [res_bind getattr_volume_start_at]. rewrite Hag. cbn [res_bind].
  rewrite (nd_index_Ok (predict Xn) 0 k 100) by (rewrite ?Hshape; reflexivity || lia). cbn [res_bind].
  match goal with |- context [nd_slice ?a 2 1 4] =>
    destruct (nd_slice_Ok a 2 1 4 C) as [b Hb]; [simpl; by rewrite Hshape | rewrite Hb] end.
  cbn [res_bind].
  rewrite !(nd_index2_Ok _ _ _ _ _ k _ j _ Hshape Hj) by (apply py_index_Some; lia). cbn [res_bind].
  eexists _, i, j, sg, s, (map (map (fun v => fdiv v m)) (cv2_resize s (img_size self)),
    map (map (fun v => fdiv v m)) (cv2_resize s1 (img_size self))), m, _.
  split; [reflexivity|]. split; [simpl; by left|].
  do 2 (split; [done|]). split; [simpl; right; by left|].
  do 3 (split; [done|]). split; [simpl; do 9 right; by left|]. split.
  - intros r c. exact (Hget j _ [r; c; 2%nat] Hx).
  - intros H0 H1. subst i j. destruct (Z.ltb_spec k 0), (Z.ltb_spec (k + v) 0); lia.
Qed.

End Proofs.

(** ** Witnesses *)

(** A network stand-in with [C] classes that scores class [k] with [k]
    everywhere, sample by sample. *)
Definition demo_g (x : list (list fval) * list (list fval)) (ix : list nat) : Q :=
  match ix with [_; _; k] => inject_Z (Z.of_nat k) | _ => 0%Q end.

Definition demo_predict (C : nat) (Xn : input) : ndarray :=
  mk_nd [length Xn; 16%nat; 16%nat; C]
    (fun ix => match ix with
               | j :: ix' => match Xn !! j with Some x => demo_g x ix' | None => 0%Q end
               | [] => 0%Q
               end).

Lemma demo_per_sample C : per_sample (demo_predict C) 16 C demo_g.
Proof. intros Xn. split; [reflexivity|]. intros j x ix Hj. simpl. by rewrite Hj. Qed.

Definition demo_case_path (sfx : string) : string :=
  path_join (showPredictsById_path "001") ("BraTS20_Training_" +:+ "001" +:+ sfx).

Definition demo_fs : filesystem :=
  <[demo_case_path "_seg.nii" := ramp_volume 155]> (<[demo_case_path "_flair.nii" := ramp_volume 155]> (
  <[demo_case_path "_t1ce.nii" := ramp_volume 155]> (
  <["/data/BraTS20_Training_001/BraTS20_Training_001_seg.nii" := ramp_volume 155]> (
  <["/data/BraTS20_Training_001/BraTS20_Training_001_t1ce.nii" := ramp_volume 155]> (
  <["/data/BraTS20_Training_001/BraTS20_Training_001_flair.nii" := ramp_volume 155]> ∅))))).

(** With [start_slice = -1], panel 0 shows flair slice 21 and the
    prediction panels show sample 99, built from slice 121. *)
Lemma showPredictsById_panels_witness :
  exists tr i j, showPredictsById crop_resize (demo_predict 4) demo_fs wit_unet "001" (-1) = Ok tr /\
    py_index 155 21 = Some i /\ py_index 100 (-1) = Some j /\ i <> (j + 22)%nat.
Proof.
  destruct (showPredictsById_panels crop_resize (demo_predict 4) demo_fs wit_unet "001" (-1)
    (ramp_volume 155) (ramp_volume 155) (ramp_volume 155) 4 demo_g)
    as (tr & i & j & _ & _ & _ & _ & _ & Htr & Hi & _ & _ & Hj & _ & _ & _ & _ & Hiff);
    [vm_compute; reflexivity | vm_compute; reflexivity | vm_compute; reflexivity
    | change (depth (ramp_volume 155)) with 155%nat; lia
    | change (depth (ramp_volume 155)) with 155%nat; lia
    | simpl; lia | apply demo_per_sample | lia | lia
    | change (depth (ramp_volume 155)) with 155%nat; lia
    | change (depth (ramp_volume 155)) with 155%nat; lia |].
  exists tr, i, j. split; [exact Htr|]. split; [exact Hi|]. split; [exact Hj|].
  intros E. apply Hiff in E. lia.
Defined.

Lemma showPredictsById_few_classes_witness :
  showPredictsById crop_resize (demo_predict 3) demo_fs wit_unet "001" 60 = Err (nd_index_error 3 3 3).
Proof.
  apply (showPredictsById_few_classes crop_resize (demo_predict 3) demo_fs wit_unet "001" 60
    (ramp_volume 155) (ramp_volume 155) (ramp_volume 155) 3 demo_g);
    [vm_compute; reflexivity | vm_compute; reflexivity | vm_compute; reflexivity
    | change (depth (ramp_volume 155)) with 155%nat; lia
    | change (depth (ramp_volume 155)) with 155%nat; lia
    | simpl; lia | apply demo_per_sample | lia].
Defined.

Lemma show_predicted_segmentations_never_returns_witness :
  show_predicted_segmentations crop_resize (demo_predict 4) (fun _ => 0%nat) (Some "/data")
    demo_fs wit_unet None ["BraTS20_Training_001"] 60 "gray" None = Err volume_start_at_error.
Proof.
  destruct (predict_segmentation (demo_predict 4) demo_fs wit_unet
    "/data/BraTS20_Training_001/BraTS20_Training_001" VOLUME_SLICES VOLUME_START_AT) as [r|e] eqn:E.
  - exact (proj2 (show_predicted_segmentations_never_returns crop_resize (demo_predict 4) (fun _ => 0%nat)
        (Some "/data") demo_fs wit_unet ["BraTS20_Training_001"] 60 "gray" None)
      "BraTS20_Training_001" "/data" r (ramp_volume 155) eq_refl eq_refl E ltac:(vm_compute; reflexivity)).
  - vm_compute in E. discriminate E.
Defined.

(** A client that sets [volume_start_at = 22] gets the figure; slice
    60 of the batch and slice 82 of the ground truth line up. *)
Lemma show_predicted_segmentations_panels_witness :
  exists tr i j,
    show_predicted_segmentations crop_resize (demo_predict 4) (fun _ => 0%nat) (Some "/data") demo_fs
      wit_unet (Some 22%Z) ["BraTS20_Training_001"] 60 "gray" None = Ok tr /\
    py_index 155 82 = Some i /\ py_index 100 60 = Some j /\ i = (j + 22)%nat.
Proof.
  destruct (show_predicted_segmentations_panels crop_resize (demo_predict 4) (fun _ => 0%nat) "/data"
    demo_fs wit_unet ["BraTS20_Training_001"] 60 "gray" None 22 "BraTS20_Training_001"
    (ramp_volume 155) (ramp_volume 155) (ramp_volume 155) 4 demo_g)
    as (tr & i & j & _ & _ & _ & _ & _ & Htr & _ & Hi & _ & _ & Hj & _ & _ & _ & _ & Hiff);
    [reflexivity | vm_compute; reflexivity | vm_compute; reflexivity | vm_compute; reflexivity
    | change (depth (ramp_volume 155)) with 155%nat; lia
    | change (depth (ramp_volume 155)) with 155%nat; lia
    | simpl; lia | apply demo_per_sample | lia | lia
    | change (depth (ramp_volume 155)) with 155%nat; lia |].
  exists tr, i, j. split; [exact Htr|]. split; [exact Hi|]. split; [exact Hj|].
  apply Hiff; lia.
Defined.

End Display.
