(* ===== verification/Session.v ===== *)
(** The U-Net object as a stateful component: what [self.model] is
    and how the methods of [src/project2/backend/app/model.py] change
    it.

    A [session] is the object's state. It holds the attributes and
    graph of [Unet] ([net]), and the compile configuration Keras keeps
    inside [self.model] ([compiled_cfg]; [None] until [compile] is
    called). The model files are a map from paths to saved
    architectures ([store]).
    - [save_model] writes [self.model] to a path ending in [.keras],
      [.h5] or [.hdf5], and raises [ValueError] on any other path.
    - [load_model] replaces [self.model] with the stored one, and
      raises on a missing file or another extension.
      [compile=False] means the loaded model is not compiled.
    - [compile_model], [compile_and_load_weights] and [evaluate]
      compile it.
    - [train] runs [fit]. Its arguments are evaluated first, so
      [len(train_ids)] raises before [fit] checks that the model is
      compiled. [fit] then trains with the compiled Adam rate, and
      ReduceLROnPlateau writes the rate it reaches back into the
      optimizer, which outlives the call.
    Weights are not modelled. [MODELS_DIR] is read when the module is
    imported, and the default argument of [save_model] and
    [load_model] joins it with ['my_model.keras'] when the class body
    runs ([default_model_path]). *)

From Stdlib Require Import QArith Qminmax Lqa.
From S2P Require Import Prelude Unet Training Volume.

Module Session.
Import Unet Training Volume.

Local Open Scope Q_scope.

(** [os.path.join(MODELS_DIR, 'my_model.keras')] with
    [MODELS_DIR = os.getenv('MODELS_DIR')]. *)
Definition default_model_path (MODELS_DIR : option string) : result string string :=
  match MODELS_DIR with
  | None => Err "TypeError: expected str, bytes or os.PathLike object, not NoneType"
  | Some d => Ok (path_join d "my_model.keras")
  end.

Record session : Type := mk_session {
  net : Unet;
  compiled_cfg : option compiled;
  store : gmap string model
}.

Definition set_model (u : Unet) (m : model) : Unet :=
  mk_unet (img_size u) (num_classes u) (ker_init u) (dropout u) (learning_rate u) m.

Definition set_compiled (s : session) (c : compiled) : session :=
  mk_session (net s) (Some c) (store s).

(** [str.endswith]: some suffix of [s] is [suffix]. *)
Fixpoint ends_with (suffix s : string) : bool :=
  String.eqb s suffix || match s with EmptyString => false | String _ r => ends_with suffix r end.

Definition keras_file (p : string) : bool := ends_with ".keras" p.
Definition h5_file (p : string) : bool := ends_with ".h5" p || ends_with ".hdf5" p.

Definition save_extension_error : string :=
  "ValueError: Invalid filepath extension for saving. Please add either a `.keras` extension for the native Keras format (recommended) or a `.h5` extension.".

(** [model.save]: the native format for [.keras], the legacy HDF5
    format for [.h5] and [.hdf5], and [ValueError] otherwise. *)
Definition save_model (s : session) (file_path : string) : result string session :=
  if keras_file file_path || h5_file file_path
  then Ok (mk_session (net s) (compiled_cfg s) (<[file_path := unet_model (net s)]> (store s)))
  else Err save_extension_error.

Definition file_not_found (p : string) : string :=
  "ValueError: File not found: filepath=" +:+ p +:+
  ". Please ensure the file is an accessible `.keras` zip file.".

(** What [h5py.File(p, 'r')] raises on a missing file (the text is
    abbreviated). *)
Definition h5_not_found (p : string) : string :=
  "FileNotFoundError: Unable to open file (unable to open file: name = '" +:+ p +:+ "')".

Definition format_not_supported (p : string) : string :=
  "ValueError: File format not supported: filepath=" +:+ p +:+
  ". Keras 3 only supports V3 `.keras` files and legacy H5 format files (`.h5` extension).".

(** [load_model]: the default [custom_objects] maps ["accuracy"] to a
    [MeanIoU] of the object's class count. The model has no custom
    layers, and with [compile=False] its metrics are not rebuilt, so
    the dict does not change the result. [keras.models.load_model]
    reads a [.keras] zip, then a [.h5] or [.hdf5] file, and rejects
    any other name. *)
Definition load_model (s : session) (file_path : string)
    (custom_objects : option (list (string * metric))) : result string session :=
  let custom_objects :=
    match custom_objects with
    | None => [("accuracy", MeanIoU (num_classes (net s)))]
    | Some c => c
    end in
  let loaded m := Ok (mk_session (set_model (net s) m) None (store s)) in
  if keras_file file_path then
    match store s !! file_path with None => Err (file_not_found file_path) | Some m => loaded m end
  else if h5_file file_path then
    match store s !! file_path with None => Err (h5_not_found file_path) | Some m => loaded m end
  else Err (format_not_supported file_path).

Definition compile_model_s (s : session) (loss_ : string) : session :=
  set_compiled s (compile_model (net s) loss_).

Definition compile_and_load_weights_s (s : session) (weights_path : string) : session :=
  set_compiled s (compile_and_load_weights (net s) weights_path).1.

Definition evaluate_s (s : session) (keras_evaluate : compiled -> list Q)
    : session * list (string * Q) :=
  let '(c, lines) := evaluate (net s) keras_evaluate in (set_compiled s c, lines).

(** [train]: the arguments of [fit] first, then [fit] on the compiled
    model from the optimizer's current rate; the rate reached stays in
    the optimizer. *)
Definition train_s (s : session) (train_ids : option (list string)) (epochs : nat)
    (val_loss : nat -> Q) : result string (fit_state * session) :=
  match train_ids with
  | None => Err len_none_error
  | Some _ =>
      match compiled_cfg s with
      | None => Err not_compiled_error
      | Some c =>
          let st := fit_from (fit_init (adam_learning_rate c)) 0 (map val_loss (seq 0 epochs)) in
          Ok (st, set_compiled s (mk_compiled (loss c) (fs_lr st) (metrics c)))
      end
  end.

(** The methods a client calls, and the state after each. *)
Inductive method : Type :=
| MCompile (loss_ : string)
| MCompileLoad (weights_path : string)
| MSave (file_path : string)
| MLoad (file_path : string) (custom_objects : option (list (string * metric)))
| MEvaluate (keras_evaluate : compiled -> list Q)
| MTrain (train_ids : option (list string)) (epochs : nat) (val_loss : nat -> Q).

Definition call (s : session) (m : method) : result string session :=
  match m with
  | MCompile l => Ok (compile_model_s s l)
  | MCompileLoad w => Ok (compile_and_load_weights_s s w)
  | MSave p => save_model s p
  | MLoad p co => load_model s p co
  | MEvaluate ke => Ok (evaluate_s s ke).1
  | MTrain ids e vl => res_map snd (train_s s ids e vl)
  end.

(** The states a [Unet(...)] object goes through. *)
Inductive reachable : session -> Prop :=
| reachable_init n k ker drop lr u :
    Unet_init n k ker drop lr = Ok u -> reachable (mk_session u None ∅)
| reachable_call s m s' : reachable s -> call s m = Ok s' -> reachable s'.

(** What the compiled configuration satisfies: the optimizer's rate
    is at most the object's [learning_rate], and the metrics are one
    of the two lists the code compiles with. *)
Definition compiled_ok (s : session) : Prop :=
  forall c, compiled_cfg s = Some c ->
    adam_learning_rate c <= learning_rate (net s) /\
    (metrics c = compile_model_metrics \/ metrics c = evaluate_metrics (net s)).

(** ** Lemmas *)

Lemma set_model_same u : set_model u (unet_model u) = u.
Proof. by destruct u. Qed.

Lemma ends_with_app suffix x y : ends_with suffix y = true -> ends_with suffix (x +:+ y) = true.
Proof.
  intros Hy. induction x as [|c x IH]; [exact Hy|].
  change (String.eqb (String c (x +:+ y)) suffix || ends_with suffix (x +:+ y) = true).
  by rewrite IH, orb_true_r.
Qed.

(** The default argument of [save_model] and [load_model] is a [.keras]
    path, whatever [MODELS_DIR] is. *)
Lemma default_model_path_keras d q : default_model_path (Some d) = Ok q -> keras_file q = true.
Proof.
  intros [= <-]. unfold path_join, keras_file.
  assert (Hk : ends_with ".keras" "my_model.keras" = true) by reflexivity.
  repeat case_match; try exact Hk; apply ends_with_app; [exact Hk|].
  apply (ends_with_app _ "/"), Hk.
Qed.

(** [train] on the object is [Training.train] on [self.model]'s compile
    configuration; it also writes the rate reached back into the
    optimizer. *)
Lemma train_s_train s ids e vl : res_map fst (train_s s ids e vl) = train (compiled_cfg s) ids e vl.
Proof. unfold train_s, train. destruct ids; [|done]. by destruct (compiled_cfg s). Qed.

(** The rate at the end of a fit is at most the rate at its start. *)
Lemma fit_from_lr_le st e l : fs_lr (fit_from st e l) <= fs_lr st.
Proof.
  revert st e. induction l as [|v l IH]; intros st e; simpl; [lra|].
  eapply Qle_trans; [apply IH|]. rewrite fit_epoch_unfold. simpl.
  destruct (rl_on_epoch_end_lr (fs_rl st) (fs_lr st) v) as [-> | [Hlt ->]]; [lra|].
  apply Q.max_lub; lra.
Qed.

Lemma train_s_Ok s ids e vl st s' :
  train_s s ids e vl = Ok (st, s') ->
  exists c l, ids = Some l /\ compiled_cfg s = Some c /\
    st = fit_from (fit_init (adam_learning_rate c)) 0 (map vl (seq 0 e)) /\
    s' = set_compiled s (mk_compiled (loss c) (fs_lr st) (metrics c)).
Proof.
  unfold train_s. destruct ids as [l|]; [|discriminate].
  destruct (compiled_cfg s) as [c|]; [|discriminate]. intros [= <- <-]. eauto 10.
Qed.

Lemma call_compiled_ok s m s' : compiled_ok s -> call s m = Ok s' -> compiled_ok s'.
Proof.
  intros Hs. destruct m as [l|w|p|p co|ke|ids e vl]; simpl.
  - intros [= <-] c [= <-]. split; [simpl; lra | by left].
  - intros [= <-] c [= <-]. split; [simpl; lra | by left].
  - unfold save_model. case_match; [|discriminate]. intros [= <-]. exact Hs.
  - unfold load_model. repeat case_match; try discriminate; by intros [= <-] c.
  - unfold evaluate_s, evaluate. simpl. intros [= <-] c [= <-]. split; [simpl; lra | by right].
  - destruct (train_s s ids e vl) as [[st s1]|] eqn:E; [|discriminate]. intros [= <-].
    apply train_s_Ok in E as (c & l & _ & Hc & -> & ->). intros c' [= <-]. simpl.
    destruct (Hs c Hc) as [Hlr Hm]. split; [|done].
    eapply Qle_trans; [apply fit_from_lr_le | exact Hlr].
Qed.

(** ** Properties *)


(** C35: a model loaded with [load_model] cannot be trained: [fit]
    raises because [compile=False] dropped the compilation, until
    [compile_model] is called again (or [train_ids] is left at
    [None], whose [TypeError] comes first). *)
Theorem load_then_train_not_compiled s p co s' ids e vl :
  load_model s p co = Ok s' ->
  train_s s' (Some ids) e vl = Err not_compiled_error /\
  train_s s' None e vl = Err "TypeError: object of type 'NoneType' has no len()" /\
  is_ok (train_s (compile_model_s s' "categorical_crossentropy") (Some ids) e vl) = true.
Proof.
  unfold load_model. repeat case_match; try discriminate; intros [= <-]; done.
Qed.

(** On a freshly compiled model, [train] is [Training.train] from the
    object's [learning_rate]: same errors, same run. *)
Theorem train_after_compile s l ids e vl :
  res_map fst (train_s (compile_model_s s l) ids e vl) = train (Some (compile_model (net s) l)) ids e vl.
Proof. apply train_s_train. Qed.

(** C37: in every state the object reaches through its methods, a
    compiled model trains at a rate no higher than the object's
    [learning_rate], and was compiled with either [compile_model]'s
    metric list or [evaluate]'s. *)
Theorem reachable_compiled_ok s : reachable s -> compiled_ok s.
Proof.
  induction 1 as [n k ker drop lr u Hu | s m s' _ IH Hcall]; [by intros c|].
  by apply (call_compiled_ok s m s').
Qed.

(** C38: [train] does not reset the optimizer. A second call starts
    from the rate the first one ended with (lowered by
    ReduceLROnPlateau), not from [learning_rate]; only a new
    [compile_model] restores it. *)
Theorem train_twice_continues_rate s ids e vl st s1 ids' e' vl' st' s2 :
  train_s s ids e vl = Ok (st, s1) -> train_s s1 ids' e' vl' = Ok (st', s2) ->
  lr_history st' !! 0%nat = Some (fs_lr st).
Proof.
  intros H1 H2. apply train_s_Ok in H1 as (c & l & _ & _ & _ & ->).
  apply train_s_Ok in H2 as (c' & l' & _ & Hc & -> & _). simpl in Hc. injection Hc as <-.
  apply lr_history_head.
Qed.

(** ** Witnesses *)

Definition s_compiled : session :=
  compile_model_s (mk_session example_unet None ∅) "categorical_crossentropy".

Definition s_loaded : session :=
  mk_session example_unet None {[ "m.keras" := unet_model example_unet ]}.

Lemma load_then_train_not_compiled_witness :
  res_bind (save_model s_compiled "m.keras") (fun s1 => load_model s1 "m.keras" None) = Ok s_loaded /\
  train_s s_loaded (Some []) 20 plateau = Err not_compiled_error.
Proof.
  destruct (save_model s_compiled "m.keras") as [s1|e] eqn:Es; [|vm_compute in Es; discriminate Es].
  assert (H : load_model s1 "m.keras" None = Ok s_loaded).
  { vm_compute in Es. injection Es as <-. vm_compute. reflexivity. }
  split; [exact H|].
  exact (proj1 (load_then_train_not_compiled _ _ _ _ [] 20 plateau H)).
Defined.

Lemma reachable_compiled_ok_witness :
  match Unet_init 128 4 "he_normal" 0.2 0.001 with
  | Ok u => compiled_ok (compile_model_s (mk_session u None ∅) "categorical_crossentropy")
  | Err _ => False
  end.
Proof.
  destruct (Unet_init 128 4 "he_normal" 0.2 0.001) as [u|e] eqn:E.
  - apply reachable_compiled_ok.
    apply (reachable_call (mk_session u None ∅) (MCompile "categorical_crossentropy")); [|reflexivity].
    exact (reachable_init _ _ _ _ _ _ E).
  - vm_compute in E. discriminate E.
Defined.

(** After 20 epochs on the plateau the optimizer holds [1e-6], and a
    second [train] starts there. *)
Lemma train_twice_continues_rate_witness :
  match train_s s_compiled (Some []) 20 plateau with
  | Ok (st, s1) =>
      match train_s s1 (Some []) 5 plateau with
      | Ok (st', _) => lr_history st' !! 0%nat = Some (fs_lr st) /\ fs_lr st == 0.000001
      | Err _ => False
      end
  | Err _ => False
  end.
Proof.
  destruct (train_s s_compiled (Some []) 20 plateau) as [[st s1]|e] eqn:E1;
    [|vm_compute in E1; discriminate E1].
  destruct (train_s s1 (Some []) 5 plateau) as [[st' s2]|e] eqn:E2.
  - split; [exact (train_twice_continues_rate _ _ _ _ _ _ _ _ _ _ _ E1 E2)|].
    vm_compute in E1. injection E1 as <- <-. vm_compute. reflexivity.
  - vm_compute in E1. injection E1 as <- <-. vm_compute in E2. discriminate E2.
Defined.

End Session.
