(* ===== verification/Checkpoint.v ===== *)
(** What [Unet.train] of [src/project2/backend/app/model.py] leaves on
    disk: the checkpoint directory, the weight files of
    [ModelCheckpoint] and the log of [CSVLogger].

    [train] first creates [MODELS_DIR] when it does not exist, and only
    then evaluates [len(train_ids)], so a call that raises [TypeError]
    has already created the directory. [ModelCheckpoint] gets the path
    [os.path.join(MODELS_DIR, 'model_.{epoch:02d}-{val_loss:.6f}.weights.h5')],
    and at the end of every epoch Keras formats it with
    [str.format(epoch=epoch + 1, **logs)]. The join happens before the
    formatting, so the directory name is part of the format string.

    [format_go] is [str.format] as CPython scans a format string:
    doubled braces are literal braces, a field [{name}] or
    [{name:spec}] is replaced by the keyword argument [name] formatted
    with [spec], and the error cases raise. The formatting of one value
    is the [FormatSpec] interface, whose law is Python's [02d]. Fields
    naming attributes or items ([a.b], [a[0]]), conversions ([!r]) and
    replacement fields nested in a format spec are not modelled: the
    whole field name is the key, and a brace inside a field raises.

    [compile_and_load_weights] reads a weights file back, after the
    compilation has changed the object, and [plot_model] writes the
    drawing of the graph.

    [parse_checkpoint_epoch] reads the epoch back from a file name. The
    round trip (the epoch number written in a checkpoint name is read
    back) makes the names of different epochs different, so no
    checkpoint overwrites another. *)

From Stdlib Require Import QArith Qround Ascii.
From stdpp Require Import pretty.
From S2P Require Import Prelude Unet Training Volume Session.

Module Checkpoint.
Import Unet Training Volume Session.

(** ** Decimal digits *)

Fixpoint zeros (k : nat) : string :=
  match k with O => EmptyString | S k => String "0" (zeros k) end.

(** Zero padding of a non-negative integer to width [w]. *)
Definition zfill (w : nat) (s : string) : string := zeros (w - String.length s) +:+ s.

(** The leading digits of [s] read as a decimal number after [acc],
    and what follows them. *)
Fixpoint parse_digits (acc : N) (s : string) : N * string :=
  match s with
  | String c r =>
      match Ascii.is_nat c with
      | Some d => parse_digits (acc * 10 + N.of_nat d)%N r
      | None => (acc, s)
      end
  | EmptyString => (acc, s)
  end.

(** ** [str.format] *)

Inductive pyval : Type :=
| PyInt (n : nat)
| PyFloat (x : Q).

Inductive format_error : Type :=
| FmtKeyError (key : string)
| FmtIndexError (index : string)
| FmtValueError (msg : string).

(** [format(value, spec)] for the two kinds of values the callback
    passes. *)
Class FormatSpec := {
  format_int : nat -> string -> result format_error string;
  format_float : Q -> string -> result format_error string;
  format_int_02d n : format_int n "02d" = Ok (zfill 2 (pretty n));
  format_float_fixed x : is_ok (format_float x ".6f") = true
}.

(** Where the scanner is: in literal text, after a [{], after a [}],
    or inside a field. *)
Inductive scan : Type :=
| Lit
| Open
| Close
| Field (acc : string).

Fixpoint split_colon (s : string) : string * string :=
  match s with
  | EmptyString => (EmptyString, EmptyString)
  | String c r =>
      if Ascii.eqb c ":" then (EmptyString, r)
      else let '(a, b) := split_colon r in (String c a, b)
  end.

Definition all_digits (s : string) : bool :=
  match parse_digits 0 s with (_, EmptyString) => true | _ => false end.

Section Format.
Context `{FormatSpec}.

Definition format_value (v : pyval) (spec : string) : result format_error string :=
  match v with
  | PyInt n => format_int n spec
  | PyFloat x => format_float x spec
  end.

(** One replacement field: an empty or numeric name is a positional
    index, of which the call has none. *)
Definition format_field (kwargs : gmap string pyval) (field : string) : result format_error string :=
  let '(name, spec) := split_colon field in
  if String.eqb name "" then Err (FmtIndexError "0")
  else if all_digits name then Err (FmtIndexError name)
  else match kwargs !! name with
       | None => Err (FmtKeyError name)
       | Some v => format_value v spec
       end.

Fixpoint format_go (kwargs : gmap string pyval) (st : scan) (s : string)
    : result format_error string :=
  match s, st with
  | EmptyString, Lit => Ok EmptyString
  | EmptyString, Open => Err (FmtValueError "Single '{' encountered in format string")
  | EmptyString, Close => Err (FmtValueError "Single '}' encountered in format string")
  | EmptyString, Field _ => Err (FmtValueError "expected '}' before end of string")
  | String c r, Lit =>
      if Ascii.eqb c "{" then format_go kwargs Open r
      else if Ascii.eqb c "}" then format_go kwargs Close r
      else res_map (String c) (format_go kwargs Lit r)
  | String c r, Open =>
      if Ascii.eqb c "{" then res_map (String c) (format_go kwargs Lit r)
      else if Ascii.eqb c "}" then Err (FmtIndexError "0")
      else format_go kwargs (Field (String c EmptyString)) r
  | String c r, Close =>
      if Ascii.eqb c "}" then res_map (String c) (format_go kwargs Lit r)
      else Err (FmtValueError "Single '}' encountered in format string")
  | String c r, Field acc =>
      if Ascii.eqb c "}" then
        let* v := format_field kwargs acc in
        let* t := format_go kwargs Lit r in
        Ok (v +:+ t)
      else if Ascii.eqb c "{" then Err (FmtValueError "unexpected '{' in field name")
      else format_go kwargs (Field (acc +:+ String c EmptyString)) r
  end.

Definition str_format (s : string) (kwargs : gmap string pyval) : result format_error string :=
  format_go kwargs Lit s.

End Format.

(** ** The checkpoint callback *)

(** The [filepath] argument of [ModelCheckpoint]: the template joined
    to the directory, before any formatting. *)
Definition checkpoint_template (MODELS_DIR : string) : string :=
  path_join MODELS_DIR "model_.{epoch:02d}-{val_loss:.6f}.weights.h5".

(** How the exception of a failed [format] reads; Keras re-raises a
    [KeyError] with the file path. *)
Definition format_error_msg (filepath : string) (e : format_error) : string :=
  match e with
  | FmtKeyError k =>
      "KeyError: Failed to format this callback filepath: " +:+ filepath +:+ ". Reason: '" +:+ k +:+ "'"
  | FmtIndexError i => "IndexError: Replacement index " +:+ i +:+ " out of range for positional args tuple"
  | FmtValueError m => "ValueError: " +:+ m
  end.

(** ** Files *)

(** What a file holds: the weights saved at the end of an epoch
    (numbered from 1, as in the name), the rows of the CSV log, or the
    drawing of a model's graph. *)
Inductive artifact : Type :=
| WeightsOf (epoch : nat)
| CsvLog (rows : list (nat * Q * Q))
| ModelPlot (m : model) (show_shapes show_layer_names : bool).

Record disk : Type := mk_disk {
  dirs : gset string;
  files : gmap string artifact
}.

Definition write_file (dk : disk) (p : string) (a : artifact) : disk :=
  mk_disk (dirs dk) (<[p := a]> (files dk)).

(** [os.path.exists]: a directory or a file; the empty path does not
    exist. *)
Definition path_exists (dk : disk) (p : string) : bool :=
  bool_decide (p ∈ dirs dk) || bool_decide (is_Some (files dk !! p)).

(** [if not os.path.exists(d): os.makedirs(d)]. [os.makedirs('')]
    raises; the parents [os.makedirs] also creates are not tracked. *)
Definition ensure_dir (dk : disk) (d : string) : result string disk :=
  if path_exists dk d then Ok dk
  else if String.eqb d "" then Err "FileNotFoundError: [Errno 2] No such file or directory: ''"
  else Ok (mk_disk ({[d]} ∪ dirs dk) (files dk)).

Definition training_log : string := "training.log".

(** [Unet.plot_model]: Keras' [plot_model] draws the graph with pydot
    and Graphviz and writes it to [file_path]; without them installed
    it raises [ImportError] (outside a notebook). *)
Definition plot_model_fs (graphviz_installed : bool) (dk : disk) (s : session)
    (file_path : string) : result string disk :=
  if graphviz_installed
  then Ok (write_file dk file_path (ModelPlot (unet_model (net s)) true true))
  else Err "ImportError: You must install pydot (`pip install pydot`) for `plot_model` to work.".

(** [Unet.compile_and_load_weights] on disk: [model.compile], then
    [model.load_weights(weights_path)], which raises when the path is
    not a weights file, then the [print]. The compilation has already
    changed the object when [load_weights] raises, so the object comes
    back with the result. On success the result is the epoch whose
    weights were loaded and the printed line. *)
Definition compile_and_load_weights_fs (dk : disk) (s : session) (weights_path : string)
    : session * result string (nat * string) :=
  let '(c, line) := compile_and_load_weights (net s) weights_path in
  let s := set_compiled s c in
  match files dk !! weights_path with
  | Some (WeightsOf E) => (s, Ok (E, line))
  | _ => (s, Err ("OSError: Unable to open file (file name = " +:+ weights_path +:+ ")"))
  end.

Section Fit.
Context `{FormatSpec}.

(** [ModelCheckpoint._get_file_path]: [filepath.format(epoch=epoch + 1, **logs)]. *)
Definition ck_file_path (filepath : string) (epoch : nat) (logs : gmap string pyval)
    : result string string :=
  match str_format filepath (<["epoch" := PyInt (S epoch)]> logs) with
  | Ok p => Ok p
  | Err e => Err (format_error_msg filepath e)
  end.

(** The fit loop with the files it writes. At the end of each epoch
    the callbacks run in list order: ReduceLROnPlateau, then
    ModelCheckpoint, which formats its path (and raises if it cannot)
    and saves the weights when the loss improves, then CSVLogger, which
    writes the epoch's row. *)
Fixpoint fit_io (filepath : string) (dk : disk) (st : fit_state) (epoch : nat) (losses : list Q)
    : disk * result string fit_state :=
  match losses with
  | [] => (dk, Ok st)
  | v :: rest =>
      match ck_file_path filepath epoch {[ "val_loss" := PyFloat v ]} with
      | Err e => (dk, Err e)
      | Ok p =>
          let st' := fit_epoch st epoch v in
          let dk := if ck_better (fs_ck st) v then write_file dk p (WeightsOf (S epoch)) else dk in
          let dk := write_file dk training_log (CsvLog (fs_csv st')) in
          fit_io filepath dk st' (S epoch) rest
      end
  end.

(** [Unet.train] with its effects on disk, in program order: the
    directory, then [len(train_ids)], then [fit], which raises before
    any callback on an uncompiled model, then opens the log with
    [append=False] and runs the epochs. [K.clear_session()] resets
    Keras' global state, which nothing here depends on. An exception
    returns the disk as it is when it is raised. *)
Definition train_fs (MODELS_DIR : string) (dk : disk) (s : session)
    (train_ids : option (list string)) (epochs : nat) (val_loss : nat -> Q)
    : disk * result string (fit_state * session) :=
  match ensure_dir dk MODELS_DIR with
  | Err e => (dk, Err e)
  | Ok dk =>
      match train_ids with
      | None => (dk, Err len_none_error)
      | Some _ =>
          match compiled_cfg s with
          | None => (dk, Err not_compiled_error)
          | Some c =>
              let dk := write_file dk training_log (CsvLog []) in
              match fit_io (checkpoint_template MODELS_DIR) dk (fit_init (adam_learning_rate c)) 0
                      (map val_loss (seq 0 epochs)) with
              | (dk, Err e) => (dk, Err e)
              | (dk, Ok st) => (dk, Ok (st, set_compiled s (mk_compiled (loss c) (fs_lr st) (metrics c))))
              end
          end
      end
  end.

End Fit.

(** Reading a checkpoint name back: the digits after [model_.] up to
    the dash. *)
Fixpoint strip_prefix (p s : string) : option string :=
  match p, s with
  | EmptyString, _ => Some s
  | String c p', String d s' => if Ascii.eqb c d then strip_prefix p' s' else None
  | String _ _, EmptyString => None
  end.

Definition parse_checkpoint_epoch (MODELS_DIR name : string) : option nat :=
  match strip_prefix (path_join MODELS_DIR "model_.") name with
  | None => None
  | Some r =>
      match parse_digits 0 r with
      | (n, String "-" _) => Some (N.to_nat n)
      | _ => None
      end
  end.

(** ** Lemmas on digits *)

Lemma is_nat_char x : (x < 10)%N -> Ascii.is_nat (pretty_N_char x) = Some (N.to_nat x).
Proof.
  intros Hx.
  assert (x = 0 \/ x = 1 \/ x = 2 \/ x = 3 \/ x = 4 \/ x = 5 \/ x = 6 \/ x = 7 \/ x = 8 \/ x = 9)%N
    as Hc by lia.
  destruct_or! Hc; by subst.
Qed.

Lemma pretty_N_go_app x s t : pretty_N_go x s +:+ t = pretty_N_go x (s +:+ t).
Proof.
  revert s. induction (N.lt_wf_0 x) as [x _ IH]; intros s.
  destruct (decide (x = 0%N)) as [->|Hx]; [by rewrite !pretty_N_go_0|].
  rewrite !(pretty_N_go_step x) by lia. rewrite IH by (apply N.div_lt; lia). reflexivity.
Qed.

(** Reading back the digits [pretty_N_go] writes. *)
Lemma parse_digits_pretty_go x s : parse_digits 0 (pretty_N_go x s) = parse_digits x s.
Proof.
  revert s. induction (N.lt_wf_0 x) as [x _ IH]; intros s.
  destruct (decide (x = 0%N)) as [->|Hx]; [by rewrite pretty_N_go_0|].
  rewrite pretty_N_go_step by lia. rewrite IH by (apply N.div_lt; lia).
  simpl. rewrite is_nat_char by (apply N.mod_lt; lia). rewrite N2Nat.id.
  f_equal. rewrite (N.div_mod x 10) at 3 by lia. lia.
Qed.

Lemma parse_digits_zeros k s : parse_digits 0 (zeros k +:+ s) = parse_digits 0 s.
Proof. induction k as [|k IH]; [done|]. exact IH. Qed.

Lemma parse_digits_pretty n s : parse_digits 0 (pretty n +:+ s) = parse_digits (N.of_nat n) s.
Proof.
  unfold pretty, pretty_nat, pretty, pretty_N. case_decide as Hn.
  - rewrite Hn. reflexivity.
  - rewrite pretty_N_go_app. apply parse_digits_pretty_go.
Qed.

(** The [02d] rendering of a number reads back as that number. *)
Lemma parse_digits_zfill n s :
  parse_digits 0 (zfill 2 (pretty n) +:+ s) = parse_digits (N.of_nat n) s.
Proof. unfold zfill. rewrite <- string_app_assoc, parse_digits_zeros. apply parse_digits_pretty. Qed.

Lemma strip_prefix_app p s : strip_prefix p (p +:+ s) = Some s.
Proof. induction p as [|c p IH]; simpl; [done|]. by rewrite Ascii.eqb_refl. Qed.

(** ** Formatting the checkpoint path *)

(** The name [ModelCheckpoint] gives the weights of epoch [E]
    (numbered from 1) when [val_loss] reads [f] with [.6f]. *)
Definition checkpoint_name (MODELS_DIR : string) (E : nat) (f : string) : string :=
  path_join MODELS_DIR "model_." +:+ (zfill 2 (pretty E) +:+ "-" +:+ f +:+ ".weights.h5").

(** No brace: [str.format] copies the text. *)
Fixpoint no_braces (s : string) : bool :=
  match s with
  | EmptyString => true
  | String c r => negb (Ascii.eqb c "{") && negb (Ascii.eqb c "}") && no_braces r
  end.

Section FormatLemmas.
Context `{FormatSpec}.
Local Arguments String.append : simpl nomatch.

Lemma format_go_lit kw l r :
  no_braces l = true -> format_go kw Lit (l +:+ r) = res_map (String.append l) (format_go kw Lit r).
Proof.
  induction l as [|c l IH]; intros Hl.
  - change ("" +:+ r) with r. by destruct (format_go kw Lit r).
  - change (String c l +:+ r) with (String c (l +:+ r)). simpl in Hl |- *.
    apply andb_prop in Hl as [[Ho Hc]%andb_prop Hl]. apply negb_true_iff in Ho, Hc.
    rewrite Ho, Hc, IH by done. by destruct (format_go kw Lit r).
Qed.

Lemma format_template kw n v :
  kw !! "epoch" = Some (PyInt n) -> kw !! "val_loss" = Some (PyFloat v) ->
  format_go kw Lit "{epoch:02d}-{val_loss:.6f}.weights.h5" =
    (let* a := format_int n "02d" in
     let* b := format_float v ".6f" in
     Ok (a +:+ "-" +:+ b +:+ ".weights.h5")).
Proof.
  intros He Hv.
  assert (H1 : format_field kw "epoch:02d" = format_int n "02d") by (unfold format_field; simpl; by rewrite He).
  assert (H2 : format_field kw "val_loss:.6f" = format_float v ".6f")
    by (unfold format_field; simpl; by rewrite Hv).
  simpl. rewrite H1, H2.
  destruct (format_int n "02d"), (format_float v ".6f"); reflexivity.
Qed.

Lemma no_braces_app a b : no_braces (a +:+ b) = no_braces a && no_braces b.
Proof. induction a as [|c a IH]; [done|]. simpl. rewrite IH. by rewrite !andb_assoc. Qed.

Lemma no_braces_path_join d x : no_braces d = true -> no_braces x = true -> no_braces (path_join d x) = true.
Proof.
  intros Hd Hx. unfold path_join. repeat case_match; rewrite ?no_braces_app, ?Hd, ?Hx; done.
Qed.

(** With a directory name without braces, the path of the weights of
    epoch [e] is [checkpoint_name] with [epoch + 1]. *)
Lemma ck_file_path_ok d e v f :
  no_braces d = true -> format_float v ".6f" = Ok f ->
  ck_file_path (checkpoint_template d) e {[ "val_loss" := PyFloat v ]} = Ok (checkpoint_name d (S e) f).
Proof.
  intros Hd Hf. unfold ck_file_path, checkpoint_template, str_format.
  change "model_.{epoch:02d}-{val_loss:.6f}.weights.h5"
    with ("model_." +:+ "{epoch:02d}-{val_loss:.6f}.weights.h5").
  rewrite path_join_app by done.
  rewrite format_go_lit by (apply no_braces_path_join; done).
  rewrite (format_template _ (S e) v) by (by simplify_map_eq).
  by rewrite format_int_02d, Hf.
Qed.

End FormatLemmas.

(** ** The epoch round trip *)

(** The epoch written in a checkpoint name reads back. *)
Lemma parse_checkpoint_name d E f : parse_checkpoint_epoch d (checkpoint_name d E f) = Some E.
Proof.
  unfold parse_checkpoint_epoch, checkpoint_name. rewrite strip_prefix_app, parse_digits_zfill.
  change ("-" +:+ f +:+ ".weights.h5") with (String "-" (f +:+ ".weights.h5")). simpl.
  by rewrite Nat2N.id.
Qed.

Lemma checkpoint_name_inj d E E' f f' : checkpoint_name d E f = checkpoint_name d E' f' -> E = E'.
Proof.
  intros Heq. pose proof (parse_checkpoint_name d E f) as H1.
  rewrite Heq, parse_checkpoint_name in H1. congruence.
Qed.

(** A checkpoint is never the training log: its name ends with
    [.weights.h5]. *)
Lemma checkpoint_name_not_log d E f : checkpoint_name d E f <> training_log.
Proof.
  unfold checkpoint_name, training_log. rewrite !string_app_assoc.
  match goal with |- ?x +:+ ".weights.h5" <> _ => generalize x end.
  intros x Hx. destruct x as [|c [|c' x]]; [discriminate Hx | discriminate Hx |].
  apply (f_equal String.length) in Hx. rewrite string_length_app in Hx. simpl in Hx. lia.
Qed.

(** ** The fit loop on disk *)

Section FitLemmas.
Context `{FormatSpec}.

(** The [.6f] rendering of a loss; Python's float formatting with a
    fixed precision never fails. *)
Definition fmt6 (x : Q) : string :=
  match format_float x ".6f" with Ok s => s | Err _ => EmptyString end.

Lemma format_float_fmt6 x : format_float x ".6f" = Ok (fmt6 x).
Proof.
  unfold fmt6. pose proof (format_float_fixed x) as Hx.
  destruct (format_float x ".6f"); [done | discriminate].
Qed.

Lemma ck_saved_fit_epoch st e v :
  ck_saved (fs_ck (fit_epoch st e v)) =
  if ck_better (fs_ck st) v then ck_saved (fs_ck st) ++ [(S e, v)] else ck_saved (fs_ck st).
Proof. rewrite fit_epoch_unfold. simpl. unfold ck_on_epoch_end. by destruct (ck_better _ _). Qed.

(** The checkpoint written at the end of epoch [e] is not overwritten
    later, and nothing else is touched but the log. *)
Lemma fit_io_files d dk st e l :
  no_braces d = true ->
  (fit_io (checkpoint_template d) dk st e l).2 = Ok (fit_from st e l) /\
  (forall E v, In (E, v) (ck_saved (fs_ck (fit_from st e l))) ->
     In (E, v) (ck_saved (fs_ck st)) \/
     files (fit_io (checkpoint_template d) dk st e l).1 !! checkpoint_name d E (fmt6 v) = Some (WeightsOf E)) /\
  (forall p, p <> training_log -> (forall E, parse_checkpoint_epoch d p = Some E -> (E <= e)%nat) ->
     files (fit_io (checkpoint_template d) dk st e l).1 !! p = files dk !! p) /\
  (l <> [] -> files (fit_io (checkpoint_template d) dk st e l).1 !! training_log =
               Some (CsvLog (fs_csv (fit_from st e l)))) /\
  dirs (fit_io (checkpoint_template d) dk st e l).1 = dirs dk.
Proof.
  intros Hd. revert dk st e. induction l as [|v l IH]; intros dk st e.
  - simpl. split; [done|]. split; [by left|]. split; [done|]. split; [done | done].
  - cbn [fit_io fit_from]. rewrite (ck_file_path_ok d e v (fmt6 v) Hd (format_float_fmt6 v)).
    set (p := checkpoint_name d (S e) (fmt6 v)).
    set (dk1 := if ck_better (fs_ck st) v then write_file dk p (WeightsOf (S e)) else dk).
    set (dk2 := write_file dk1 training_log (CsvLog (fs_csv (fit_epoch st e v)))).
    destruct (IH dk2 (fit_epoch st e v) (S e)) as (Hres & Hsaved & Hframe & Hlog & Hdirs).
    assert (Hp : p <> training_log) by apply checkpoint_name_not_log.
    assert (Hdk1 : forall q, q <> p -> files dk1 !! q = files dk !! q).
    { intros q Hq. subst dk1. destruct (ck_better _ _); [|done]. simpl. by rewrite lookup_insert_ne. }
    split; [exact Hres|]. split; [|split; [|split]].
    + intros E w Hin. destruct (Hsaved E w Hin) as [Hst | Hw]; [|by right].
      rewrite ck_saved_fit_epoch in Hst. destruct (ck_better (fs_ck st) v) eqn:Hb; [|by left].
      apply in_app_or in Hst as [Hst | [[= <- <-] | []]]; [by left|]. right.
      rewrite Hframe; [| done | intros E' HE'; rewrite parse_checkpoint_name in HE'; injection HE'; lia].
      subst dk2 dk1. simpl. rewrite lookup_insert_ne by done. simpl. by rewrite lookup_insert_eq.
    + intros q Hq Hpe. rewrite Hframe by (done || (intros E' HE'; specialize (Hpe E' HE'); lia)).
      subst dk2. simpl. rewrite lookup_insert_ne by done. apply Hdk1.
      intros ->. specialize (Hpe (S e) (parse_checkpoint_name _ _ _)). lia.
    + intros _. destruct l as [|w l].
      * simpl. subst dk2. simpl. by rewrite lookup_insert_eq.
      * by apply Hlog.
    + rewrite Hdirs. subst dk2 dk1. simpl. by destruct (ck_better _ _).
Qed.

Lemma fit_io_mono d dk st e l p :
  is_Some (files dk !! p) -> is_Some (files (fit_io (checkpoint_template d) dk st e l).1 !! p).
Proof.
  revert dk st e. induction l as [|v l IH]; intros dk st e Hp; simpl; [done|].
  destruct (ck_file_path _ _ _) as [q|]; [|done]. apply IH. simpl.
  destruct (decide (p = training_log)) as [->|Hne]; [by rewrite lookup_insert_eq|].
  rewrite lookup_insert_ne by done. destruct (ck_better _ _); [|done]. simpl.
  destruct (decide (p = q)) as [->|Hne']; [by rewrite lookup_insert_eq | by rewrite lookup_insert_ne].
Qed.

Lemma ensure_dir_Ok dk d dk' : ensure_dir dk d = Ok dk' -> path_exists dk' d = true /\ files dk' = files dk.
Proof.
  unfold ensure_dir. destruct (path_exists dk d) eqn:E; [by intros [= <-]|].
  destruct (String.eqb d "") ; [discriminate|]. intros [= <-]. split; [|done].
  unfold path_exists. simpl. rewrite bool_decide_true; [done | set_solver].
Qed.

End FitLemmas.

(** ** [train] on disk *)

Section TrainLemmas.
Context `{FormatSpec}.

Lemma path_exists_mono dk dk' d :
  dirs dk' = dirs dk -> (forall p, is_Some (files dk !! p) -> is_Some (files dk' !! p)) ->
  path_exists dk d = true -> path_exists dk' d = true.
Proof.
  unfold path_exists. intros Hd Hf. rewrite Hd. rewrite !orb_true_iff, !bool_decide_eq_true.
  intros [?|?]; auto.
Qed.

(** [train] on disk returns what the object-level [train] returns,
    whenever the directory name has no brace and can be created. *)
Lemma train_fs_result d dk s ids e vl :
  no_braces d = true -> (path_exists dk d = true \/ d <> "") ->
  (train_fs d dk s ids e vl).2 = train_s s ids e vl.
Proof.
  intros Hd Hex. unfold train_fs, train_s.
  destruct (ensure_dir dk d) as [dk1|err] eqn:Edir.
  2:{ exfalso. unfold ensure_dir in Edir. destruct (path_exists dk d); [discriminate|].
      destruct Hex as [?|Hne]; [discriminate|]. apply String.eqb_neq in Hne. by rewrite Hne in Edir. }
  destruct ids as [l|]; [|done]. destruct (compiled_cfg s) as [c|]; [|done].
  match goal with |- context [fit_io ?fp ?dk ?st ?e ?ls] =>
    destruct (fit_io_files d dk st e ls Hd) as [Hres _]; destruct (fit_io fp dk st e ls) as [dk2 r] end.
  simpl in Hres. by subst r.
Qed.

(** The order of [train]: the directory is created before
    [len(train_ids)] raises. *)
Lemma train_fs_creates_dir_before_TypeError d dk s e vl :
  d <> "" ->
  exists dk', train_fs d dk s None e vl = (dk', Err "TypeError: object of type 'NoneType' has no len()") /\
    path_exists dk' d = true.
Proof.
  intros Hd. unfold train_fs. destruct (ensure_dir dk d) as [dk1|err] eqn:E.
  - exists dk1. split; [done|]. by apply ensure_dir_Ok in E as [? _].
  - unfold ensure_dir in E. destruct (path_exists dk d); [discriminate|].
    apply String.eqb_neq in Hd. by rewrite Hd in E.
Qed.

(** An empty [MODELS_DIR] that does not exist makes [train] raise
    [FileNotFoundError] from [os.makedirs('')], before anything else. *)
Lemma train_fs_empty_dir dk s ids e vl :
  path_exists dk "" = false ->
  train_fs "" dk s ids e vl = (dk, Err "FileNotFoundError: [Errno 2] No such file or directory: ''").
Proof. intros Hex. unfold train_fs, ensure_dir. by rewrite Hex. Qed.

(** What [train] leaves on disk when it returns: the directory, the
    log, and every saved checkpoint under its own name. *)
Lemma train_fs_checkpoints_spec d dk s ids e vl dk' st s' :
  no_braces d = true ->
  train_fs d dk s ids e vl = (dk', Ok (st, s')) ->
  path_exists dk' d = true /\
  files dk' !! training_log = Some (CsvLog (fs_csv st)) /\
  forall E v, In (E, v) (ck_saved (fs_ck st)) ->
    files dk' !! checkpoint_name d E (fmt6 v) = Some (WeightsOf E) /\
    parse_checkpoint_epoch d (checkpoint_name d E (fmt6 v)) = Some E.
Proof.
  intros Hd. unfold train_fs.
  destruct (ensure_dir dk d) as [dk1|err] eqn:Edir; [|discriminate].
  destruct ids as [l|]; [|discriminate]. destruct (compiled_cfg s) as [c|]; [|discriminate].
  set (dk2 := write_file dk1 training_log (CsvLog [])).
  set (ls := map vl (seq 0 e)).
  destruct (fit_io_files d dk2 (fit_init (adam_learning_rate c)) 0 ls Hd)
    as (Hres & Hsaved & _ & Hlog & Hdirs).
  pose proof (fun p => fit_io_mono d dk2 (fit_init (adam_learning_rate c)) 0 ls p) as Hmono.
  assert (Hnil : ls = [] -> (fit_io (checkpoint_template d) dk2 (fit_init (adam_learning_rate c)) 0 ls).1 = dk2)
    by (intros ->; reflexivity).
  destruct (fit_io (checkpoint_template d) dk2 (fit_init (adam_learning_rate c)) 0 ls) as [dk3 r].
  simpl in Hres, Hsaved, Hlog, Hdirs, Hmono, Hnil. subst r. intros [= <- <- _].
  apply ensure_dir_Ok in Edir as [Hex Hfiles]. split; [|split].
  - apply (path_exists_mono dk1); [exact Hdirs|..|exact Hex].
    intros p Hp. apply Hmono. subst dk2. simpl.
    destruct (decide (p = training_log)) as [->|?]; [by rewrite lookup_insert_eq | by rewrite lookup_insert_ne].
  - destruct ls as [|w ls'] eqn:Els; [|by apply Hlog].
    rewrite Hnil by done. subst dk2. simpl. by rewrite lookup_insert_eq.
  - intros E v Hin. destruct (Hsaved E v Hin) as [[] | Hw]. split; [exact Hw | apply parse_checkpoint_name].
Qed.

End TrainLemmas.

(** ** Loading a checkpoint back *)

Section Loading.
Context `{FormatSpec}.

(** Whatever the file, [compile_and_load_weights] leaves the object
    compiled as [compile_model] would with the categorical
    cross-entropy loss: the compilation runs before [load_weights]. *)
Lemma compile_and_load_weights_fs_compiles dk s w :
  (compile_and_load_weights_fs dk s w).1 = compile_model_s s "categorical_crossentropy".
Proof.
  unfold compile_and_load_weights_fs, compile_and_load_weights. simpl.
  by destruct (files dk !! w) as [[]|].
Qed.

(** C36: what [train] leaves on disk, and loading it back. When
    [train] returns, [MODELS_DIR] exists, the CSV log holds one row per
    epoch, and the weights of every epoch [ModelCheckpoint] saved are in
    [MODELS_DIR] under the name it formats from [epoch + 1] and the
    loss. That name reads back as the epoch, so different epochs get
    different files and no checkpoint overwrites another, and
    [compile_and_load_weights] on it loads the weights of that epoch.
    The directory name is assumed free of braces, which [str.format]
    would read as fields. *)
Theorem train_fs_checkpoints d dk s ids e vl dk' st s' :
  no_braces d = true ->
  train_fs d dk s ids e vl = (dk', Ok (st, s')) ->
  path_exists dk' d = true /\
  files dk' !! training_log = Some (CsvLog (fs_csv st)) /\
  forall E v, In (E, v) (ck_saved (fs_ck st)) ->
    parse_checkpoint_epoch d (checkpoint_name d E (fmt6 v)) = Some E /\
    forall s2, (compile_and_load_weights_fs dk' s2 (checkpoint_name d E (fmt6 v))).2 =
      Ok (E, "Loaded weights from " +:+ checkpoint_name d E (fmt6 v)).
Proof.
  intros Hd Ht. destruct (train_fs_checkpoints_spec d dk s ids e vl dk' st s' Hd Ht) as (Hex & Hlog & Hck).
  split; [exact Hex | split; [exact Hlog|]]. intros E v Hin.
  destruct (Hck E v Hin) as [Hf Hp]. split; [exact Hp|].
  intros s2. unfold compile_and_load_weights_fs. simpl. by rewrite Hf.
Qed.

End Loading.

(** ** Witnesses *)

(** A stand-in for Python's formatting of one value: integers in
    decimal, padded by [02d]; [.6f] rounds to six decimals (half up). *)
Definition fixed6 (x : Q) : string :=
  let digits (y : Q) :=
    let s := zfill 7 (pretty (Z.to_nat (Qfloor (y * 1000000 + (1 # 2))%Q))) in
    String.substring 0 (String.length s - 6) s +:+ "." +:+ String.substring (String.length s - 6) 6 s in
  if Qle_bool 0 x then digits x else "-" +:+ digits (- x)%Q.

#[export] Program Instance py_format_spec : FormatSpec := {|
  format_int n spec :=
    if String.eqb spec "02d" then Ok (zfill 2 (pretty n))
    else if String.eqb spec "" then Ok (pretty n)
    else Err (FmtValueError "Invalid format specifier");
  format_float x spec :=
    if String.eqb spec ".6f" then Ok (fixed6 x) else Err (FmtValueError "Invalid format specifier")
|}.
Next Obligation. reflexivity. Qed.
Next Obligation. reflexivity. Qed.

Definition empty_disk : disk := mk_disk ∅ ∅.

(** Twenty epochs of the plateau run: the loss improves at epochs 1
    and 2 (numbered from 1), and the weights of epoch 2 are in
    [/models/model_.02-0.500000.weights.h5]. *)
Lemma train_fs_checkpoints_witness :
  match train_fs "/models" empty_disk s_compiled (Some []) 20 plateau with
  | (dk', Ok (st, _)) =>
      checkpoint_name "/models" 2 (fmt6 0.5%Q) = "/models/model_.02-0.500000.weights.h5" /\
      (compile_and_load_weights_fs dk' s_compiled "/models/model_.02-0.500000.weights.h5").2 =
        Ok (2%nat, "Loaded weights from /models/model_.02-0.500000.weights.h5")
  | _ => False
  end.
Proof.
  assert (Hname : checkpoint_name "/models" 2 (fmt6 0.5%Q) = "/models/model_.02-0.500000.weights.h5")
    by (vm_compute; reflexivity).
  destruct (train_fs "/models" empty_disk s_compiled (Some []) 20 plateau) as [dk' [[st s']|err]] eqn:E.
  - pose proof (f_equal snd E) as E2. rewrite train_fs_result in E2 by (reflexivity || (right; discriminate)).
    vm_compute in E2. injection E2 as Est _.
    assert (Hin : In (2%nat, 0.5%Q) (ck_saved (fs_ck st))) by (rewrite <- Est; vm_compute; right; left; reflexivity).
    split; [exact Hname|]. rewrite <- Hname.
    exact (proj2 (proj2 (proj2 (train_fs_checkpoints "/models" empty_disk s_compiled (Some []) 20 plateau
      dk' st s' eq_refl E)) 2 0.5%Q Hin) s_compiled).
  - pose proof (f_equal snd E) as E2. rewrite train_fs_result in E2 by (reflexivity || (right; discriminate)).
    vm_compute in E2. discriminate E2.
Defined.

End Checkpoint.
