(* ===== verification/Config.v ===== *)
(** The configuration both applications read from the environment
    when their modules are imported, and what the service does when
    [SECRET_KEY] is not set.

    [load_dotenv()] copies the variables of [.env] into [os.environ],
    keeping the ones the process already has ([override=False]), and
    [os.getenv] then reads them.
    - [controller.py] reads [SECRET_KEY]. Nothing checks it: when it is
      unset, [SECRET_KEY] is [None] and the module imports fine.
    - [model.py] reads [MODELS_DIR] and [DATASET_BASE_PATH] (into
      [TRAIN_DATASET_PATH]). The class body then evaluates the default
      arguments of [save_model] and [load_model],
      [os.path.join(MODELS_DIR, 'my_model.keras')], so the import raises
      [TypeError] when [MODELS_DIR] is unset.

    With [SECRET_KEY = None], [jwt.encode] raises [TypeError] when it
    prepares the HMAC key. [jwt.decode] first parses the token, which
    raises [DecodeError] (a [PyJWTError], caught: 401) on a malformed
    token, then raises the same [TypeError] on a well-formed one. A
    [TypeError] is not an [HTTPException]: it escapes the route, and
    Starlette answers 500. [app_opt] is the route table of [Api.app]
    with the key as [os.getenv] returns it; with a key set it is
    [Api.app]. *)

From S2P Require Import Prelude Jwt Auth Api Session.

Module Config.
Import Jwt Auth Api Session.

Local Open Scope Z_scope.

(** ** The environment *)

Abbreviation environ := (gmap string string).

(** [load_dotenv()]: the process environment wins over [.env]. *)
Definition load_dotenv (env dotenv : environ) : environ := env ∪ dotenv.

Definition getenv (env : environ) (k : string) : option string := env !! k.

(** [controller.py], lines 21-23. *)
Definition controller_SECRET_KEY (env dotenv : environ) : option string :=
  getenv (load_dotenv env dotenv) "SECRET_KEY".

Record model_config : Type := mk_model_config {
  MODELS_DIR : option string;
  TRAIN_DATASET_PATH : option string;
  save_model_default : string;
  load_model_default : string
}.

(** [model.py] at import: [load_dotenv()], the two [os.getenv] calls,
    then the class body with the default arguments of [save_model]
    and [load_model]. *)
Definition import_model_module (env dotenv : environ) : result string model_config :=
  let env := load_dotenv env dotenv in
  let MODELS_DIR := getenv env "MODELS_DIR" in
  let TRAIN_DATASET_PATH := getenv env "DATASET_BASE_PATH" in
  let* save_default := default_model_path MODELS_DIR in
  let* load_default := default_model_path MODELS_DIR in
  Ok (mk_model_config MODELS_DIR TRAIN_DATASET_PATH save_default load_default).

(** ** The routes with the key [os.getenv] returned *)

(** An exception leaving a route: an [HTTPException], or any other
    exception, which the server turns into a 500. *)
Inductive exc : Type :=
| HTTPExc (e : http_exception)
| Uncaught (msg : string).

Definition lift_http {A} (r : result http_exception A) : result exc A :=
  match r with Ok a => Ok a | Err e => Err (HTTPExc e) end.

(** PyJWT's [force_bytes(None)]. *)
Definition key_type_error : string := "TypeError: Expected a string value".

Definition to_response_opt (r : result exc jval) : response :=
  match r with
  | Ok b => to_response (Ok b)
  | Err (HTTPExc e) => to_response (Err e)
  | Err (Uncaught _) => mk_response 500 (JStr "Internal Server Error") []
  end.

Section Unset.
Context `{CryptContext} `{JwtCodec} `{ImageBackend}.
Variable SECRET_KEY : option string.

(** [create_access_token]: the payload updates cannot raise, and
    [jwt.encode] raises on a [None] key. *)
Definition create_access_token_opt (now : Z) (data : payload) (role_ : string)
    (expires_delta : option Z) : result exc string :=
  match SECRET_KEY with
  | Some k => Ok (create_access_token k now data role_ expires_delta)
  | None => Err (Uncaught key_type_error)
  end.

(** [decode_token]: only [PyJWTError] is caught. *)
Definition decode_token_opt (now : Z) (token : string) : result exc payload :=
  match SECRET_KEY with
  | Some k => lift_http (decode_token k now token)
  | None => if jwt_header_ok token then Err (Uncaught key_type_error) else Err (HTTPExc invalid_token)
  end.

Definition login_opt (now : Z) (form_username form_password : string) : result exc jval :=
  match authenticate_user form_username form_password with
  | None => Err (HTTPExc incorrect_credentials)
  | Some user =>
      let access_token_expires := timedelta_minutes ACCESS_TOKEN_EXPIRE_MINUTES in
      let* access_token := create_access_token_opt now
          {[ "sub" := ClStr (username user) ]} (role user) (Some access_token_expires) in
      Ok (JObj [("access_token", JStr access_token); ("token_type", JStr "bearer")])
  end.

Definition generate_report_opt (now : Z) (file : list Byte.byte) (indication : option string)
    (token : string) : result exc jval :=
  let* payload := decode_token_opt now token in
  let username := payload !! "sub" in
  Ok (match res_bind (image_open file) (fun image => blip_generate_report image indication) with
      | Ok report => JObj [("report", JStr report); ("radiologist_name", users_db_get_json username)]
      | Err e => JObj [("error", JStr e)]
      end).

Definition show_drift_opt (now : Z) (token : string) : result exc jval :=
  let* payload := decode_token_opt now token in
  let role := payload !! "role" in
  if bool_decide (role <> Some (ClStr "admin")) then Err (HTTPExc not_enough_permissions)
  else Ok (JObj [("Only Admin", JStr "Welcome to MLOPS DATA drift")]).

Definition app_opt (now : Z) (req : request) : result exc jval :=
  match req with
  | GetRoot => Ok get_hello
  | PostToken u pw => login_opt now u pw
  | PostGenerateReport a f ind =>
      let* token := lift_http (oauth2_scheme a) in generate_report_opt now f ind token
  | GetShowDrift a => let* token := lift_http (oauth2_scheme a) in show_drift_opt now token
  | PostVqa a q f => let* token := lift_http (oauth2_scheme a) in lift_http (question_image q f token)
  end.

End Unset.

(** ** Lemmas *)

(** Both modules call [load_dotenv()]; the second call changes nothing. *)
Lemma load_dotenv_idemp env dotenv :
  load_dotenv (load_dotenv env dotenv) dotenv = load_dotenv env dotenv.
Proof. unfold load_dotenv. by rewrite <- map_union_assoc, map_union_idemp. Qed.

(** [model.py] imports exactly when [MODELS_DIR] is set, in the
    process environment or in [.env]. *)
Lemma import_model_module_ok env dotenv :
  is_ok (import_model_module env dotenv) = bool_decide (is_Some (getenv (load_dotenv env dotenv) "MODELS_DIR")).
Proof.
  unfold import_model_module. cbv zeta.
  destruct (getenv (load_dotenv env dotenv) "MODELS_DIR"); reflexivity.
Qed.

Section UnsetLemmas.
Context `{CryptContext} `{JwtCodec} `{ImageBackend}.

(** With a key set, the routes are those of [Api.app]. *)
Lemma app_opt_Some k now req : app_opt (Some k) now req = lift_http (app k now req).
Proof.
  destruct req as [|u pw|a f ind|a|a q f]; simpl.
  - reflexivity.
  - unfold login_opt, login. by destruct (authenticate_user u pw).
  - destruct (oauth2_scheme a); simpl; [|done]. unfold generate_report_opt, generate_report.
    simpl. by destruct (decode_token k now _).
  - destruct (oauth2_scheme a); simpl; [|done]. unfold show_drift_opt, show_drift.
    simpl. destruct (decode_token k now _); simpl; [|done]. by case_bool_decide.
  - by destruct (oauth2_scheme a).
Qed.

Lemma decode_token_None now tok :
  decode_token_opt None now tok =
  if jwt_header_ok tok then Err (Uncaught key_type_error) else Err (HTTPExc invalid_token).
Proof. reflexivity. Qed.

(** With the key unset, no token ever decodes. *)
Lemma decode_token_None_Err now tok : is_ok (decode_token_opt None now tok) = false.
Proof. rewrite decode_token_None. by destruct (jwt_header_ok tok). Qed.

(** FastAPI's bearer dependency only raises 401 Not authenticated. *)
Lemma oauth2_scheme_Err a e : oauth2_scheme a = Err e -> e = not_authenticated.
Proof.
  unfold oauth2_scheme. destruct (get_authorization_scheme_param a) as [sc pa].
  by case_match; [intros [= <-] | discriminate].
Qed.

(** A route that decodes its token, with the key unset: 401 from the
    dependency or from [decode_token], or the 500 of PyJWT. *)
Lemma token_route_None now a (k : string -> result exc jval) :
  (forall tok, exists p, k tok = (let* payload := decode_token_opt None now tok in p payload)) ->
  status (to_response_opt (let* token := lift_http (oauth2_scheme a) in k token)) = 401 \/
  status (to_response_opt (let* token := lift_http (oauth2_scheme a) in k token)) = 500.
Proof.
  intros Hk. destruct (oauth2_scheme a) as [tok|e] eqn:Ha; simpl.
  - destruct (Hk tok) as [p ->]. rewrite decode_token_None.
    destruct (jwt_header_ok tok); simpl; auto.
  - apply oauth2_scheme_Err in Ha as ->. simpl. auto.
Qed.

(** C16: with [SECRET_KEY] unset (in the environment and in [.env]),
    the service cannot issue or accept tokens. [/token] answers 500,
    not 200, for valid credentials (the 401 of bad ones is raised
    before [jwt.encode]). A bearer token on [/show_drift] gets 500 when
    it is well-formed and 401 otherwise, and [/show_drift] and
    [/generate_report/] answer only 401 or 500. *)
Theorem unset_secret_key_no_tokens env dotenv now :
  controller_SECRET_KEY env dotenv = None ->
  (forall u pw, status (to_response_opt (app_opt (controller_SECRET_KEY env dotenv) now (PostToken u pw))) =
     match authenticate_user u pw with Some _ => 500 | None => 401 end) /\
  (forall tok, status (to_response_opt (app_opt (controller_SECRET_KEY env dotenv) now
                                          (GetShowDrift (Some ("Bearer " +:+ tok))))) =
     if jwt_header_ok tok then 500 else 401) /\
  (forall a, status (to_response_opt (app_opt (controller_SECRET_KEY env dotenv) now (GetShowDrift a))) = 401 \/
             status (to_response_opt (app_opt (controller_SECRET_KEY env dotenv) now (GetShowDrift a))) = 500) /\
  (forall a f ind,
     status (to_response_opt (app_opt (controller_SECRET_KEY env dotenv) now (PostGenerateReport a f ind))) = 401 \/
     status (to_response_opt (app_opt (controller_SECRET_KEY env dotenv) now (PostGenerateReport a f ind))) = 500).
Proof.
  intros ->. split; [|split; [|split]].
  - intros u pw. cbn [app_opt]. unfold login_opt. by destruct (authenticate_user u pw).
  - intros tok. cbn [app_opt]. rewrite oauth2_scheme_bearer. cbn [lift_http res_bind]. unfold show_drift_opt.
    rewrite decode_token_None. by destruct (jwt_header_ok tok).
  - intros a. cbn [app_opt]. apply (token_route_None now). intros tok. eexists. reflexivity.
  - intros a f ind. cbn [app_opt]. apply (token_route_None now). intros tok. eexists. reflexivity.
Qed.

End UnsetLemmas.

(** ** Witnesses *)

(** No [SECRET_KEY] anywhere: the admin's login answers 500. *)
Lemma unset_secret_key_no_tokens_witness :
  controller_SECRET_KEY ∅ ∅ = None /\
  status (to_response_opt (app_opt (controller_SECRET_KEY ∅ ∅) 0 (PostToken "admin" "adminpass"))) = 500.
Proof.
  assert (H : controller_SECRET_KEY ∅ ∅ = None) by reflexivity. split; [exact H|].
  rewrite (proj1 (unset_secret_key_no_tokens ∅ ∅ 0 H) "admin" "adminpass").
  by rewrite authenticate_admin.
Defined.

End Config.
